(** * Batman chatbot: query-resolution pipeline

    A shallow embedding of the query-resolution pipeline of the chatbot
    ([chatbot/core/query_processor.py], [relationship_processor.py],
    [intelligent_search.py], [enhanced_comparisons.py],
    [conversation_intelligence.py] and [batman_chatbot.py]) together with the
    properties of its matching, routing and confidence logic.

    Conventions of the embedding:
    - Python [str] is [string] (a byte string); [str.lower], [str.title] and
      the character classes act on ASCII letters, other bytes are kept.
    - Python [float] confidences are exact rationals [Q]; every float the
      pipeline compares is a small integer combined with a literal, for which
      the comparison results agree.
    - The fuzzywuzzy scorers, the [re] engine, the SQLite [LIKE] operator, the
      relation-table queries and the stochastic response generator are
      collaborators of the pipeline: they are fields of [Env] and [DB], and
      every theorem holds for all of them.
    - A raised Python exception is the outcome [Raise]. *)

From Stdlib Require Import String Ascii List ZArith QArith Qminmax Bool Lia Lqa Arith.
Import ListNotations.
Close Scope Q_scope.
Open Scope Z_scope.
Open Scope string_scope.

Set Implicit Arguments.

(* ================================================================== *)
(** ** Python string primitives *)
(* ================================================================== *)

Module Py.

Definition is_upper (c : ascii) : bool :=
  let n := nat_of_ascii c in ((65 <=? n) && (n <=? 90))%nat.

Definition is_lower (c : ascii) : bool :=
  let n := nat_of_ascii c in ((97 <=? n) && (n <=? 122))%nat.

Definition is_digit (c : ascii) : bool :=
  let n := nat_of_ascii c in ((48 <=? n) && (n <=? 57))%nat.

Definition is_alpha (c : ascii) : bool := is_upper c || is_lower c.

(** [\s] *)
Definition is_space (c : ascii) : bool :=
  let n := nat_of_ascii c in
  ((n =? 32) || ((9 <=? n) && (n <=? 13)))%nat.

(** [\w]: letters, digits, underscore; bytes of non-ASCII characters are
    counted as word characters. *)
Definition is_word (c : ascii) : bool :=
  let n := nat_of_ascii c in
  is_alpha c || is_digit c || (n =? 95)%nat || (128 <=? n)%nat.

Definition lower_char (c : ascii) : ascii :=
  if is_upper c then ascii_of_nat (nat_of_ascii c + 32) else c.

Definition upper_char (c : ascii) : ascii :=
  if is_lower c then ascii_of_nat (nat_of_ascii c - 32) else c.

(** [s.lower()] *)
Fixpoint lower (s : string) : string :=
  match s with
  | EmptyString => EmptyString
  | String c r => String (lower_char c) (lower r)
  end.

(** [s.upper()] *)
Fixpoint upper (s : string) : string :=
  match s with
  | EmptyString => EmptyString
  | String c r => String (upper_char c) (upper r)
  end.

(** [s.title()]: a letter that follows a letter is lowered, any other
    letter is raised. *)
Fixpoint title_aux (prev_cased : bool) (s : string) : string :=
  match s with
  | EmptyString => EmptyString
  | String c r =>
      String (if prev_cased then lower_char c else upper_char c)
             (title_aux (is_alpha c) r)
  end.

Definition title (s : string) : string := title_aux false s.

(** [needle in hay] *)
Fixpoint is_in (needle hay : string) : bool :=
  String.prefix needle hay
  || match hay with
     | EmptyString => false
     | String _ r => is_in needle r
     end.

(** [any(k in s for k in keys)] *)
Definition any_in (keys : list string) (s : string) : bool :=
  existsb (fun k => is_in k s) keys.

Definition startswith (s p : string) : bool := String.prefix p s.

Fixpoint drop (n : nat) (s : string) : string :=
  match n, s with
  | O, _ => s
  | S k, EmptyString => EmptyString
  | S k, String _ r => drop k r
  end.

(** [s[:n]] *)
Fixpoint take (n : nat) (s : string) : string :=
  match n, s with
  | O, _ => EmptyString
  | S k, EmptyString => EmptyString
  | S k, String c r => String c (take k r)
  end.

Fixpoint replace_aux (old new : string) (skip : nat) (s : string) : string :=
  match s with
  | EmptyString => EmptyString
  | String c r =>
      match skip with
      | S k => replace_aux old new k r
      | O =>
          if String.prefix old s
          then new ++ replace_aux old new (String.length old - 1) r
          else String c (replace_aux old new O r)
      end
  end.

Fixpoint intersperse (new s : string) : string :=
  match s with
  | EmptyString => new
  | String c r => new ++ String c (intersperse new r)
  end.

(** [s.replace(old, new)]: every non-overlapping occurrence, left to
    right. *)
Definition replace (old new s : string) : string :=
  match old with
  | EmptyString => intersperse new s
  | _ => replace_aux old new O s
  end.

Fixpoint lstrip (s : string) : string :=
  match s with
  | EmptyString => EmptyString
  | String c r => if is_space c then lstrip r else s
  end.

Fixpoint rstrip (s : string) : string :=
  match s with
  | EmptyString => EmptyString
  | String c r =>
      match rstrip r with
      | EmptyString => if is_space c then EmptyString else String c EmptyString
      | r' => String c r'
      end
  end.

(** [s.strip()] *)
Definition strip (s : string) : string := rstrip (lstrip s).

Fixpoint split_aux (cur : string) (s : string) : list string :=
  match s with
  | EmptyString => match cur with EmptyString => [] | _ => [cur] end
  | String c r =>
      if is_space c
      then match cur with
           | EmptyString => split_aux EmptyString r
           | _ => cur :: split_aux EmptyString r
           end
      else split_aux (cur ++ String c EmptyString) r
  end.

(** [s.split()] *)
Definition split (s : string) : list string := split_aux EmptyString s.

(** [re.findall(r'\b\w+\b', s)]: the maximal runs of word characters. *)
Fixpoint words_aux (cur : string) (s : string) : list string :=
  match s with
  | EmptyString => match cur with EmptyString => [] | _ => [cur] end
  | String c r =>
      if is_word c
      then words_aux (cur ++ String c EmptyString) r
      else match cur with
           | EmptyString => words_aux EmptyString r
           | _ => cur :: words_aux EmptyString r
           end
  end.

Definition words (s : string) : list string := words_aux EmptyString s.

(** [sep.join(l)] *)
Definition join (sep : string) (l : list string) : string := String.concat sep l.

Fixpoint filter_chars (p : ascii -> bool) (s : string) : string :=
  match s with
  | EmptyString => EmptyString
  | String c r => if p c then String c (filter_chars p r) else filter_chars p r
  end.

Fixpoint count_char (c : ascii) (s : string) : nat :=
  match s with
  | EmptyString => O
  | String d r => ((if Ascii.eqb c d then 1 else 0) + count_char c r)%nat
  end.

(** [x in l] for a list of strings *)
Definition mem (x : string) (l : list string) : bool :=
  existsb (String.eqb x) l.

(** [d.get(k)] for a dict given by its items in insertion order *)
Fixpoint get {A} (d : list (string * A)) (k : string) : option A :=
  match d with
  | [] => None
  | (k', v) :: r => if String.eqb k k' then Some v else get r k
  end.

(** [sorted(l, key=..., reverse=True)]: a stable sort, [ge x y] telling
    that the key of [x] is at least the key of [y]. *)
Fixpoint insert_desc {A} (ge : A -> A -> bool) (x : A) (l : list A) : list A :=
  match l with
  | [] => [x]
  | y :: ys => if ge x y then x :: l else y :: insert_desc ge x ys
  end.

Definition sorted_desc {A} (ge : A -> A -> bool) (l : list A) : list A :=
  fold_right (insert_desc ge) [] l.

(** [max(l, key=...)]: the first element with the largest key, [ge x y]
    telling that the key of [x] is at least the key of [y]. *)
Fixpoint max_by {A} (ge : A -> A -> bool) (l : list A) : option A :=
  match l with
  | [] => None
  | x :: r =>
      match max_by ge r with
      | Some y => if ge x y then Some x else Some y
      | None => Some x
      end
  end.

(** The first decimal number of a string, as [re.search(r'(\d+(?:\.\d+)?)')]
    followed by [float] reads it. *)
Definition digit_val (c : ascii) : Z := Z.of_nat (nat_of_ascii c) - 48.

(** digits of the integer part, [acc] being the value read so far *)
Fixpoint read_int (acc : Z) (s : string) : Z * string :=
  match s with
  | String c r => if is_digit c then read_int (10 * acc + digit_val c) r else (acc, s)
  | EmptyString => (acc, s)
  end.

(** digits of the fraction: numerator and denominator read so far *)
Fixpoint read_frac (num : Z) (den : positive) (s : string) : Z * positive :=
  match s with
  | String c r =>
      if is_digit c then read_frac (10 * num + digit_val c) (10 * den) r
      else (num, den)
  | EmptyString => (num, den)
  end.

Fixpoint first_number (s : string) : option Q :=
  match s with
  | EmptyString => None
  | String c r =>
      if is_digit c then
        let '(n, rest) := read_int 0 s in
        match rest with
        | String "." (String d _ as frac) =>
            if is_digit d then
              let '(num, den) := read_frac n 1 frac in Some (Qmake num den)
            else Some (inject_Z n)
        | _ => Some (inject_Z n)
        end
      else first_number r
  end.

(** [re.search(r'(\d+)', s)]: the first run of digits *)
Fixpoint first_int (s : string) : option Z :=
  match s with
  | EmptyString => None
  | String c r => if is_digit c then Some (fst (read_int 0 s)) else first_int r
  end.

End Py.

(* ================================================================== *)
(** ** Outcomes of calls *)
(* ================================================================== *)

(** A call returns a value, raises a Python exception, or (in the model only)
    exhausts the recursion budget of [process_query]. *)
Inductive outcome (A : Type) : Type :=
| Return (a : A)
| Raise (exn : string)
| OutOfFuel.

Arguments Return {A} a.
Arguments Raise {A} exn.
Arguments OutOfFuel {A}.

Definition bind {A B} (m : outcome A) (k : A -> outcome B) : outcome B :=
  match m with
  | Return a => k a
  | Raise e => Raise e
  | OutOfFuel => OutOfFuel
  end.

Notation "'do' x <- m ; k" := (bind m (fun x => k))
  (at level 10, x pattern, m at level 100, k at level 200).

(* ================================================================== *)
(** ** Data model *)
(* ================================================================== *)

(** A row of one of the five entity tables ([id], [name], [description]);
    the importer stores [''] for a missing description. *)
Record Row := mkRow {
  row_id : string;
  row_name : string;
  row_description : string
}.

(** [EntityMatch] of [query_processor.py] *)
Record EntityMatch := mkEntityMatch {
  em_entity_id : string;
  em_entity_type : string;
  em_name : string;
  em_confidence : Q;
  em_match_type : string   (* exact, fuzzy, alias, description, character_vehicle *)
}.

(** [SearchResult] of [intelligent_search.py] *)
Record SearchResult := mkSearchResult {
  sr_entity_id : string;
  sr_entity_type : string;
  sr_name : string;
  sr_description : string;
  sr_confidence : Q;
  sr_match_type : string;
  sr_context : string
}.

(** An entry of the entity cache: the dict built by [_build_entity_cache];
    [is_alias] and [real_name] are present on alias pseudo-entities only. *)
Record CacheEntity := mkCacheEntity {
  ce_id : string;
  ce_name : string;
  ce_description : string;
  ce_is_alias : bool;
  ce_real_name : option string
}.

(** The entity cache: a dict with the five keys below. *)
Record Cache := mkCache {
  cache_characters : list CacheEntity;
  cache_vehicles : list CacheEntity;
  cache_locations : list CacheEntity;
  cache_storylines : list CacheEntity;
  cache_organizations : list CacheEntity
}.

(** [cache[etype]] when [etype in cache] *)
Definition cache_get (c : Cache) (etype : string) : option (list CacheEntity) :=
  if etype =? "characters" then Some (cache_characters c)
  else if etype =? "vehicles" then Some (cache_vehicles c)
  else if etype =? "locations" then Some (cache_locations c)
  else if etype =? "storylines" then Some (cache_storylines c)
  else if etype =? "organizations" then Some (cache_organizations c)
  else None.

Definition all_entity_types : list string :=
  ["characters"; "vehicles"; "locations"; "storylines"; "organizations"].

(** The store behind the SQLite connection.  The five entity tables and the
    alias table are given by their rows in storage order; every other query
    of the pipeline is a field, named after the relation it reads. *)
Record DB := mkDB {
  characters : list Row;
  character_aliases : list (string * string);        (* character_id, alias *)
  vehicles : list Row;
  locations : list Row;
  storylines : list Row;
  organizations : list Row;
  (** [SELECT weapon FROM vehicle_weapons WHERE vehicle_id = ?] *)
  vehicle_weapons : string -> list string;
  (** [SELECT defensive_system FROM vehicle_defensive_systems WHERE vehicle_id = ?] *)
  vehicle_defensive_systems : string -> list string;
  (** [SELECT special_feature FROM vehicle_special_features WHERE vehicle_id = ?] *)
  vehicle_special_features : string -> list string;
  (** [SELECT * FROM vehicle_specifications WHERE vehicle_id = ?]: the row as
      a dict, column by column, [None] for NULL *)
  vehicle_specifications : string -> option (list (string * option string));
  (** [character_locations JOIN locations WHERE character_id = ?], with the
      association type *)
  character_locations : string -> list (Row * string);
  (** the same join [ORDER BY l.name] *)
  character_locations_by_name : string -> list (Row * string);
  (** [vehicle_users JOIN characters WHERE vehicle_id = ?] *)
  vehicle_users : string -> list Row;
  (** [vehicles JOIN vehicle_users WHERE character_id = ?] *)
  vehicles_of_character : string -> list Row;
  (** [character_relationships JOIN characters WHERE character_id = ? LIMIT 10],
      with the relationship type *)
  character_relationships : string -> list (Row * string);
  (** [SELECT power_ability FROM character_powers WHERE character_id = ?] *)
  character_powers : string -> list string;
  (** [SELECT max_speed FROM vehicle_specifications WHERE vehicle_id = ?] *)
  vehicle_max_speed : string -> option string;
  (** the grouped join of [_get_vehicle_specs] on [LOWER(v.name) LIKE ?]:
      max_speed, whether armor is set, weapon count, defense count *)
  vehicle_specs_like : string -> option (option string * bool * Z * Z);
  (** best FTS5 hit of a table for a query and its rank; [None] also when the
      FTS table is missing or the query is rejected *)
  fts_best : string -> string -> option (Row * Q);
  (** [WHERE description LIKE ? ORDER BY LENGTH(description) LIMIT 1] *)
  shortest_description_like : string -> string -> option Row
}.

(** [db.<table>] by table name *)
Definition table (db : DB) (t : string) : list Row :=
  if t =? "characters" then characters db
  else if t =? "vehicles" then vehicles db
  else if t =? "locations" then locations db
  else if t =? "storylines" then storylines db
  else if t =? "organizations" then organizations db
  else [].

(** [ResponseContext] of [response_generator.py] *)
Record ResponseContext := mkResponseContext {
  rc_entity : Row;
  rc_entity_type : string;
  rc_query_intent : string;
  rc_user_query : string;
  rc_confidence : Q
}.

(** Libraries the pipeline calls. *)
Record Env := mkEnv {
  (** the score [process.extract] gives a choice for a query (default
      processor and scorer of fuzzywuzzy) *)
  wratio : string -> string -> Z;
  (** [fuzz.ratio], [fuzz.partial_ratio], [fuzz.token_sort_ratio] *)
  fuzz_ratio : string -> string -> Z;
  fuzz_partial_ratio : string -> string -> Z;
  fuzz_token_sort_ratio : string -> string -> Z;
  (** [re.search(pattern, s)]: the groups of the first match, group 1 first *)
  re_search : string -> string -> option (list string);
  (** [re.search(pattern, s, re.IGNORECASE)] *)
  re_search_i : string -> string -> option (list string);
  (** [re.sub(pattern, repl, s, flags=re.IGNORECASE)] *)
  re_sub_i : string -> string -> string -> string;
  (** SQLite [text LIKE pattern] *)
  sql_like : string -> string -> bool;
  (** [BatmanResponseGenerator.generate_response]; it draws random templates,
      the second argument is the state of the random source *)
  generate_response : ResponseContext -> nat -> string;
  (** [str(int(c * 100))] in float arithmetic *)
  percent_text : Q -> string;
  (** [str(n)] for an integer *)
  int_text : Z -> string;
  (** [_clean_entity_name] (URL-decoding and regex clean-up of a name) *)
  clean_entity_name : string -> string;
  (** [_improve_description_formatting] *)
  improve_description_formatting : string -> string
}.

Definition group (n : nat) (groups : list string) : string :=
  nth (n - 1) groups "".

(* ================================================================== *)
(** ** query_processor.py: AdvancedQueryProcessor *)
(* ================================================================== *)

Section QueryProcessor.

Variable E : Env.

(** [_build_entity_cache]: every row of the five tables, and after the
    characters every alias row of the join
    [characters c JOIN character_aliases ca ON c.id = ca.character_id]
    as a pseudo-entity named by the alias. *)
Definition entity_of_row (r : Row) : CacheEntity :=
  mkCacheEntity (row_id r) (row_name r) (row_description r) false None.

Definition alias_entity (c : Row) (alias : string) : CacheEntity :=
  mkCacheEntity (row_id c) alias "" true (Some (row_name c)).

Definition alias_join (db : DB) : list (Row * string) :=
  flat_map (fun c =>
    map (fun ca => (c, snd ca))
        (filter (fun ca => fst ca =? row_id c) (character_aliases db)))
    (characters db).

Definition _build_entity_cache (db : DB) : Cache :=
  mkCache
    (map entity_of_row (characters db)
       ++ map (fun ca => alias_entity (fst ca) (snd ca)) (alias_join db))%list
    (map entity_of_row (vehicles db))
    (map entity_of_row (locations db))
    (map entity_of_row (storylines db))
    (map entity_of_row (organizations db)).

(** [process.extract(query, choices, limit=n)]: every choice with its score,
    the [n] best in descending score order, ties in the order of [choices]. *)
Definition score_ge (x y : string * Z) : bool := snd x >=? snd y.

Definition extract (query : string) (choices : list string) (limit : nat)
  : list (string * Z) :=
  firstn limit
    (Py.sorted_desc score_ge (map (fun c => (c, wratio E query c)) choices)).

Definition alias_mappings : list (string * string) :=
  [ ("city of gotham", "gotham city");
    ("batman's base", "batcave");
    ("batman base", "batcave");
    ("where does batman live", "wayne manor");
    ("batman's car", "batmobile");
    ("batman car", "batmobile");
    ("what does batman drive", "batmobile");
    ("batman's plane", "batwing");
    ("batman plane", "batwing");
    ("dark knight", "batman");
    ("caped crusader", "batman");
    ("world's greatest detective", "batman");
    ("clown prince of crime", "joker");
    ("scarecrow real name", "jonathan crane");
    ("scarecrow's real name", "jonathan crane");
    ("batman's primary mode of transportation", "batmobile") ].

(** the first alias phrase found in the query is replaced, then the loop
    breaks *)
Fixpoint apply_alias (mappings : list (string * string)) (query_lower : string)
  : string :=
  match mappings with
  | [] => query_lower
  | (alias, canonical) :: rest =>
      if Py.is_in alias query_lower
      then Py.replace alias canonical query_lower
      else apply_alias rest query_lower
  end.

Definition stop_words : list string :=
  ["who"; "is"; "what"; "where"; "the"; "a"; "an"; "tell"; "me"; "about";
   "does"; "usually"; "operate"].

(** [re.sub(r'[^\w\s]', '', word)] *)
Definition remove_punctuation (word : string) : string :=
  Py.filter_chars (fun c => Py.is_word c || Py.is_space c) word.

Definition _clean_query_for_matching (query : string) : string :=
  let query_lower := apply_alias alias_mappings (Py.lower query) in
  let words := Py.split query_lower in
  let cleaned_words :=
    filter (fun w => negb (w =? "") && negb (Py.mem w stop_words))
           (map remove_punctuation words) in
  Py.join " " cleaned_words.

Definition main_characters : list string :=
  ["batman"; "robin"; "joker"; "catwoman"; "penguin"; "riddler";
   "two_face"; "harvey_dent"; "scarecrow"; "poison_ivy"; "mr_freeze";
   "bane"; "harley_quinn"; "ra_s_al_ghul"; "alfred"; "commissioner_gordon";
   "batgirl"; "nightwing"; "red_hood"; "red_robin"].

Definition main_locations : list string :=
  ["gotham_city"; "arkham_asylum"; "wayne_manor"; "batcave";
   "gcpd"; "ace_chemicals"; "blackgate_prison"].

Definition main_vehicles : list string :=
  ["batmobile"; "batplane"; "batwing"; "batboat"].

Definition _calculate_importance_bonus (entity_name etype : string) : Q :=
  let name_lower := Py.lower entity_name in
  if (etype =? "characters") && Py.any_in main_characters name_lower then 0.2%Q
  else if (etype =? "locations") && Py.any_in main_locations name_lower then 0.15%Q
  else if (etype =? "vehicles") && Py.any_in main_vehicles name_lower then 0.15%Q
  else if (List.length (Py.split (Py.replace "_" " " entity_name)) <=? 2)%nat then 0.05%Q
  else 0%Q.

(** [next(entity for name, entity in entity_names if name == match_name)] *)
Definition entity_named (entities : list CacheEntity) (match_name : string)
  : option CacheEntity :=
  find (fun e => ce_name e =? match_name) entities.

(** the [EntityMatch] both matchers build from a cache entry: the alias
    pseudo-entity carries the id of its character and reports the
    character's name *)
Definition match_of_entity (etype : string) (e : CacheEntity) (conf : Q)
  : EntityMatch :=
  mkEntityMatch (ce_id e) etype
    (match ce_real_name e with Some r => r | None => ce_name e end)
    conf
    (if ce_is_alias e then "alias" else "fuzzy").

(** an element of [candidates] in [find_best_entity_match] *)
Record Candidate := mkCandidate {
  cand_entity : EntityMatch;
  final_score : Q;
  original_score : Z;
  importance_bonus : Q
}.

Definition candidate_of (etype : string) (entities : list CacheEntity)
           (threshold : Z) (m : string * Z) : list Candidate :=
  let '(match_name, score) := m in
  if score >=? Z.max threshold 50 then
    match entity_named entities match_name with
    | Some matched_entity =>
        let bonus := _calculate_importance_bonus (ce_name matched_entity) etype in
        [ mkCandidate
            (match_of_entity etype matched_entity (inject_Z score / 100)%Q)
            (inject_Z score + bonus * 100)%Q
            score bonus ]
    | None => []      (* cannot happen: [match_name] is one of the names *)
    end
  else [].

Definition candidates (etype : string) (entities : list CacheEntity)
           (clean_query : string) (threshold : Z) : list Candidate :=
  flat_map (candidate_of etype entities threshold)
           (extract clean_query (map ce_name entities) 5).

(** [if candidate['final_score'] > best_score: ...] *)
Definition better (best : option EntityMatch * Q) (c : Candidate)
  : option EntityMatch * Q :=
  if Qlt_le_dec (snd best) (final_score c)
  then (Some (cand_entity c), final_score c)
  else best.

Definition search_types (etype : option string) : list string :=
  match etype with
  | Some t => [t]
  | None => all_entity_types
  end.

(** all candidates in the order the loops meet them *)
Definition all_candidates (cache : Cache) (clean_query : string)
           (etype : option string) (threshold : Z) : list Candidate :=
  flat_map (fun t =>
    match cache_get cache t with
    | None => []
    | Some entities => candidates t entities clean_query threshold
    end) (search_types etype).

Definition find_best_entity_match (cache : Cache) (query : string)
           (etype : option string) (threshold : Z) : option EntityMatch :=
  let clean_query := _clean_query_for_matching query in
  fst (fold_left better (all_candidates cache clean_query etype threshold)
                 (None, 0%Q)).

Definition entity_importance : list (string * Z) :=
  [ ("Batman", 100); ("Joker", 95); ("Robin_(Dick_Grayson)", 90);
    ("Robin_(Tim_Drake)", 85); ("Robin_(Damian_Wayne)", 80);
    ("Alfred_Pennyworth", 85); ("Commissioner_Gordon", 80);
    ("Nightwing", 80); ("Batgirl", 75); ("Catwoman", 80); ("Two-Face", 70);
    ("Penguin", 70); ("Riddler", 70); ("Bane", 75); ("Scarecrow", 65);
    ("Harley_Quinn", 70); ("Poison_Ivy", 65); ("Batmobile", 90);
    ("Batwing", 80); ("Wayne_Manor", 80); ("Gotham_City", 90);
    ("Arkham_Asylum", 75) ].

Definition importance_boost (entity_name : string) : Z :=
  match Py.get entity_importance entity_name with
  | Some v => v
  | None => 0
  end.

(** [boosted_score = score + importance_boost * 0.1] and
    [confidence = min(boosted_score / 100.0, 1.0)] *)
Definition boosted_confidence (entity_name : string) (score : Z) : Q :=
  Qmin ((inject_Z score + inject_Z (importance_boost entity_name) * 0.1) / 100)%Q 1%Q.

Definition multi_match_of (etype : string) (entities : list CacheEntity)
           (threshold : Z) (m : string * Z) : list EntityMatch :=
  let '(match_name, score) := m in
  if score >=? threshold then
    match entity_named entities match_name with
    | Some matched_entity =>
        [ match_of_entity etype matched_entity
            (boosted_confidence (ce_name matched_entity) score) ]
    | None => []      (* cannot happen *)
    end
  else [].

Definition confidence_ge (x y : EntityMatch) : bool :=
  Qle_bool (em_confidence y) (em_confidence x).

(** the matches before sorting; [self.entity_cache[entity_type]] is defined
    for each of the five types *)
Definition multi_matches (cache : Cache) (clean_query : string) (threshold : Z)
  : list EntityMatch :=
  flat_map (fun t =>
    match cache_get cache t with
    | None => []
    | Some entities =>
        flat_map (multi_match_of t entities threshold)
                 (extract clean_query (map ce_name entities) 8)
    end) all_entity_types.

Definition find_multiple_entities (cache : Cache) (query : string)
           (max_results : nat) (threshold : Z) : list EntityMatch :=
  let clean_query := _clean_query_for_matching query in
  firstn max_results
    (Py.sorted_desc confidence_ge (multi_matches cache clean_query threshold)).

End QueryProcessor.

Section QueryProcessorSearch.

Variable E : Env.

Definition keyword_stop_words : list string :=
  ["who"; "is"; "what"; "where"; "when"; "how"; "the"; "a"; "an"; "and";
   "or"; "but"; "tell"; "me"; "about"; "can"; "you"].

Definition _extract_keywords (query : string) : list string :=
  filter (fun w => negb (Py.mem w keyword_stop_words)
                   && (2 <? String.length w)%nat)
         (Py.words (Py.lower query)).

(** relevance of one entity in [semantic_search] *)
Definition semantic_score (keywords : list string) (e : CacheEntity) : Z :=
  let description := Py.lower (ce_description e) in
  let name := Py.lower (ce_name e) in
  let score :=
    fold_left (fun acc keyword =>
      if Py.is_in keyword name then acc + 20
      else if Py.is_in keyword description then acc + 10
      else acc) keywords 0 in
  let keyword_matches :=
    Z.of_nat (List.length (filter (fun keyword =>
      Py.is_in keyword description || Py.is_in keyword name) keywords)) in
  if keyword_matches >? 1 then score + keyword_matches * 5 else score.

Definition semantic_match (keywords : list string) (etype : string)
           (e : CacheEntity) : list EntityMatch :=
  let score := semantic_score keywords e in
  if score >? 0 then
    [ mkEntityMatch (ce_id e) etype (ce_name e)
        (Qmin (inject_Z score / 100)%Q 1%Q) "description" ]
  else [].

Definition semantic_search (cache : Cache) (query : string)
           (etype : option string) (max_results : nat) : list EntityMatch :=
  let keywords := _extract_keywords query in
  let matches :=
    flat_map (fun t =>
      match cache_get cache t with
      | None => []
      | Some entities => flat_map (semantic_match keywords t) entities
      end) (search_types etype) in
  firstn max_results (Py.sorted_desc confidence_ge matches).

(** the dict [handle_ambiguous_query] returns, by its ['type'] *)
Inductive Ambiguous : Type :=
| no_matches (message : string) (suggestions : list string)
| single_match (m : EntityMatch) (message : string)
| multiple_matches (matches : list EntityMatch) (message : string)
                   (suggestions : list string).

Definition _get_random_suggestions : list string :=
  firstn 3 ["Batman"; "Joker"; "Batmobile"; "Gotham City"; "Robin";
            "Alfred"; "Catwoman"; "Bane"; "Two-Face"; "Arkham Asylum"].

Definition handle_ambiguous_query (cache : Cache) (query : string) : Ambiguous :=
  let potential_matches := find_multiple_entities E cache query 5 50 in
  match potential_matches with
  | [] =>
      no_matches
        ("I couldn't find any Batman universe information for '" ++ query
           ++ "'. Try being more specific.")
        _get_random_suggestions
  | [m] => single_match m ("I found one match for '" ++ query ++ "'")
  | _ =>
      multiple_matches potential_matches
        ("I found multiple matches for '" ++ query
           ++ "'. Which one did you mean?")
        (map em_name potential_matches)
  end.

(** *** Character-specific vehicle resolution *)

Definition _is_character_vehicle_match (character_name vehicle_name : string)
  : bool :=
  let character_lower := Py.lower character_name in
  let vehicle_lower := Py.lower vehicle_name in
  if Py.is_in character_lower vehicle_lower then true
  else if character_lower =? "batman" then
    Py.any_in ["batmobile"; "batcycle"; "batwing"; "batboat"; "batcopter"]
              vehicle_lower
  else if character_lower =? "joker" then false
  else if Py.mem character_lower ["two face"; "two-face"; "twoface"] then
    Py.any_in ["two-face"; "two_face"; "twoface"] vehicle_lower
  else if character_lower =? "penguin" then Py.is_in "penguin" vehicle_lower
  else if character_lower =? "riddler" then Py.is_in "riddler" vehicle_lower
  else if character_lower =? "catwoman" then
    Py.any_in ["catwoman"; "catmobile"; "catcycle"; "catboat"] vehicle_lower
  else if Py.mem character_lower ["harvey dent"; "harvey"] then
    Py.any_in ["two-face"; "two_face"; "harvey"; "dent"] vehicle_lower
  else false.

(** the bonus of the query context, for a query about driving or a car *)
Definition drive_bonus (character_name vehicle_name : string) : Z :=
  if Py.any_in ["mobile"; "car"; "vehicle"] vehicle_name then 25
  else if Py.any_in ["cycle"; "bike"] vehicle_name then 15
  else if Py.any_in ["copter"; "plane"; "wing"] vehicle_name then 5
  else if Py.any_in ["boat"; "sub"; "ship"; "submarine"] vehicle_name then
    if (Py.lower character_name =? "penguin") && Py.is_in "submarine" vehicle_name
    then 15 else -10
  else if Py.any_in ["train"; "rail"] vehicle_name then -15
  else 0.

(** the bonus of iconic vehicles *)
Definition iconic_bonus (character_name vehicle_name : string) : Z :=
  let c := Py.lower character_name in
  if c =? "joker" then
    if Py.is_in "jokermobile" vehicle_name
       && negb (Py.is_in "dozierverse" vehicle_name) then 30
    else if Py.is_in "jokermobile" vehicle_name then 20
    else if Py.is_in "goon_car" vehicle_name then 10
    else 0
  else if c =? "batman" then
    if (vehicle_name =? "batmobile")
       || (Py.is_in "batmobile" vehicle_name
           && (Py.count_char "_" vehicle_name + 1 <=? 2)%nat) then 30
    else 0
  else if c =? "penguin" then
    if Py.is_in "submarine" vehicle_name then 30
    else if Py.is_in "penguin" vehicle_name then 20
    else 0
  else 0.

Definition _calculate_vehicle_score (vehicle : CacheEntity)
           (character_name query : string) : Z :=
  let vehicle_name := Py.lower (ce_name vehicle) in
  let fuzzy_score := fuzz_ratio E (Py.lower character_name) vehicle_name in
  let query_lower := Py.lower query in
  fuzzy_score
  + (if Py.is_in "drive" query_lower || Py.is_in "car" query_lower
     then drive_bonus character_name vehicle_name else 0)
  + iconic_bonus character_name vehicle_name
  - (if Py.is_in "(" vehicle_name || Py.is_in "verse" vehicle_name then 5 else 0)
  - (if Py.is_in "%" vehicle_name then 3 else 0).

Definition _find_character_vehicle (cache : Cache)
           (character_name original_query : string) (threshold : Z)
  : option EntityMatch :=
  let character_vehicles :=
    filter (fun v => _is_character_vehicle_match character_name (ce_name v))
           (cache_vehicles cache) in
  let scored_vehicles :=
    filter (fun vs => snd vs >=? threshold)
           (map (fun v => (v, _calculate_vehicle_score v character_name
                                original_query))
                character_vehicles) in
  match Py.max_by (fun x y => snd x >=? snd y) scored_vehicles with
  | None => None
  | Some (best_vehicle, best_score) =>
      Some (mkEntityMatch (ce_id best_vehicle) "vehicles" (ce_name best_vehicle)
              (Qmin (inject_Z best_score / 100)%Q 1%Q) "character_vehicle")
  end.

Definition character_patterns : list string :=
  [ "what (?:does|do) (.+?) (?:drive|use|pilot|operate)";
    "what (?:car|vehicle|transportation) (?:does|do) (.+?) (?:drive|use|have)";
    "(.+?)(?:'s|s) (?:car|vehicle|mobile)" ].

(** the first pattern of a list that matches, with its groups *)
Fixpoint first_search (patterns : list string) (s : string)
  : option (list string) :=
  match patterns with
  | [] => None
  | p :: rest =>
      match re_search E p s with
      | Some groups => Some groups
      | None => first_search rest s
      end
  end.

Definition find_best_vehicle_match (cache : Cache) (query : string)
           (threshold : Z) : option EntityMatch :=
  let clean_query := _clean_query_for_matching query in
  let original_query := Py.lower query in
  let character_name :=
    match first_search character_patterns original_query with
    | Some groups => Py.strip (group 1 groups)
    | None => ""
    end in
  if negb (character_name =? "") then
    let character_threshold := Z.min threshold 40 in
    _find_character_vehicle cache character_name original_query
                            character_threshold
  else
    find_best_entity_match E cache clean_query (Some "vehicles") threshold.

End QueryProcessorSearch.

(* ================================================================== *)
(** ** relationship_processor.py: RelationshipProcessor *)
(* ================================================================== *)

(** the dict [_find_entity] returns: the row and the table it was found in *)
Record FoundEntity := mkFoundEntity {
  fe_row : Row;
  fe_type : string
}.

(** [RelationshipResult] of [relationship_processor.py]; each dict of
    [related_data] is kept by the one column the composer reads *)
Record RelationshipResult := mkRelationshipResult {
  rr_query_type : string;
  rr_primary_entity : FoundEntity;
  rr_related_data : list string;
  rr_explanation : string;
  rr_confidence : Q
}.

Section RelationshipProcessor.

Variable E : Env.
Variable db : DB.

Fixpoint first_some {A B} (f : A -> option B) (l : list A) : option B :=
  match l with
  | [] => None
  | x :: r => match f x with Some y => Some y | None => first_some f r end
  end.

Definition _find_entity (entity_name : string) : option FoundEntity :=
  let clean_name := Py.title (Py.replace " " "_" (Py.strip entity_name)) in
  first_some (fun t =>
    match find (fun r => row_name r =? clean_name) (table db t) with
    | Some r => Some (mkFoundEntity r t)
    | None =>
        match find (fun r => sql_like E (row_name r) ("%" ++ clean_name ++ "%"))
                   (table db t) with
        | Some r => Some (mkFoundEntity r t)
        | None => None
        end
    end)
    ["characters"; "vehicles"; "locations"; "organizations"; "storylines"].

Definition shown (entity : FoundEntity) : string :=
  clean_entity_name E (row_name (fe_row entity)).

Definition weapon_keywords : list string :=
  ["gun"; "pistol"; "rifle"; "sword"; "knife"; "weapon"; "armed"; "carries"].

Definition process_weapons_query (entity_name : string)
  : option RelationshipResult :=
  match _find_entity entity_name with
  | None => None
  | Some entity =>
      if fe_type entity =? "vehicles" then
        match vehicle_weapons db (row_id (fe_row entity)) with
        | [] =>
            Some (mkRelationshipResult "weapons" entity []
              ("No specific weapon data is available for " ++ shown entity
                 ++ " in the current database. The " ++ shown entity
                 ++ " may have weapons not yet catalogued.")
              0.6%Q)
        | weapon_list =>
            Some (mkRelationshipResult "weapons" entity weapon_list
              (shown entity ++ " is equipped with: " ++ Py.join ", " weapon_list)
              1.0%Q)
        end
      else if fe_type entity =? "characters" then
        let description := Py.lower (row_description (fe_row entity)) in
        match filter (fun kw => Py.is_in kw description) weapon_keywords with
        | [] => None
        | found_weapons =>
            Some (mkRelationshipResult "character_weapons" entity []
              ("Based on available information, " ++ shown entity
                 ++ " appears to be associated with weapons: "
                 ++ Py.join ", " found_weapons)
              0.7%Q)
        end
      else None
  end.

Definition process_defense_query (entity_name : string)
  : option RelationshipResult :=
  match _find_entity entity_name with
  | None => None
  | Some entity =>
      if fe_type entity =? "vehicles" then
        match vehicle_defensive_systems db (row_id (fe_row entity)) with
        | [] =>
            Some (mkRelationshipResult "defenses" entity []
              ("No specific defensive system data is available for "
                 ++ shown entity ++ " in the current database. The "
                 ++ shown entity ++ " may have defenses not yet catalogued.")
              0.6%Q)
        | defense_list =>
            Some (mkRelationshipResult "defenses" entity defense_list
              (shown entity ++ " has defensive systems: "
                 ++ Py.join ", " defense_list)
              1.0%Q)
        end
      else if fe_type entity =? "locations" then
        Some (mkRelationshipResult "defenses" entity []
          ("Defense information for " ++ shown entity
             ++ " is not yet available in the current database. As a Batman location, it likely has sophisticated security systems.")
          0.5%Q)
      else None
  end.

Definition process_features_query (entity_name : string)
  : option RelationshipResult :=
  match _find_entity entity_name with
  | None => None
  | Some entity =>
      if fe_type entity =? "vehicles" then
        match vehicle_special_features db (row_id (fe_row entity)) with
        | [] =>
            Some (mkRelationshipResult "features" entity []
              ("No specific feature data is available for " ++ shown entity
                 ++ " in the current database. The " ++ shown entity
                 ++ " may have special capabilities not yet catalogued.")
              0.6%Q)
        | feature_list =>
            Some (mkRelationshipResult "features" entity feature_list
              (shown entity ++ " has special features: "
                 ++ Py.join ", " feature_list)
              1.0%Q)
        end
      else if fe_type entity =? "locations" then
        Some (mkRelationshipResult "features" entity []
          ("Feature information for " ++ shown entity
             ++ " is not yet available in the current database. As a Batman location, it likely has advanced technological features.")
          0.5%Q)
      else None
  end.

Definition process_location_query (entity_name : string)
  : option RelationshipResult :=
  match _find_entity entity_name with
  | None => None
  | Some entity =>
      if fe_type entity =? "characters" then
        match character_locations_by_name db (row_id (fe_row entity)) with
        | [] => None
        | (primary_location, _) :: _ as locs =>
            let location_names :=
              map (fun l => Py.replace "_" " " (row_name (fst l))) locs in
            Some (mkRelationshipResult "character_locations" entity
              (map (fun l => row_name (fst l)) locs)
              (row_name (fe_row entity) ++ " is associated with these locations: "
                 ++ Py.join ", " (firstn 5 location_names)
                 ++ (if (5 <? List.length location_names)%nat then "..." else "")
                 ++ ". Primary location: "
                 ++ Py.replace "_" " " (row_name primary_location) ++ " - "
                 ++ Py.take 200 (row_description primary_location) ++ "...")
              1.0%Q)
        end
      else None
  end.

(** [key: value] for every column but [vehicle_id] whose value is set and
    not blank *)
Definition spec_detail (kv : string * option string) : list string :=
  match kv with
  | (key, Some value) =>
      if negb (key =? "vehicle_id") && negb (value =? "")
         && negb (Py.strip value =? "")
      then [Py.replace "_" " " key ++ ": " ++ value] else []
  | (_, None) => []
  end.

Definition process_specifications_query (entity_name : string)
  : option RelationshipResult :=
  match _find_entity entity_name with
  | None => None
  | Some entity =>
      if negb (fe_type entity =? "vehicles") then None
      else
        match vehicle_specifications db (row_id (fe_row entity)) with
        | None => None
        | Some spec_dict =>
            match flat_map spec_detail spec_dict with
            | [] => None
            | spec_details =>
                Some (mkRelationshipResult "specifications" entity
                  [row_id (fe_row entity)]
                  (row_name (fe_row entity) ++ " specifications: "
                     ++ Py.join "; " spec_details)
                  1.0%Q)
            end
        end
  end.

Definition weapons_patterns : list string :=
  [ "what weapons does (?:the )?(.+?) have";
    "what guns does (?:the )?(.+?) have";
    "what arms does (?:the )?(.+?) have";
    "what weapons are on (?:the )?(.+)";
    "what weapons are (?:in|inside|aboard) (?:the )?(.+)";
    "what are (?:the )?(.+?) weapons";
    "what is (?:the )?(.+?) armed with";
    "does (?:the )?(.+?) have weapons";
    "weapons of (?:the )?(.+)";
    "weapons on (?:the )?(.+)";
    "the (.+?) weapons";
    "(.+?) weapons" ].

Definition defense_patterns : list string :=
  [ "what (?:defenses|defense|armor|protection) does (?:the )?(.+?) have";
    "what (?:defensive systems|defenses) does (?:the )?(.+?) have";
    "what (?:defenses|defense|armor|protection) are on (?:the )?(.+)";
    "what (?:defenses|defense|armor|protection) are (?:in|inside) (?:the )?(.+)";
    "(.+?) (?:defenses|defense|armor|protection)";
    "(?:defenses|defense|armor|protection) of (?:the )?(.+)";
    "(?:defenses|defense|armor|protection) on (?:the )?(.+)";
    "how is (?:the )?(.+?) (?:protected|defended|armored)";
    "does (?:the )?(.+?) have (?:defenses|armor|protection)" ].

Definition features_patterns : list string :=
  [ "what (?:features|abilities|systems|capabilities) does (?:the )?(.+?) have";
    "what (?:special features|features) does (?:the )?(.+?) have";
    "what (?:features|abilities|systems|capabilities) are on (?:the )?(.+)";
    "what (?:features|abilities|systems|capabilities) are (?:in|inside) (?:the )?(.+)";
    "(.+?) (?:features|abilities|systems|capabilities)";
    "(?:features|abilities|systems) of (?:the )?(.+)";
    "(?:features|abilities|systems) on (?:the )?(.+)";
    "what can (?:the )?(.+?) do";
    "does (?:the )?(.+?) have (?:features|abilities|systems)" ].

Definition spec_patterns : list string :=
  [ "(?:specs|specifications|details) (?:of|for) (.+?)";
    "(.+?) (?:specs|specifications|technical details)";
    "what (?:are|is) (.+?) (?:specs|specifications)" ].

Definition rp_location_patterns : list string :=
  [ "where (?:does|do|is|are) (.+?) (?:live|stay|operate|hang out|work)";
    "(?:location|locations) (?:of|for) (.+?)";
    "(.+?) (?:location|base|hideout|lair)" ].

(** the first family with a matching pattern decides, also when its
    handler finds nothing *)
Definition process_relationship_query (query : string)
  : option RelationshipResult :=
  let q := Py.lower query in
  match first_search E weapons_patterns q with
  | Some groups => process_weapons_query (Py.strip (group 1 groups))
  | None =>
  match first_search E defense_patterns q with
  | Some groups => process_defense_query (Py.strip (group 1 groups))
  | None =>
  match first_search E features_patterns q with
  | Some groups => process_features_query (Py.strip (group 1 groups))
  | None =>
  match first_search E spec_patterns q with
  | Some groups => process_specifications_query (Py.strip (group 1 groups))
  | None =>
  match first_search E rp_location_patterns q with
  | Some groups => process_location_query (Py.strip (group 1 groups))
  | None => None
  end end end end end.

End RelationshipProcessor.

(* ================================================================== *)
(** ** intelligent_search.py: IntelligentSearchEngine *)
(* ================================================================== *)

Section IntelligentSearch.

Variable E : Env.
Variable db : DB.

Definition result_of_row (t : string) (r : Row) (conf : Q) (mtype context : string)
  : SearchResult :=
  mkSearchResult (row_id r) t (row_name r) (row_description r) conf mtype context.

Definition _exact_name_search (query : string) : option SearchResult :=
  let clean_query := Py.title (Py.replace " " "_" query) in
  first_some (fun t =>
    match find (fun r => row_name r =? clean_query) (table db t) with
    | Some r => Some (result_of_row t r 1.0%Q "exact" "")
    | None =>
        match find (fun r => (row_name r =? Py.title query)
                             || (row_name r =? Py.upper query)) (table db t) with
        | Some r => Some (result_of_row t r 1.0%Q "exact" "")
        | None => None
        end
    end) all_entity_types.

(** [confidence = max(0.5, 1.0 - (rank / 10.0))], the best table kept *)
Definition fts_step (query : string) (best : option SearchResult * Q) (t : string)
  : option SearchResult * Q :=
  match fts_best db t query with
  | Some (r, rank) =>
      let conf := Qmax 0.5%Q (1.0 - rank / 10.0)%Q in
      if Qlt_le_dec (snd best) conf
      then (Some (result_of_row t r conf "full_text" ""), conf)
      else best
  | None => best
  end.

Definition _full_text_search (query : string) : option SearchResult :=
  fst (fold_left (fts_step query) all_entity_types (None, 0%Q)).

(** a candidate of [_fuzzy_name_search] and its final score *)
Definition fuzzy_candidate (query t : string) (r : Row)
  : list (SearchResult * Q) :=
  let name_clean := Py.replace "_" " " (row_name r) in
  let q := Py.lower query in
  let n := Py.lower name_clean in
  let best := Z.max (Z.max (fuzz_ratio E q n) (fuzz_partial_ratio E q n))
                    (fuzz_token_sort_ratio E q n) in
  let fuzzy_score := (inject_Z best / 100)%Q in
  if Qlt_le_dec 0.5%Q fuzzy_score then
    let bonus := _calculate_importance_bonus (row_name r) t in
    [ (result_of_row t r fuzzy_score "fuzzy" "", (fuzzy_score + bonus)%Q) ]
  else [].

Definition _fuzzy_name_search (query : string) : option SearchResult :=
  let cands :=
    flat_map (fun t => flat_map (fuzzy_candidate query t) (table db t))
             all_entity_types in
  option_map fst (Py.max_by (fun x y => Qle_bool (snd y) (snd x)) cands).

Definition _description_search (query : string) : option SearchResult :=
  first_some (fun t =>
    option_map (fun r => result_of_row t r 0.6%Q "description" "")
               (shortest_description_like db t ("%" ++ query ++ "%")))
    all_entity_types.

Definition confident (r : option SearchResult) (bound : Q)
  : option SearchResult :=
  match r with
  | Some x => if Qlt_le_dec bound (sr_confidence x) then Some x else None
  | None => None
  end.

Definition or_else {A} (a b : option A) : option A :=
  match a with Some _ => a | None => b end.

Definition search_single_entity (query : string) : option SearchResult :=
  let result := _exact_name_search query in
  match confident result 0.9%Q with
  | Some r => Some r
  | None =>
  let fts_result := _full_text_search query in
  match confident fts_result 0.8%Q with
  | Some r => Some r
  | None =>
  let fuzzy_result := _fuzzy_name_search query in
  match confident fuzzy_result 0.7%Q with
  | Some r => Some r
  | None =>
  let desc_result := _description_search query in
  match desc_result with
  | Some r => Some r
  | None => or_else result (or_else fts_result (or_else fuzzy_result desc_result))
  end end end end.

Definition comparison_patterns : list string :=
  [ "compare (.+?) (?:to|with|and) (.+?)(?:\?|$)";
    "(.+?) (?:vs|versus) (.+?)(?:\?|$)";
    "difference between (.+?) and (.+?)(?:\?|$)";
    "(.+?) or (.+?)(?:\?|$)" ].

(** [search_multi_entity]: the two entities of the first pattern for which
    both are found ([type = comparison]), or nothing ([type = single]) *)
Definition search_multi_entity (query : string)
  : option (SearchResult * SearchResult) :=
  first_some (fun pattern =>
    match re_search E pattern (Py.lower query) with
    | Some groups =>
        match search_single_entity (Py.strip (group 1 groups)),
              search_single_entity (Py.strip (group 2 groups)) with
        | Some entity1, Some entity2 => Some (entity1, entity2)
        | _, _ => None
        end
    | None => None
    end) comparison_patterns.

Definition find_like (t : string) (patterns : list string) : option Row :=
  find (fun r => existsb (sql_like E (row_name r)) patterns) (table db t).

Definition location_inferences : list (string * list string) :=
  [ ("penguin", ["iceberg_lounge"; "arctic_world"; "old_zoo"]);
    ("joker", ["ace_chemical"; "amusement_mile"]);
    ("batman", ["batcave"; "wayne_manor"]);
    ("catwoman", ["museum"; "rooftop"]) ].

Definition inferred_location (entity : SearchResult) : option SearchResult :=
  let entity_name_clean := Py.replace "_" " " (Py.lower (sr_name entity)) in
  first_some (fun kv =>
    if Py.is_in (fst kv) entity_name_clean then
      first_some (fun loc_name =>
        option_map (fun location =>
          result_of_row "locations" location 0.8%Q "inference"
            (sr_name entity ++ " is associated with " ++ row_name location))
          (find_like "locations" ["%" ++ loc_name ++ "%"]))
        (snd kv)
    else None) location_inferences.

Definition _find_entity_location (entity_name : string) : option SearchResult :=
  match search_single_entity entity_name with
  | None => None
  | Some entity =>
      match character_locations db (sr_entity_id entity) with
      | (location, association_type) :: _ =>
          Some (result_of_row "locations" location 0.9%Q "relationship"
                  (sr_name entity ++ " is " ++ association_type
                     ++ " with this location"))
      | [] =>
          let batcave :=
            if (sr_entity_type entity =? "vehicles")
               && Py.is_in "bat" (Py.lower (sr_name entity))
            then find_like "locations" ["%Batcave%"; "%Bat%Cave%"]
            else None in
          match batcave with
          | Some b =>
              Some (result_of_row "locations" b 0.8%Q "inference"
                      (sr_name entity ++ " likely parks in the Batcave"))
          | None =>
              if sr_entity_type entity =? "characters"
              then inferred_location entity
              else None
          end
      end
  end.

Definition _find_entity_users (entity_name : string) : option SearchResult :=
  match search_single_entity entity_name with
  | None => None
  | Some entity =>
      if sr_entity_type entity =? "vehicles" then
        match vehicle_users db (sr_entity_id entity) with
        | user :: _ =>
            Some (result_of_row "characters" user 0.9%Q "relationship"
                    ("User of " ++ sr_name entity))
        | [] =>
            if Py.is_in "bat" (Py.lower (sr_name entity)) then
              option_map (fun batman =>
                result_of_row "characters" batman 0.8%Q "inference"
                  ("Batman likely uses " ++ sr_name entity))
                (find_like "characters" ["%Batman%"])
            else None
        end
      else None
  end.

Definition is_location_patterns : list string :=
  [ "where (?:does|do|is) (.+?) (?:park|live|stay|located|based|reside)(?:\?|$)";
    "(?:where|location) (?:of|for) (.+?)(?:\?|$)";
    "(.+?) (?:location|base|home|residence)(?:\?|$)";
    "where (?:does|do) (.+?) (?:hang out|hide|operate)(?:\?|$)" ].

Definition usage_patterns : list string :=
  [ "who (?:uses|drives|operates|pilots) (.+?)(?:\?|$)";
    "(.+?) (?:user|driver|pilot|operator)(?:\?|$)" ].

Definition search_by_relationship (query : string) : option SearchResult :=
  let q := Py.lower query in
  match first_search E is_location_patterns q with
  | Some groups => _find_entity_location (Py.strip (group 1 groups))
  | None =>
      match first_search E usage_patterns q with
      | Some groups => _find_entity_users (Py.strip (group 1 groups))
      | None => None
      end
  end.

End IntelligentSearch.

(* ================================================================== *)
(** ** enhanced_comparisons.py: EnhancedComparisonEngine *)
(* ================================================================== *)

(** the dict a comparison returns: winner, explanation, confidence *)
Record Verdict := mkVerdict {
  winner : option string;
  explanation : string;
  verdict_confidence : Q
}.

(** the specification dict of a vehicle; [defense_count] is read with
    [.get('defense_count', 0)] and is 0 where the dict has no such key *)
Record Specs := mkSpecs {
  max_speed : string;
  armor_rating : Z;
  weapons_count : Z;
  defense_count : Z;
  source : string
}.

Section EnhancedComparisons.

Variable E : Env.
Variable db : DB.

Definition character_rankings : list (string * list (string * Z)) :=
  [ ("strength",
     [ ("superman", 10); ("doomsday", 10); ("darkseid", 10);
       ("bane", 9); ("killer_croc", 8); ("clayface", 8);
       ("batman", 7); ("nightwing", 6); ("robin", 5); ("batgirl", 5);
       ("catwoman", 5); ("two-face", 4); ("penguin", 3); ("joker", 3);
       ("riddler", 2); ("scarecrow", 2); ("alfred", 2) ]);
    ("intelligence",
     [ ("batman", 10); ("oracle", 10); ("mr_terrific", 10);
       ("lex_luthor", 9); ("riddler", 8); ("ra's_al_ghul", 8);
       ("joker", 7); ("two-face", 7); ("penguin", 6);
       ("nightwing", 7); ("robin", 6); ("catwoman", 6);
       ("bane", 6); ("scarecrow", 7); ("alfred", 8) ]);
    ("speed",
     [ ("flash", 10); ("superman", 9);
       ("nightwing", 7); ("batman", 6); ("robin", 6);
       ("catwoman", 7); ("batgirl", 6);
       ("joker", 4); ("bane", 3); ("penguin", 2); ("riddler", 3) ]);
    ("combat_skill",
     [ ("batman", 10); ("lady_shiva", 10); ("ra's_al_ghul", 9);
       ("nightwing", 8); ("robin", 7); ("batgirl", 8);
       ("catwoman", 7); ("bane", 8); ("joker", 5);
       ("two-face", 6); ("penguin", 3); ("riddler", 4) ]) ].

(** [comparison_patterns[t]['logic']] of the engine *)
Definition ece_logic : list (string * string) :=
  [ ("strength", "strength_ranking");
    ("intelligence", "intelligence_ranking");
    ("speed", "speed_comparison");
    ("combat", "combat_ranking");
    ("armor", "armor_comparison");
    ("weapons", "weapons_comparison") ].

Definition name_aliases : list (string * string) :=
  [ ("dark knight", "batman"); ("caped crusader", "batman");
    ("world's greatest detective", "batman"); ("bruce wayne", "batman");
    ("clown prince of crime", "joker"); ("mr j", "joker");
    ("harvey dent", "two-face"); ("dick grayson", "nightwing");
    ("tim drake", "robin"); ("jason todd", "robin");
    ("damian wayne", "robin"); ("selina kyle", "catwoman");
    ("oswald cobblepot", "penguin"); ("edward nygma", "riddler");
    ("jonathan crane", "scarecrow") ].

Definition _normalize_character_name (n : string) : string :=
  let name_lower := Py.replace "-" " " (Py.replace "_" " " (Py.lower n)) in
  match Py.get name_aliases name_lower with
  | Some a => a
  | None => Py.replace " " "_" name_lower
  end.

Definition vehicle_aliases : list (string * string) :=
  [ ("batcar", "batmobile"); ("batplane", "batwing"); ("batship", "batboat");
    ("batsubmarine", "batsub"); ("batmotorcycle", "batcycle") ].

Definition _normalize_vehicle_name (n : string) : string :=
  let name_lower :=
    Py.replace " " "" (Py.replace "-" "" (Py.replace "_" "" (Py.lower n))) in
  match Py.get vehicle_aliases name_lower with
  | Some a => a
  | None => name_lower
  end.

Definition _estimate_character_score (n : string) : Z :=
  let name_lower := Py.lower n in
  if Py.any_in ["batman"; "robin"; "nightwing"; "batgirl"] name_lower then 7
  else if Py.any_in ["joker"; "penguin"; "riddler"] name_lower then 4
  else if Py.any_in ["bane"; "killer"; "croc"; "clay"] name_lower then 8
  else 5.

Definition _get_character_score (name_key : string)
           (rankings : list (string * Z)) (original_name : string) : Z :=
  match Py.get rankings name_key with
  | Some s => s
  | None =>
      match find (fun kv => Py.is_in (fst kv) name_key
                            || Py.is_in name_key (fst kv)) rankings with
      | Some kv => snd kv
      | None => _estimate_character_score original_name
      end
  end.

Definition mentions (who a b : string) : bool :=
  Py.is_in who (Py.lower a) || Py.is_in who (Py.lower b).

Definition _get_strength_reasoning (char1 char2 : string) : string :=
  (if mentions "bane" char1 char2
   then " Bane's venom-enhanced strength gives him a significant physical advantage."
   else "")
  ++ (if mentions "batman" char1 char2
      then " Batman relies more on skill and technology than raw physical strength."
      else "")
  ++ (if mentions "joker" char1 char2
      then " Joker's strength lies in unpredictability rather than physical power."
      else "").

Definition _get_intelligence_reasoning (char1 char2 : string) : string :=
  (if mentions "batman" char1 char2
   then " Batman is renowned as the World's Greatest Detective." else "")
  ++ (if mentions "riddler" char1 char2
      then " Riddler's obsession with puzzles showcases his analytical mind."
      else "")
  ++ (if mentions "joker" char1 char2
      then " Joker combines intelligence with complete unpredictability."
      else "").

Definition _get_speed_reasoning (char1 char2 : string) : string :=
  (if mentions "nightwing" char1 char2
   then " Nightwing's acrobatic background gives him exceptional agility."
   else "")
  ++ (if mentions "catwoman" char1 char2
      then " Catwoman's feline-inspired agility makes her extremely quick."
      else "")
  ++ (if mentions "bane" char1 char2
      then " Bane's massive size limits his speed and agility." else "").

(** [self.comparison_patterns[comparison_type]] raises [KeyError] for a
    type the engine does not list *)
Definition enhanced_character_comparison
           (char1_name char2_name comparison_type : string) : outcome Verdict :=
  match Py.get ece_logic comparison_type with
  | None => Raise "KeyError"
  | Some logic =>
      let name1_key := _normalize_character_name char1_name in
      let name2_key := _normalize_character_name char2_name in
      let ranking_type :=
        Py.replace "_comparison" "" (Py.replace "_ranking" "" logic) in
      let rankings :=
        match Py.get character_rankings ranking_type with
        | Some r => r
        | None => []
        end in
      let score1 := _get_character_score name1_key rankings char1_name in
      let score2 := _get_character_score name2_key rankings char2_name in
      let reasoning :=
        if comparison_type =? "strength"
        then _get_strength_reasoning char1_name char2_name
        else if comparison_type =? "intelligence"
        then _get_intelligence_reasoning char1_name char2_name
        else if comparison_type =? "speed"
        then _get_speed_reasoning char1_name char2_name
        else "" in
      Return
        (if score1 >? score2 then
           mkVerdict (Some char1_name)
             ("Based on their abilities and background, " ++ char1_name
                ++ " surpasses " ++ char2_name ++ " in " ++ comparison_type
                ++ "." ++ reasoning) 0.8%Q
         else if score2 >? score1 then
           mkVerdict (Some char2_name)
             ("Based on their abilities and background, " ++ char2_name
                ++ " surpasses " ++ char1_name ++ " in " ++ comparison_type
                ++ "." ++ reasoning) 0.8%Q
         else
           mkVerdict None
             (char1_name ++ " and " ++ char2_name
                ++ " appear to be evenly matched in " ++ comparison_type
                ++ "." ++ reasoning) 0.6%Q)
  end.

(** the predefined specifications; their [maneuverability] is never read *)
Definition vehicle_specs : list (string * Specs) :=
  [ ("batmobile", mkSpecs "200 mph" 9 8 0 "fallback");
    ("batwing", mkSpecs "400 mph" 6 10 0 "fallback");
    ("batboat", mkSpecs "80 mph" 7 6 0 "fallback");
    ("batcycle", mkSpecs "180 mph" 4 3 0 "fallback");
    ("bat-sub", mkSpecs "60 mph" 8 7 0 "fallback") ].

Definition _estimate_vehicle_specs (n : string) : Specs :=
  let name_lower := Py.lower n in
  if Py.is_in "mobile" name_lower || Py.is_in "car" name_lower
  then mkSpecs "150 mph" 6 5 0 "estimated"
  else if Py.is_in "wing" name_lower || Py.is_in "plane" name_lower
  then mkSpecs "300 mph" 5 7 0 "estimated"
  else if Py.is_in "boat" name_lower || Py.is_in "ship" name_lower
  then mkSpecs "70 mph" 6 4 0 "estimated"
  else if Py.is_in "cycle" name_lower || Py.is_in "bike" name_lower
  then mkSpecs "120 mph" 3 2 0 "estimated"
  else mkSpecs "100 mph" 4 3 0 "estimated".

(** a stored NULL or empty [max_speed] becomes ['Unknown'] *)
Definition _get_vehicle_specs (original_name normalized_name : string) : Specs :=
  match vehicle_specs_like db ("%" ++ normalized_name ++ "%") with
  | Some (speed, armor, weapon_count, defense_cnt) =>
      mkSpecs (match speed with
               | Some s => if s =? "" then "Unknown" else s
               | None => "Unknown"
               end)
              (if armor then 5 else 3) weapon_count defense_cnt "database"
  | None =>
      match Py.get vehicle_specs normalized_name with
      | Some specs => specs
      | None => _estimate_vehicle_specs original_name
      end
  end.

(** an empty string, ['Unknown'] and a string with no digit all read as
    0.0 *)
Definition _extract_speed_number (speed_str : string) : Q :=
  if (speed_str =? "") || (speed_str =? "Unknown") then 0%Q
  else match Py.first_number speed_str with
       | Some q => q
       | None => 0%Q
       end.

Definition _compare_vehicle_speed (name1 name2 : string) (specs1 specs2 : Specs)
  : Verdict :=
  let speed1_str := max_speed specs1 in
  let speed2_str := max_speed specs2 in
  let speed1_num := _extract_speed_number speed1_str in
  let speed2_num := _extract_speed_number speed2_str in
  if Qlt_le_dec speed2_num speed1_num then
    mkVerdict (Some name1)
      ("The " ++ name1 ++ " is faster with a top speed of " ++ speed1_str
         ++ " compared to the " ++ name2 ++ "'s " ++ speed2_str ++ ".")
      0.8%Q
  else if Qlt_le_dec speed1_num speed2_num then
    mkVerdict (Some name2)
      ("The " ++ name2 ++ " is faster with a top speed of " ++ speed2_str
         ++ " compared to the " ++ name1 ++ "'s " ++ speed1_str ++ ".")
      0.8%Q
  else
    mkVerdict None
      ("Both the " ++ name1 ++ " and " ++ name2
         ++ " have similar top speeds of " ++ speed1_str ++ " and "
         ++ speed2_str ++ " respectively.")
      0.6%Q.

Definition _compare_vehicle_armor (name1 name2 : string) (specs1 specs2 : Specs)
  : Verdict :=
  let total1 := armor_rating specs1 + defense_count specs1 in
  let total2 := armor_rating specs2 + defense_count specs2 in
  if total1 >? total2 then
    mkVerdict (Some name1)
      ("The " ++ name1
         ++ " has superior armor and defensive systems compared to the "
         ++ name2 ++ ".") 0.7%Q
  else if total2 >? total1 then
    mkVerdict (Some name2)
      ("The " ++ name2
         ++ " has superior armor and defensive systems compared to the "
         ++ name1 ++ ".") 0.7%Q
  else
    mkVerdict None
      ("Both the " ++ name1 ++ " and " ++ name2
         ++ " have comparable armor and defensive capabilities.") 0.7%Q.

Definition _compare_vehicle_weapons (name1 name2 : string) (specs1 specs2 : Specs)
  : Verdict :=
  let weapons1 := weapons_count specs1 in
  let weapons2 := weapons_count specs2 in
  if weapons1 >? weapons2 then
    mkVerdict (Some name1)
      ("The " ++ name1 ++ " has more firepower with " ++ int_text E weapons1
         ++ " weapon systems compared to the " ++ name2 ++ "'s "
         ++ int_text E weapons2 ++ ".") 0.7%Q
  else if weapons2 >? weapons1 then
    mkVerdict (Some name2)
      ("The " ++ name2 ++ " has more firepower with " ++ int_text E weapons2
         ++ " weapon systems compared to the " ++ name1 ++ "'s "
         ++ int_text E weapons1 ++ ".") 0.7%Q
  else
    mkVerdict None
      ("Both vehicles have similar firepower with " ++ int_text E weapons1
         ++ " and " ++ int_text E weapons2 ++ " weapon systems respectively.")
      0.7%Q.

Definition _compare_vehicle_overall (name1 name2 : string) (specs1 specs2 : Specs)
  : Verdict :=
  let speed1 := _extract_speed_number (max_speed specs1) in
  let speed2 := _extract_speed_number (max_speed specs2) in
  let score1 :=
    (speed1 / 100 + inject_Z (armor_rating specs1)
       + inject_Z (weapons_count specs1))%Q in
  let score2 :=
    (speed2 / 100 + inject_Z (armor_rating specs2)
       + inject_Z (weapons_count specs2))%Q in
  if Qlt_le_dec score2 score1 then
    mkVerdict (Some name1)
      ("Overall, the " ++ name1
         ++ " appears to be the superior vehicle with better combined capabilities.")
      0.6%Q
  else if Qlt_le_dec score1 score2 then
    mkVerdict (Some name2)
      ("Overall, the " ++ name2
         ++ " appears to be the superior vehicle with better combined capabilities.")
      0.6%Q
  else
    mkVerdict None
      ("Both the " ++ name1 ++ " and " ++ name2
         ++ " are well-matched vehicles with similar overall capabilities.")
      0.6%Q.

Definition enhanced_vehicle_comparison
           (vehicle1_name vehicle2_name comparison_type : string) : Verdict :=
  let specs1 :=
    _get_vehicle_specs vehicle1_name (_normalize_vehicle_name vehicle1_name) in
  let specs2 :=
    _get_vehicle_specs vehicle2_name (_normalize_vehicle_name vehicle2_name) in
  if comparison_type =? "speed"
  then _compare_vehicle_speed vehicle1_name vehicle2_name specs1 specs2
  else if comparison_type =? "armor"
  then _compare_vehicle_armor vehicle1_name vehicle2_name specs1 specs2
  else if comparison_type =? "weapons"
  then _compare_vehicle_weapons vehicle1_name vehicle2_name specs1 specs2
  else _compare_vehicle_overall vehicle1_name vehicle2_name specs1 specs2.

End EnhancedComparisons.

(* ================================================================== *)
(** ** conversation_intelligence.py: ConversationIntelligence *)
(* ================================================================== *)

Record ComparisonResult := mkComparisonResult {
  cr_entity1 : Row;
  cr_entity2 : Row;
  cr_comparison_type : string;
  cr_winner : option string;
  cr_explanation : string;
  cr_confidence : Q
}.

(** [RelationshipResult] of [conversation_intelligence.py] *)
Record RelatedResult := mkRelatedResult {
  rel_primary_entity : Row;
  rel_related_entities : list Row;
  rel_relationship_type : string;
  rel_explanation : string;
  rel_confidence : Q
}.

(** the dict [handle_multi_entity_query] returns *)
Record MultiEntity := mkMultiEntity {
  me_query_type : string;
  me_entity_type : string;
  me_entities : list Row;
  me_total_count : nat;
  me_explanation : string
}.

Section ConversationIntelligence.

Variable E : Env.
Variable db : DB.
Variable cache : Cache.

(** [comparison_patterns[t]['keywords']], in the order of the dict *)
Definition ci_comparison_keywords : list (string * list string) :=
  [ ("speed", ["faster"; "speed"; "quick"; "swift"]);
    ("strength", ["stronger"; "strength"; "power"; "tough"]);
    ("intelligence", ["smarter"; "intelligent"; "clever"; "genius"]);
    ("size", ["bigger"; "larger"; "size"; "massive"]);
    ("armor", ["armored"; "protected"; "defensive"; "armor"]) ].

Definition vs_patterns : list string :=
  [ "(.+?)\s+(?:vs|versus|against)\s+(.+?)(?:\?|$)";
    "who.*(?:faster|stronger|smarter|bigger).*?:\s*(.+?)\s+or\s+(.+?)(?:\?|$)";
    "(?:faster|stronger|smarter|bigger).*?:\s*(.+?)\s+(?:vs|versus|or)\s+(.+?)(?:\?|$)" ].

Definition _parse_comparison_query (query : string)
  : option (string * string * string) :=
  let query_lower := Py.lower query in
  match find (fun kv => Py.any_in (snd kv) query_lower) ci_comparison_keywords with
  | None => None
  | Some (comparison_type, _) =>
      match first_search E vs_patterns query_lower with
      | Some groups =>
          Some (comparison_type, Py.strip (group 1 groups),
                Py.strip (group 2 groups))
      | None => None
      end
  end.

(** [SELECT * FROM <entity_type> WHERE id = ?] *)
Definition _get_entity_by_id (eid etype : string) : option Row :=
  find (fun r => row_id r =? eid) (table db etype).

Definition ranked (rankings : list (string * Z)) (name_lower : string) : Z :=
  fold_left (fun acc kv => if Py.is_in (fst kv) name_lower then snd kv else acc)
            rankings 5.

Definition strength_rankings : list (string * Z) :=
  [ ("batman", 7); ("superman", 10); ("bane", 9); ("joker", 3);
    ("nightwing", 6); ("robin", 5); ("catwoman", 5); ("two-face", 4) ].

Definition intelligence_rankings : list (string * Z) :=
  [ ("batman", 10); ("lex luthor", 9); ("riddler", 8); ("joker", 7);
    ("nightwing", 7); ("robin", 6); ("catwoman", 6); ("two-face", 5) ].

Definition spaced (r : Row) : string := Py.replace "_" " " (Py.lower (row_name r)).

Definition enhanced_power (powers : list string) : bool :=
  existsb (fun p => Py.is_in "super" (Py.lower p)
                    || Py.is_in "enhanced" (Py.lower p)) powers.

Definition _compare_character_strength (char1 char2 : Row) : string :=
  let name1 := row_name char1 in
  let name2 := row_name char2 in
  let score1 := ranked strength_rankings (spaced char1)
                + (if enhanced_power (character_powers db (row_id char1))
                   then 2 else 0) in
  let score2 := ranked strength_rankings (spaced char2)
                + (if enhanced_power (character_powers db (row_id char2))
                   then 2 else 0) in
  if score1 >? score2 then
    "Based on their abilities and background, " ++ name1
      ++ " appears to be stronger than " ++ name2 ++ "."
  else if score2 >? score1 then
    "Based on their abilities and background, " ++ name2
      ++ " appears to be stronger than " ++ name1 ++ "."
  else name1 ++ " and " ++ name2 ++ " appear to have similar strength levels.".

Definition ranking_winner (rankings : list (string * Z)) (char1 char2 : Row)
  : option string :=
  let score1 := ranked rankings (spaced char1) in
  let score2 := ranked rankings (spaced char2) in
  if score1 >? score2 then Some (row_name char1)
  else if score2 >? score1 then Some (row_name char2)
  else None.

Definition _determine_strength_winner := ranking_winner strength_rankings.
Definition _determine_intelligence_winner := ranking_winner intelligence_rankings.

Definition _compare_character_intelligence (char1 char2 : Row) : string :=
  let score1 := ranked intelligence_rankings (spaced char1) in
  let score2 := ranked intelligence_rankings (spaced char2) in
  if score1 >? score2 then
    row_name char1 ++ " is generally considered more intelligent than "
      ++ row_name char2 ++ " in the Batman universe."
  else if score2 >? score1 then
    row_name char2 ++ " is generally considered more intelligent than "
      ++ row_name char1 ++ " in the Batman universe."
  else "Both " ++ row_name char1 ++ " and " ++ row_name char2
         ++ " are considered highly intelligent in their own ways.".

(** [result[0] if result and result[0] else None] *)
Definition _extract_speed_from_vehicle (vehicle_id : string) : option string :=
  match vehicle_max_speed db vehicle_id with
  | Some s => if s =? "" then None else Some s
  | None => None
  end.

Definition truthy (w : option string) : bool :=
  match w with
  | Some s => negb (s =? "")
  | None => false
  end.

(** [_compare_entities_fallback]; in the speed branch a speed string with no
    digit makes [re.search(...).group] raise, which the [except] turns into
    the explanation that an exact comparison is difficult *)
Definition _compare_entities_fallback (entity1 entity2 : Row)
           (type1 type2 comparison_type : string) : ComparisonResult :=
  let n1 := row_name entity1 in
  let n2 := row_name entity2 in
  let both t := (type1 =? t) && (type2 =? t) in
  let '(win, expl) :=
    if (comparison_type =? "speed") && both "vehicles" then
      match _extract_speed_from_vehicle (row_id entity1),
            _extract_speed_from_vehicle (row_id entity2) with
      | Some speed1, Some speed2 =>
          match Py.first_int speed1, Py.first_int speed2 with
          | Some num1, Some num2 =>
              if num1 >? num2 then
                (Some n1, "The " ++ n1 ++ " is faster with a top speed of "
                            ++ speed1 ++ " compared to the " ++ n2 ++ "'s "
                            ++ speed2 ++ ".")
              else if num2 >? num1 then
                (Some n2, "The " ++ n2 ++ " is faster with a top speed of "
                            ++ speed2 ++ " compared to the " ++ n1 ++ "'s "
                            ++ speed1 ++ ".")
              else
                (None, "Both the " ++ n1 ++ " and " ++ n2
                         ++ " have similar speeds of " ++ speed1 ++ " and "
                         ++ speed2 ++ " respectively.")
          | _, _ =>
              (None, "Both vehicles have speed specifications: " ++ n1 ++ " ("
                       ++ speed1 ++ ") vs " ++ n2 ++ " (" ++ speed2
                       ++ "), but exact comparison is difficult.")
          end
      | _, _ =>
          (None, "Speed comparison between " ++ n1 ++ " and " ++ n2
                   ++ " is not available in the current data.")
      end
    else if (comparison_type =? "strength") && both "characters" then
      (_determine_strength_winner entity1 entity2,
       _compare_character_strength entity1 entity2)
    else if (comparison_type =? "intelligence") && both "characters" then
      (_determine_intelligence_winner entity1 entity2,
       _compare_character_intelligence entity1 entity2)
    else if (comparison_type =? "armor") && both "vehicles" then
      let count1 := Z.of_nat (List.length (vehicle_defensive_systems db (row_id entity1))) in
      let count2 := Z.of_nat (List.length (vehicle_defensive_systems db (row_id entity2))) in
      if count1 >? count2 then
        (Some n1, "The " ++ n1 ++ " has more defensive systems ("
                    ++ int_text E count1 ++ ") compared to the " ++ n2 ++ " ("
                    ++ int_text E count2 ++ ").")
      else if count2 >? count1 then
        (Some n2, "The " ++ n2 ++ " has more defensive systems ("
                    ++ int_text E count2 ++ ") compared to the " ++ n1 ++ " ("
                    ++ int_text E count1 ++ ").")
      else
        (None, "Both vehicles have similar defensive capabilities with "
                 ++ int_text E count1 ++ " and " ++ int_text E count2
                 ++ " systems respectively.")
    else
      (None, "Comparison of " ++ comparison_type ++ " between " ++ n1
               ++ " and " ++ n2 ++ " is not currently supported.") in
  mkComparisonResult entity1 entity2 comparison_type win expl
    (if truthy win then 0.7%Q else 0.5%Q).

Definition _enhanced_compare_entities (entity1 entity2 : Row)
           (type1 type2 comparison_type : string) : outcome ComparisonResult :=
  if (type1 =? "characters") && (type2 =? "characters") then
    do v <- enhanced_character_comparison (row_name entity1) (row_name entity2)
                                          comparison_type ;
    Return (mkComparisonResult entity1 entity2 comparison_type
              (winner v) (explanation v) (verdict_confidence v))
  else if (type1 =? "vehicles") && (type2 =? "vehicles") then
    let v := enhanced_vehicle_comparison E db (row_name entity1)
                                         (row_name entity2) comparison_type in
    Return (mkComparisonResult entity1 entity2 comparison_type
              (winner v) (explanation v) (verdict_confidence v))
  else
    Return (_compare_entities_fallback entity1 entity2 type1 type2
                                       comparison_type).

Definition handle_comparative_query (query : string)
  : outcome (option ComparisonResult) :=
  match _parse_comparison_query query with
  | None => Return None
  | Some (comparison_type, entity1_name, entity2_name) =>
      match find_best_entity_match E cache entity1_name None 70,
            find_best_entity_match E cache entity2_name None 70 with
      | Some entity1_match, Some entity2_match =>
          match _get_entity_by_id (em_entity_id entity1_match)
                                  (em_entity_type entity1_match),
                _get_entity_by_id (em_entity_id entity2_match)
                                  (em_entity_type entity2_match) with
          | Some entity1, Some entity2 =>
              do r <- _enhanced_compare_entities entity1 entity2
                        (em_entity_type entity1_match)
                        (em_entity_type entity2_match) comparison_type ;
              Return (Some r)
          | _, _ => Return None
          end
      | _, _ => Return None
      end
  end.

End ConversationIntelligence.

Section ConversationRelations.

Variable E : Env.
Variable db : DB.
Variable cache : Cache.

Definition relationship_patterns : list string :=
  [ "who\s+(?:are|is)\s+(.+?)(?:'s|s)\s+(?:allies|enemies|family|villains|friends)";
    "(.+?)(?:'s|s)\s+(?:allies|enemies|family|villains|friends)";
    "(?:allies|enemies|family|villains|friends).*?(?:of|for)\s+(.+?)(?:\?|$)";
    "what\s+(?:are|is)\s+(.+?)(?:'s|s)\s+(?:allies|enemies)";
    "list.*?(.+?)(?:'s|s)\s+(?:enemies|allies)";
    "who.*?(?:helps|fights)\s+(.+?)(?:\?|$)" ].

Definition _parse_relationship_query (query : string)
  : option (string * string) :=
  let query_lower := Py.lower query in
  let relationship_type :=
    if Py.any_in ["enemies"; "villains"; "foes"; "rogues"] query_lower
    then Some "enemies"
    else if Py.any_in ["allies"; "friends"; "partners"; "helpers"] query_lower
    then Some "allies"
    else if Py.any_in ["family"; "relatives"] query_lower
    then Some "family"
    else None in
  match relationship_type with
  | None => None
  | Some rt =>
      match first_search E relationship_patterns query_lower with
      | Some groups =>
          Some (Py.strip (Py.replace "the " "" (Py.strip (group 1 groups))), rt)
      | None => None
      end
  end.

Definition batman_relationships : list (string * list string) :=
  [ ("allies", ["Robin"; "Nightwing"; "Batgirl"; "Alfred_Pennyworth";
                "Commissioner_Gordon"; "Oracle"; "Red_Robin"; "Catwoman"]);
    ("enemies", ["Joker"; "Two-Face"; "Penguin"; "Riddler"; "Bane";
                 "Scarecrow"; "Poison_Ivy"; "Mr_Freeze"; "Harley_Quinn";
                 "Ra's_al_Ghul"]) ].

Definition joker_relationships : list (string * list string) :=
  [ ("allies", ["Harley_Quinn"; "Penguin"]);
    ("enemies", ["Batman"; "Robin"; "Nightwing"; "Batgirl"]) ].

Definition get_list (d : list (string * list string)) (k : string) : list string :=
  match Py.get d k with Some l => l | None => [] end.

(** [description[:100] + "..."] when longer than 100 *)
Definition short_description (r : Row) : Row :=
  mkRow (row_id r) (row_name r)
    (if (100 <? String.length (row_description r))%nat
     then Py.take 100 (row_description r) ++ "..."
     else row_description r).

Definition _get_predefined_relationships (entity_id relationship_type : string)
  : list Row :=
  match find (fun r => row_id r =? entity_id) (characters db) with
  | None => []
  | Some r =>
      let entity_name := Py.replace "_" " " (Py.lower (row_name r)) in
      let target_list :=
        if Py.is_in "batman" entity_name || Py.is_in "bruce wayne" entity_name
        then get_list batman_relationships relationship_type
        else if Py.is_in "joker" entity_name
        then get_list joker_relationships relationship_type
        else if relationship_type =? "enemies"
        then (if negb (Py.is_in "batman" entity_name) then ["Batman"] else [])
        else [] in
      flat_map (fun n =>
        match find (fun c => sql_like E (Py.lower (row_name c))
                                      (Py.lower ("%" ++ n ++ "%")))
                   (characters db) with
        | Some c => [short_description c]
        | None => []
        end) (firstn 8 target_list)
  end.

Definition _find_related_entities (entity_id etype relationship_type : string)
  : list Row :=
  if etype =? "characters" then
    match character_relationships db entity_id with
    | [] => _get_predefined_relationships entity_id relationship_type
    | related => map fst related
    end
  else [].

(** [s[:-1]] *)
Definition drop_last (s : string) : string := Py.take (String.length s - 1) s.

Definition _generate_relationship_explanation (primary : Row)
           (related : list Row) (rel_type : string) : string :=
  match related with
  | [] => "No " ++ rel_type ++ " found for " ++ row_name primary
            ++ " in the current database."
  | [r] => row_name primary ++ "'s " ++ drop_last rel_type ++ " is "
             ++ row_name r ++ "."
  | _ =>
      let names := map row_name (firstn 5 related) in
      if (5 <? List.length related)%nat then
        row_name primary ++ "'s " ++ rel_type ++ " include "
          ++ Py.join ", " (removelast names) ++ ", " ++ last names ""
          ++ ", and " ++ int_text E (Z.of_nat (List.length related) - 5)
          ++ " others."
      else
        row_name primary ++ "'s " ++ rel_type ++ " include "
          ++ Py.join ", " (removelast names) ++ " and " ++ last names "" ++ "."
  end.

Definition handle_relationship_query (query : string) : option RelatedResult :=
  match _parse_relationship_query query with
  | None => None
  | Some (entity_name, relationship_type) =>
      match find_best_entity_match E cache entity_name None 70 with
      | None => None
      | Some entity_match =>
          match _get_entity_by_id db (em_entity_id entity_match)
                                  (em_entity_type entity_match) with
          | None => None
          | Some primary_entity =>
              match _find_related_entities (em_entity_id entity_match)
                      (em_entity_type entity_match) relationship_type with
              | [] => None
              | related_entities =>
                  Some (mkRelatedResult primary_entity related_entities
                          relationship_type
                          (_generate_relationship_explanation primary_entity
                             related_entities relationship_type)
                          0.8%Q)
              end
          end
      end
  end.

Definition me_character_patterns : list string :=
  [ "(?:all|every).*?(?:of\s+|for\s+)?(.+?)(?:'s|s)\s+";
    "(.+?)(?:'s|s)\s+(?:all|every)";
    "tell.*?about.*?(.+?)(?:'s|s)\s+" ].

(** query type, entity type and the character filter, if any *)
Definition _parse_multi_entity_query (query : string)
  : option (string * string * option string) :=
  let query_lower := Py.lower query in
  if Py.any_in ["all"; "list"; "every"; "show"] query_lower
     || Py.is_in "vehicles does batman" query_lower
     || Py.is_in "batman vehicles" query_lower
  then
    let etype :=
      if Py.any_in ["vehicle"; "car"; "plane"; "boat"] query_lower
         || Py.is_in "vehicles does batman" query_lower
      then Some "vehicles"
      else if Py.any_in ["location"; "place"; "building"] query_lower
      then Some "locations"
      else if Py.any_in ["character"; "people"; "person"; "family"; "members"]
                        query_lower
      then Some "characters"
      else if Py.any_in ["organization"; "group"; "team"] query_lower
      then Some "organizations"
      else None in
    match etype with
    | None => None
    | Some t =>
        match first_search E me_character_patterns query_lower with
        | Some groups =>
            Some ("character_related", t, Some (Py.strip (group 1 groups)))
        | None => Some ("list_all", t, None)
        end
    end
  else None.

(** [SELECT id, name, description FROM <entity_type> LIMIT 20] *)
Definition _get_all_entities_of_type (etype : string) : list Row :=
  map short_description (firstn 20 (table db etype)).

Definition _get_character_related_entities (character_id etype : string)
  : list Row :=
  if etype =? "vehicles"
  then map short_description (vehicles_of_character db character_id)
  else if etype =? "locations"
  then map (fun l => short_description (fst l)) (character_locations db character_id)
  else [].

Definition _generate_multi_entity_explanation (query_type etype : string)
           (count : nat) : string :=
  let n := int_text E (Z.of_nat count) in
  if query_type =? "list_all"
  then "I found " ++ n ++ " " ++ etype ++ " in the Batman universe database."
  else if query_type =? "character_related"
  then "Here are " ++ n ++ " " ++ etype ++ " associated with this character."
  else "Found " ++ n ++ " matching " ++ etype ++ ".".

Definition handle_multi_entity_query (query : string) : option MultiEntity :=
  match _parse_multi_entity_query query with
  | None => None
  | Some (query_type, etype, filters) =>
      let entities :=
        if query_type =? "list_all" then Some (_get_all_entities_of_type etype)
        else if query_type =? "character_related" then
          match filters with
          | Some character_name =>
              if character_name =? "" then None
              else
                match find_best_entity_match E cache character_name
                        (Some "characters") 70 with
                | Some character_match =>
                    Some (_get_character_related_entities
                            (em_entity_id character_match) etype)
                | None => None
                end
          | None => None
          end
        else None in
      match entities with
      | None | Some [] => None
      | Some ents =>
          Some (mkMultiEntity query_type etype (firstn 10 ents)
                  (List.length ents)
                  (_generate_multi_entity_explanation query_type etype
                     (List.length ents)))
      end
  end.

End ConversationRelations.

(* ================================================================== *)
(** ** batman_chatbot.py: BatmanChatbot *)
(* ================================================================== *)

Record BatmanResponse := mkBatmanResponse {
  answer : string;
  confidence : Q;
  source_entities : list string;
  query_type : string;
  suggestions : option (list string)
}.

(** an entry of [conversation_history] *)
Record Message := mkMessage {
  role : string;
  content : string
}.

(** The chatbot object.  [__init__] creates the five processors exactly when
    the connection was opened and nothing changes them afterwards, so past the
    connection check of [process_query] they all exist: the store [conn], the
    entity cache of the query processor (a snapshot taken at start-up) and the
    random source of the response generator stand for them.  The branches
    guarded by [if not self.query_processor] and the template branches taken
    without a response generator are unreachable and are not modelled. *)
Record Chatbot := mkChatbot {
  conn : option DB;
  entity_cache : Cache;
  conversation_history : list Message;
  rng : nat
}.

Definition nl : string := String (ascii_of_nat 10) EmptyString.

Section Chatbot.

Variable E : Env.

Definition BatmanChatbot_init (db : option DB) : Chatbot :=
  mkChatbot db
    (match db with
     | Some d => _build_entity_cache d
     | None => mkCache [] [] [] [] []
     end)
    [] O.

Definition say (b : Chatbot) (r c : string) : Chatbot :=
  mkChatbot (conn b) (entity_cache b)
            (conversation_history b ++ [mkMessage r c])%list (rng b).

(** one call of the response generator: the text, and the random source
    advanced *)
Definition respond (b : Chatbot) (ctx : ResponseContext) : string * Chatbot :=
  (generate_response E ctx (rng b),
   mkChatbot (conn b) (entity_cache b) (conversation_history b) (S (rng b))).

Definition template_not_found (query : string) : string :=
  "I don't have information about '" ++ query
    ++ "' in my Batman database. Could you be more specific or check the spelling?".

Definition template_multiple_matches (query matches : string) : string :=
  "I found multiple matches for '" ++ query
    ++ "'. Please select which one you'd like to learn about:" ++ nl ++ nl
    ++ matches ++ nl ++ nl
    ++ "Type the number of your choice, or be more specific with your question.".

Definition template_entity (etype n description : string) : string :=
  if etype =? "characters"
  then "Based on my knowledge of the Batman universe, " ++ n ++ " is " ++ description
  else if etype =? "vehicles" then "The " ++ n ++ " is " ++ description
  else if (etype =? "locations") || (etype =? "organizations")
          || (etype =? "storylines")
  then n ++ " is " ++ description
  else "I found information about " ++ n ++ ": " ++ description.

Definition non_batman_heroes : list string :=
  [ "superman"; "clark kent"; "kal-el";
    "wonder woman"; "diana prince";
    "green lantern"; "hal jordan"; "john stewart"; "kyle rayner";
    "flash"; "barry allen"; "wally west";
    "aquaman"; "arthur curry";
    "green arrow"; "oliver queen";
    "martian manhunter"; "j'onn j'onzz";
    "cyborg"; "victor stone";
    "shazam"; "billy batson";
    "hawkman"; "carter hall";
    "atom"; "ray palmer";
    "firestorm"; "ronnie raymond" ].

Definition non_batman_entities : list string :=
  [ "metropolis"; "smallville"; "daily planet";
    "lexcorp"; "lex corp"; "luthorcorp";
    "themyscira"; "paradise island";
    "coast city"; "central city"; "keystone city";
    "atlantis"; "star city";
    "mount justice"; "watchtower";
    "fortress of solitude";
    "hall of justice" ].

Definition batman_terms : list string :=
  ["batman"; "bruce wayne"; "dark knight"; "gotham"; "bat-family"].

Definition vehicle_patterns : list string :=
  ["what does"; "what vehicles"; "what cars"; "drives"; "rides"].

Definition equipment_patterns : list string :=
  ["gadgets"; "weapons"; "equipment"; "gear"; "tools"].

(** [_check_batman_scope]: [is_batman_related] and [message] *)
Definition _check_batman_scope (query : string) : bool * string :=
  let query_lower := Py.lower query in
  let has_batman := Py.any_in batman_terms query_lower in
  match find (fun entity => Py.is_in entity query_lower && negb has_batman)
             (non_batman_heroes ++ non_batman_entities)%list with
  | Some entity =>
      (false,
       "I'm a Batman universe specialist. My expertise is focused on Batman, Gotham City, and the extended Bat-Family. For information about "
         ++ Py.title entity ++ ", you'd need a more general DC Comics database.")
  | None =>
      if Py.any_in (vehicle_patterns ++ equipment_patterns)%list query_lower then
        match find (fun hero => Py.is_in hero query_lower) non_batman_heroes with
        | Some hero =>
            (false,
             "I specialize in Batman's vehicles and technology. For information about "
               ++ Py.title hero
               ++ "'s vehicles or equipment, you'd need a broader DC Comics database.")
        | None => (true, "")
        end
      else (true, "")
  end.

Definition out_of_scope_response (message : string) : BatmanResponse :=
  mkBatmanResponse message 0.0%Q [] "out_of_scope" None.

Definition _clean_input (user_input : string) : string := Py.strip user_input.

Definition vehicle_keywords : list string :=
  ["batmobile"; "batwing"; "batboat"; "batcycle"; "vehicle"; "car"; "plane";
   "boat"; "drive"; "drives"].
Definition location_keywords : list string :=
  ["gotham"; "arkham"; "wayne manor"; "batcave"; "where is"; "location"; "place"].
Definition relationship_keywords : list string :=
  ["relationship"; "ally"; "enemy"; "friend"; "vs"; "versus"; "against"].
Definition sidekick_keywords : list string :=
  ["sidekick"; "partner"; "robin"; "assistant"; "helper"].
Definition character_keywords : list string :=
  ["who is"; "tell me about"; "what about"; "character"; "person"].

Definition _classify_query (query : string) : string :=
  let query_lower := Py.lower query in
  if Py.any_in vehicle_keywords query_lower then "vehicle_lookup"
  else if Py.any_in location_keywords query_lower then "location_lookup"
  else if Py.any_in relationship_keywords query_lower then "relationship_query"
  else if Py.any_in sidekick_keywords query_lower then "sidekick_lookup"
  else if Py.any_in character_keywords query_lower then "character_lookup"
  else "general_search".

(** the numbered lines of a "did you mean" answer *)
Fixpoint numbered_from (i : Z) (ms : list EntityMatch) : list string :=
  match ms with
  | [] => []
  | m :: r =>
      (int_text E i ++ ". " ++ Py.replace "_" " " (em_name m) ++ " ("
         ++ em_entity_type m ++ ") - " ++ percent_text E (em_confidence m)
         ++ "% match") :: numbered_from (i + 1) r
  end.

Definition numbered_options (ms : list EntityMatch) : string :=
  Py.join nl (numbered_from 1 ms).

Definition is_character (m : EntityMatch) : bool :=
  em_entity_type m =? "characters".

(** [history[-n:]] *)
Definition lastn {A} (n : nat) (l : list A) : list A :=
  skipn (List.length l - n) l.

Definition entity_patterns : list string :=
  [ "\*\*([^*]+)\*\*";
    "(?:The\s+)?([A-Z][a-z]+(?:\s+[A-Z][a-z]+)*)\s+(?:is|was|has)";
    "(?:analyzing|discussing)\s+(?:the\s+)?([A-Za-z]+(?:\s+[A-Za-z]+)?)" ].

(** the queries [_handle_contextual_followup] can resolve the pronoun to,
    in the order it tries them: newest message first, pattern by pattern,
    those equal to the query left out *)
Definition resolved_queries (history : list Message) (query : string)
  : list string :=
  flat_map (fun history_item =>
    flat_map (fun pattern =>
      match re_search_i E pattern (content history_item) with
      | Some groups =>
          let entity_name := Py.strip (group 1 groups) in
          let resolved_query :=
            re_sub_i E "\b(?:it|that|this)\b" entity_name query in
          if resolved_query =? query then [] else [resolved_query]
      | None => []
      end) entity_patterns)
    (rev (lastn 6 history)).

Definition clarification_response : BatmanResponse :=
  mkBatmanResponse
    "I need more context. What specific entity are you referring to?"
    0.0%Q [] "clarification_needed" None.

(** the pronoun test of [_handle_character_query]: a pronoun in the query
    and, among the last four messages, an assistant message about weapons *)
Definition weapons_followup (history : list Message) (query_clean : string)
  : bool :=
  Py.any_in ["it"; "that"; "this"; "them"; "him"; "her"] query_clean
  && existsb (fun history_item =>
                (role history_item =? "assistant")
                && Py.is_in "weapons" (Py.lower (content history_item)))
             (lastn 4 history).

Definition ambiguous_names : list string :=
  ["robin"; "batgirl"; "flash"; "green lantern"; "joker"; "batman"].

Definition suggest (b : Chatbot) (text : string) (qtype : string)
           (ms : list EntityMatch) : BatmanResponse * Chatbot :=
  (mkBatmanResponse text 0.5%Q [] qtype (Some (map em_name ms)), b).

Section Handlers.

(** [self.process_query], called back by the follow-up handler *)
Variable process_query_rec :
  Chatbot -> string -> outcome (BatmanResponse * Chatbot).

Variable db : DB.

Definition _handle_contextual_followup (b : Chatbot) (query : string)
  : outcome (BatmanResponse * Chatbot) :=
  match resolved_queries (conversation_history b) query with
  | resolved_query :: _ => process_query_rec b resolved_query
  | [] => Return (clarification_response, b)
  end.

Definition character_not_found (b : Chatbot) (query : string)
  : BatmanResponse * Chatbot :=
  (mkBatmanResponse (template_not_found query) 0.0%Q [] "character_lookup" None, b).

(** the second half of [_handle_character_query]: best match behind the
    0.6 gate, then disambiguation, then not found *)
Definition character_lookup (b : Chatbot) (query : string)
  : BatmanResponse * Chatbot :=
  let after_gate :=
    match handle_ambiguous_query E (entity_cache b) query with
    | multiple_matches matches _ _ =>
        match filter is_character matches with
        | [] => character_not_found b query
        | char_matches =>
            suggest b
              (template_multiple_matches query
                 (numbered_options (firstn 5 char_matches)))
              "character_lookup" (firstn 5 char_matches)
        end
    | _ => character_not_found b query
    end in
  match find_best_entity_match E (entity_cache b) query (Some "characters") 70 with
  | Some m =>
      if Qlt_le_dec 0.6%Q (em_confidence m) then
        match _get_entity_by_id db (em_entity_id m) "characters" with
        | Some character =>
            let '(enhanced_answer, b') :=
              respond b (mkResponseContext character "characters"
                           "character_info" query (em_confidence m)) in
            (mkBatmanResponse enhanced_answer (em_confidence m)
                              [em_entity_id m] "character_lookup" None, b')
        | None => after_gate
        end
      else after_gate
  | None => after_gate
  end.

Definition _handle_character_query (b : Chatbot) (query : string)
  : outcome (BatmanResponse * Chatbot) :=
  let scope_check := _check_batman_scope query in
  if negb (fst scope_check)
  then Return (out_of_scope_response (snd scope_check), b)
  else
    let query_clean := Py.strip (Py.lower query) in
    if weapons_followup (conversation_history b) query_clean
    then _handle_contextual_followup b query
    else
      let forced :=
        if Py.any_in ambiguous_names query_clean then
          match handle_ambiguous_query E (entity_cache b) query with
          | multiple_matches matches _ _ =>
              let char_matches := filter is_character matches in
              if (1 <? List.length char_matches)%nat
              then Some (firstn 5 char_matches)
              else None
          | _ => None
          end
        else None in
      match forced with
      | Some shown_matches =>
          Return (suggest b
                    (template_multiple_matches query
                       (numbered_options shown_matches))
                    "character_lookup" shown_matches)
      | None => Return (character_lookup b query)
      end.

Definition _handle_sidekick_query (b : Chatbot) (query : string)
  : outcome (BatmanResponse * Chatbot) :=
  let robin_query := "robin" in
  let robins :=
    match handle_ambiguous_query E (entity_cache b) robin_query with
    | multiple_matches matches _ _ =>
        let char_matches :=
          filter (fun m => is_character m
                           && Py.is_in "robin" (Py.lower (em_name m)))
                 matches in
        if (1 <? List.length char_matches)%nat
        then Some (firstn 5 char_matches)
        else None
    | _ => None
    end in
  match robins with
  | Some shown_matches =>
      Return (suggest b
                ("Batman's main sidekicks are the various Robins. Please select which one you'd like to learn about:"
                   ++ nl ++ nl ++ numbered_options shown_matches ++ nl ++ nl
                   ++ "Type the number of your choice, or be more specific with your question.")
                "sidekick_lookup" shown_matches)
  | None => _handle_character_query b robin_query
  end.

End Handlers.

End Chatbot.

Section Pipeline.

Variable E : Env.

Definition not_found_response (query qtype : string) : BatmanResponse :=
  mkBatmanResponse (template_not_found query) 0.0%Q [] qtype None.

(** [0.4 if (match and match.match_type == 'character_vehicle') else 0.6] *)
Definition confidence_threshold (m : EntityMatch) : Q :=
  if em_match_type m =? "character_vehicle" then 0.4%Q else 0.6%Q.

Definition vehicle_match (cache : Cache) (query : string) : option EntityMatch :=
  if Py.any_in ["what does"; "what do"; "drive"; "car"] (Py.lower query)
  then find_best_vehicle_match E cache query 70
  else find_best_entity_match E cache query (Some "vehicles") 70.

Definition _handle_vehicle_query (db : DB) (b : Chatbot) (query : string)
  : BatmanResponse * Chatbot :=
  let scope_check := _check_batman_scope query in
  if negb (fst scope_check) then (out_of_scope_response (snd scope_check), b)
  else
    let not_found := (not_found_response query "vehicle_lookup", b) in
    match vehicle_match (entity_cache b) query with
    | Some m =>
        if Qlt_le_dec (confidence_threshold m) (em_confidence m) then
          match _get_entity_by_id db (em_entity_id m) "vehicles" with
          | Some vehicle =>
              let '(enhanced_answer, b') :=
                respond E b (mkResponseContext vehicle "vehicles" "vehicle_info"
                               query (em_confidence m)) in
              (mkBatmanResponse enhanced_answer (em_confidence m)
                                [em_entity_id m] "vehicle_lookup" None, b')
          | None => not_found
          end
        else not_found
    | None => not_found
    end.

Definition _handle_location_query (db : DB) (b : Chatbot) (query : string)
  : BatmanResponse * Chatbot :=
  let not_found := (not_found_response query "location_lookup", b) in
  match find_best_entity_match E (entity_cache b) query (Some "locations") 70 with
  | Some m =>
      if Qlt_le_dec 0.6%Q (em_confidence m) then
        match _get_entity_by_id db (em_entity_id m) "locations" with
        | Some location =>
            let '(enhanced_answer, b') :=
              respond E b (mkResponseContext location "locations" "location_info"
                             query (em_confidence m)) in
            (mkBatmanResponse enhanced_answer (em_confidence m)
                              [em_entity_id m] "location_lookup" None, b')
        | None => not_found
        end
      else not_found
  | None => not_found
  end.

(** the response built from a relationship result of the conversation
    intelligence: the primary entity and the first three related ones *)
Definition related_response (r : RelatedResult) : BatmanResponse :=
  mkBatmanResponse (rel_explanation r) (rel_confidence r)
    (row_id (rel_primary_entity r)
       :: map row_id (firstn 3 (rel_related_entities r)))
    "relationship_query" None.

Definition _handle_relationship_query (db : DB) (b : Chatbot) (query : string)
  : BatmanResponse * Chatbot :=
  match handle_relationship_query E db (entity_cache b) query with
  | Some rel_result => (related_response rel_result, b)
  | None =>
      (mkBatmanResponse
         "I don't have specific relationship information for that query, but I can help with general character information."
         0.0%Q [] "relationship_query" None, b)
  end.

(** [_handle_general_search]; the storyline template is formatted with a
    [name] argument it has no field for, which raises [KeyError] *)
Definition _handle_general_search (db : DB) (b : Chatbot) (query : string)
  : outcome (BatmanResponse * Chatbot) :=
  let scope_check := _check_batman_scope query in
  if negb (fst scope_check)
  then Return (out_of_scope_response (snd scope_check), b)
  else
    let after_gate :=
      match handle_ambiguous_query E (entity_cache b) query with
      | multiple_matches matches0 _ _ =>
          let matches := firstn 5 matches0 in
          Return (suggest b
                    (template_multiple_matches query (numbered_options E matches))
                    "general_search" matches)
      | _ =>
          Return (mkBatmanResponse
                    "I couldn't find any Batman universe information matching your query. Try asking about specific characters, vehicles, or locations."
                    0.0%Q [] "general_search" None, b)
      end in
    match find_best_entity_match E (entity_cache b) query None 60 with
    | Some best_match =>
        if Qlt_le_dec 0.6%Q (em_confidence best_match) then
          match _get_entity_by_id db (em_entity_id best_match)
                                  (em_entity_type best_match) with
          | Some entity =>
              if em_entity_type best_match =? "storylines"
              then Raise "KeyError"
              else
                Return
                  (mkBatmanResponse
                     (template_entity (em_entity_type best_match)
                        (em_name best_match)
                        (Py.take 3000 (row_description entity))
                        ++ (if (3000 <? String.length (row_description entity))%nat
                            then "..." else ""))
                     (em_confidence best_match) [em_entity_id best_match]
                     "general_search" None, b)
          | None => after_gate
          end
        else after_gate
    | None => after_gate
    end.

Definition _handle_unknown_query (query : string) : BatmanResponse :=
  mkBatmanResponse
    "I'm the ultimate Batman expert, but I'm not sure how to help with that query. Try asking about Batman characters, vehicles, locations, or storylines!"
    0.0%Q [] "unknown" None.

(** the specification and weapon lines of a vehicle comparison *)
Definition speed_line (db : DB) (e : SearchResult) : list string :=
  match vehicle_specifications db (sr_entity_id e) with
  | Some specs =>
      match Py.get specs "max_speed" with
      | Some (Some s) =>
          if s =? "" then [] else ["- " ++ sr_name e ++ " max speed: " ++ s]
      | _ => []
      end
  | None => []
  end.

Definition has_specs (db : DB) (e : SearchResult) : bool :=
  match vehicle_specifications db (sr_entity_id e) with
  | Some _ => true
  | None => false
  end.

Definition weapons_line (db : DB) (e : SearchResult) : list string :=
  match vehicle_weapons db (sr_entity_id e) with
  | [] => []
  | ws => ["- " ++ sr_name e ++ ": " ++ Py.join ", " ws]
  end.

Definition comparison_details (db : DB) (entity1 entity2 : SearchResult)
  : list string :=
  if (sr_entity_type entity1 =? "vehicles") && (sr_entity_type entity2 =? "vehicles")
  then
    app (if has_specs db entity1 || has_specs db entity2
         then (nl ++ "**Specifications:**")
                :: app (speed_line db entity1) (speed_line db entity2)
         else [])
        (match app (weapons_line db entity1) (weapons_line db entity2) with
         | [] => []
         | ws => (nl ++ "**Weapons:**") :: ws
         end)
  else [].

Definition _handle_comparison_result (db : DB) (entity1 entity2 : SearchResult)
  : BatmanResponse :=
  let shown e := Py.replace "_" " " (sr_name e) in
  mkBatmanResponse
    (Py.join nl
       (app
          [ "Comparing " ++ shown entity1 ++ " and " ++ shown entity2 ++ ":" ++ nl;
            "**" ++ shown entity1 ++ "**: " ++ Py.take 200 (sr_description entity1)
              ++ "...";
            "**" ++ shown entity2 ++ "**: " ++ Py.take 200 (sr_description entity2)
              ++ "..." ]
          (comparison_details db entity1 entity2)))
    0.9%Q [sr_entity_id entity1; sr_entity_id entity2] "comparison" None.

Definition _handle_relationship_result (b : Chatbot) (result : SearchResult)
           (original_query : string) : BatmanResponse * Chatbot :=
  let context_prefix :=
    if sr_match_type result =? "relationship"
    then "Based on database relationships: " ++ sr_context result ++ nl ++ nl
    else if sr_match_type result =? "inference"
    then "Based on logical inference: " ++ sr_context result ++ nl ++ nl
    else "" in
  let '(detailed_response, b') :=
    respond E b
      (mkResponseContext
         (mkRow (sr_entity_id result) (sr_name result) (sr_description result))
         (sr_entity_type result)
         (if sr_entity_type result =? "locations"
          then "location_info" else "character_info")
         original_query (sr_confidence result)) in
  (mkBatmanResponse (context_prefix ++ detailed_response) (sr_confidence result)
                    [sr_entity_id result] (sr_entity_type result) None, b').

Fixpoint numbered_locations (i : Z) (data : list string) : list string :=
  match data with
  | [] => []
  | d :: r =>
      (int_text E i ++ ". " ++ Py.replace "_" " " d)
        :: numbered_locations (i + 1) r
  end.

(** the heading and the item list of an attribute answer *)
Definition attribute_section (result : RelationshipResult) : list string :=
  let primary := row_name (fe_row (rr_primary_entity result)) in
  let cleaned := clean_entity_name E primary in
  let plain := Py.replace "_" " " primary in
  let items heading :=
    match rr_related_data result with
    | [] => []
    | data => (nl ++ heading) :: map (fun d => "• " ++ Py.title d) data
    end in
  let qt := rr_query_type result in
  if qt =? "weapons" then
    ("🔫 **WEAPONS ANALYSIS - " ++ cleaned ++ "**")
      :: improve_description_formatting E (rr_explanation result)
      :: items "**Detailed Arsenal:**"
  else if qt =? "defenses" then
    ("🛡️ **DEFENSIVE SYSTEMS - " ++ cleaned ++ "**")
      :: improve_description_formatting E (rr_explanation result)
      :: items "**Protection Details:**"
  else if qt =? "features" then
    ("⚙️ **SPECIAL FEATURES - " ++ cleaned ++ "**")
      :: improve_description_formatting E (rr_explanation result)
      :: items "**Feature List:**"
  else if qt =? "specifications" then
    [ "📊 **TECHNICAL SPECIFICATIONS - " ++ plain ++ "**";
      rr_explanation result ]
  else if qt =? "character_locations" then
    let data := rr_related_data result in
    app [ "📍 **LOCATION ANALYSIS - " ++ plain ++ "**"; rr_explanation result ]
        (if (1 <? List.length data)%nat then
           app ((nl ++ "**All Associated Locations ("
                   ++ int_text E (Z.of_nat (List.length data)) ++ " total):**")
                  :: numbered_locations 1 (firstn 10 data))
               (if (10 <? List.length data)%nat
                then ["... and " ++ int_text E (Z.of_nat (List.length data) - 10)
                        ++ " more locations"]
                else [])
         else [])
  else [ "**" ++ plain ++ "**"; rr_explanation result ].

Definition _handle_relationship_processor_result (result : RelationshipResult)
  : BatmanResponse :=
  let desc := row_description (fe_row (rr_primary_entity result)) in
  let background :=
    if desc =? "" then []
    else
      let formatted_desc := improve_description_formatting E desc in
      [ nl ++ "**Background:** "
          ++ (if (300 <? String.length formatted_desc)%nat
              then Py.take 297 formatted_desc ++ "..."
              else formatted_desc) ] in
  mkBatmanResponse
    (Py.join nl (app (attribute_section result) background))
    (rr_confidence result)
    [row_id (fe_row (rr_primary_entity result))]
    (rr_query_type result) None.

End Pipeline.

Section ProcessQuery.

Variable E : Env.

Definition error_response : BatmanResponse :=
  mkBatmanResponse "Database connection error. Please check your setup."
                   0.0%Q [] "error" None.

Definition comparative_response (c : ComparisonResult) : BatmanResponse :=
  mkBatmanResponse (cr_explanation c) (cr_confidence c)
                   [row_id (cr_entity1 c); row_id (cr_entity2 c)]
                   "comparative_analysis" None.

Definition multi_entity_response (m : MultiEntity) : BatmanResponse :=
  let entities_text :=
    match me_entities m with
    | [] => ""
    | ents =>
        " Here are some examples: " ++ Py.join ", " (map row_name (firstn 5 ents))
          ++ (if (5 <? me_total_count m)%nat
              then " and " ++ int_text E (Z.of_nat (me_total_count m) - 5)
                     ++ " others"
              else "")
          ++ "."
    end in
  mkBatmanResponse (me_explanation m ++ entities_text) 0.8%Q
                   (map row_id (firstn 5 (me_entities m)))
                   "multi_entity_query" None.

(** the handler the fallback classifier selects *)
Definition dispatch (self : Chatbot -> string -> outcome (BatmanResponse * Chatbot))
           (db : DB) (b : Chatbot) (query : string)
  : outcome (BatmanResponse * Chatbot) :=
  let qt := _classify_query query in
  if qt =? "character_lookup" then _handle_character_query E self db b query
  else if qt =? "sidekick_lookup" then _handle_sidekick_query E self db b query
  else if qt =? "vehicle_lookup" then Return (_handle_vehicle_query E db b query)
  else if qt =? "location_lookup" then Return (_handle_location_query E db b query)
  else if qt =? "relationship_query"
  then Return (_handle_relationship_query E db b query)
  else if qt =? "general_search" then _handle_general_search E db b query
  else Return (_handle_unknown_query query, b).

(** the body of [process_query], [self] being the method itself *)
Definition process_query_body
           (self : Chatbot -> string -> outcome (BatmanResponse * Chatbot))
           (b : Chatbot) (user_input : string)
  : outcome (BatmanResponse * Chatbot) :=
  match conn b with
  | None => Return (error_response, b)
  | Some db =>
      let query := _clean_input user_input in
      let b := say b "user" query in
      match process_relationship_query E db query with
      | Some relationship_result =>
          Return (_handle_relationship_processor_result E relationship_result, b)
      | None =>
      match search_multi_entity E db query with
      | Some (entity1, entity2) =>
          Return (_handle_comparison_result db entity1 entity2, b)
      | None =>
      match search_by_relationship E db query with
      | Some relationship_result =>
          Return (_handle_relationship_result E b relationship_result query)
      | None =>
      do comp_result <- handle_comparative_query E db (entity_cache b) query ;
      match comp_result with
      | Some c => Return (comparative_response c, b)
      | None =>
      match handle_relationship_query E db (entity_cache b) query with
      | Some rel_result => Return (related_response rel_result, b)
      | None =>
      match handle_multi_entity_query E db (entity_cache b) query with
      | Some multi_result => Return (multi_entity_response multi_result, b)
      | None =>
          do rb <- dispatch self db b query ;
          Return (fst rb, say (snd rb) "assistant" (answer (fst rb)))
      end end end end end end
  end.

(** [process_query] with a bound on the depth of its self-calls *)
Fixpoint process_query_fuel (fuel : nat) (b : Chatbot) (user_input : string)
  : outcome (BatmanResponse * Chatbot) :=
  match fuel with
  | O => OutOfFuel
  | S n => process_query_body (process_query_fuel n) b user_input
  end.

(** [BatmanChatbot.process_query]: a self-call is made only while one of the
    last four messages is an assistant message, and each call first appends
    a user message, so the depth never exceeds four (theorem
    [process_query_total]). *)
Definition process_query (b : Chatbot) (user_input : string)
  : outcome (BatmanResponse * Chatbot) :=
  process_query_fuel 5 b user_input.

End ProcessQuery.

(* ================================================================== *)
(** ** Concrete stores and collaborators used in examples *)
(* ================================================================== *)

(** a store with the given entity tables and alias table, every relation
    table empty *)
Definition store (chars : list Row) (aliases : list (string * string))
           (vehs locs : list Row) : DB :=
  mkDB chars aliases vehs locs [] []
       (fun _ => []) (fun _ => []) (fun _ => []) (fun _ => None)
       (fun _ => []) (fun _ => []) (fun _ => []) (fun _ => [])
       (fun _ => []) (fun _ => []) (fun _ => None) (fun _ => None)
       (fun _ _ => None) (fun _ _ => None).

(** collaborators for a given scorer and regular-expression oracle; the
    texts they produce are left empty *)
Definition collaborators (score ratio : string -> string -> Z)
           (search : string -> string -> option (list string)) : Env :=
  mkEnv score ratio (fun _ _ => 0) (fun _ _ => 0)
        search (fun _ _ => None) (fun _ _ s => s)
        (fun _ _ => false)
        (fun _ _ => "") (fun _ => "") (fun _ => "") (fun s => s) (fun s => s).

(** a scorer given by a table of (choice, score), 0 elsewhere *)
Definition table_scorer (t : list (string * Z)) (query choice : string) : Z :=
  match Py.get t choice with
  | Some s => s
  | None => 0
  end.

(** no pattern of the pipeline matches the queries of these examples *)
Definition no_match (pattern s : string) : option (list string) := None.

(** "where is metropolis" on an empty store *)
Definition empty_bot : Chatbot := BatmanChatbot_init (Some (store [] [] [] [])).
Definition plain_env : Env := collaborators (table_scorer []) (table_scorer []) no_match.

(** "Batman vs Joker": the second comparison pattern of the search engine is
    the first pattern of the chain to match, with groups [batman], [joker] *)
Definition versus_search (pattern s : string) : option (list string) :=
  if (pattern =? "(.+?) (?:vs|versus) (.+?)(?:\?|$)") && (s =? "batman vs joker")
  then Some ["batman"; "joker"] else None.
Definition versus_env : Env :=
  collaborators (table_scorer []) (table_scorer []) versus_search.
Definition gotham_store : DB :=
  store [ mkRow "c1" "Batman" "The Dark Knight of Gotham.";
          mkRow "c2" "Joker" "The Clown Prince of Crime.";
          mkRow "c3" "Bane" "The man who broke the Bat." ]
        [ ("c1", "Bruce Wayne") ]
        [ mkRow "v1" "Batmobile" "Batman's car.";
          mkRow "v2" "Jokermobile" "The Joker's car." ]
        [ mkRow "l1" "Crime_Alley" "A dark alley.";
          mkRow "l2" "Crime_Lab" "The police laboratory." ].
Definition gotham_bot : Chatbot := BatmanChatbot_init (Some gotham_store).

(** a scorer for the examples: Batman and his alias are matched exactly, the
    Joker well, Bane and the two crime locations loosely *)
Definition gotham_scores : list (string * Z) :=
  [ ("Batman", 100); ("Bruce Wayne", 100); ("Bane", 60); ("Joker", 80);
    ("Crime_Alley", 55); ("Crime_Lab", 55) ].

(** a scorer with exactly one score of 70 or more *)
Definition batman_scores : list (string * Z) :=
  [ ("Batman", 100); ("Bane", 60) ].
Definition batman_env : Env :=
  collaborators (table_scorer batman_scores) (table_scorer []) no_match.

(** a scorer with two loose matches and nothing better *)
Definition crime_scores : list (string * Z) :=
  [ ("Crime_Alley", 55); ("Crime_Lab", 55) ].
Definition crime_env : Env :=
  collaborators (table_scorer crime_scores) (table_scorer []) no_match.

(** a scorer with a single match *)
Definition joker_scores : list (string * Z) := [ ("Joker", 80) ].
Definition joker_env : Env :=
  collaborators (table_scorer joker_scores) (table_scorer []) no_match.

(** "what does joker drive": the first character pattern of the vehicle
    matcher yields [joker]; [fuzz.ratio] of joker and jokermobile is 62 *)
Definition drive_search (pattern s : string) : option (list string) :=
  if (pattern =? "what (?:does|do) (.+?) (?:drive|use|pilot|operate)")
     && (s =? "what does joker drive")
  then Some ["joker"] else None.
Definition drive_env : Env :=
  collaborators (table_scorer gotham_scores) (table_scorer [("jokermobile", 62)])
                drive_search.

(* ================================================================== *)
(** ** Notions used in the statements *)
(* ================================================================== *)

(** every entry of the cache, partition after partition *)
Definition all_entities (c : Cache) : list CacheEntity :=
  app (cache_characters c)
      (app (cache_vehicles c)
           (app (cache_locations c)
                (app (cache_storylines c) (cache_organizations c)))).

(** the entries whose similarity to the cleaned query is at least [t] *)
Definition hits (E : Env) (clean_query : string) (t : Z) (ents : list CacheEntity)
  : list CacheEntity :=
  filter (fun e => wratio E clean_query (ce_name e) >=? t) ents.

(** the candidate [find_best_entity_match] builds from a cache entry of
    partition [t] whose name has similarity [s] *)
Definition candidate_for (t : string) (e : CacheEntity) (s : Z) : Candidate :=
  let bonus := _calculate_importance_bonus (ce_name e) t in
  mkCandidate (match_of_entity t e (inject_Z s / 100)%Q)
              (inject_Z s + bonus * 100)%Q s bonus.

(** the query contains a term of the denylist and no franchise anchor *)
Definition denylisted (query : string) : Prop :=
  Py.any_in (app non_batman_heroes non_batman_entities) (Py.lower query) = true
  /\ Py.any_in batman_terms (Py.lower query) = false.

(** none of the pattern-based resolvers that [process_query] tries before the
    keyword classifier answers the query *)
Definition unanswered (E : Env) (db : DB) (cache : Cache) (query : string) : Prop :=
  process_relationship_query E db query = None
  /\ search_multi_entity E db query = None
  /\ search_by_relationship E db query = None
  /\ handle_comparative_query E db cache query = Return None
  /\ handle_relationship_query E db cache query = None
  /\ handle_multi_entity_query E db cache query = None.

(** the vocabulary of the interface description *)
Definition vocabulary : list string :=
  [ "character_lookup"; "vehicle_lookup"; "location_lookup";
    "relationship_query"; "multi_entity_query"; "comparative_analysis";
    "general_search"; "out_of_scope"; "not_found"; "error";
    "clarification_needed"; "weapons"; "defenses"; "features";
    "specifications"; "character_locations" ].

(** the tags [process_query] produces besides *)
Definition further_tags : list string :=
  [ "comparison"; "sidekick_lookup"; "character_weapons"; "characters";
    "locations" ].

(** a definitive answer for a match: the handler's tag, the id of the match
    as the only source, the confidence of the match *)
Definition accepts (r : BatmanResponse) (qtype : string) (m : EntityMatch) : Prop :=
  query_type r = qtype
  /\ source_entities r = [em_entity_id m]
  /\ confidence r = em_confidence m.


(** a match one of the two single-answer matchers returned *)
Definition matched (E : Env) (m : EntityMatch) : Prop :=
  (exists cache q etype thr, find_best_entity_match E cache q etype thr = Some m)
  \/ (exists cache q, find_best_vehicle_match E cache q 70 = Some m).

(** the tags and confidences of the answers whose confidence is a constant
    of the code *)
Definition fixed_answers : list (string * Q) :=
  [ ("error", 0.0%Q); ("out_of_scope", 0.0%Q); ("clarification_needed", 0.0%Q);
    ("character_lookup", 0.0%Q); ("vehicle_lookup", 0.0%Q);
    ("location_lookup", 0.0%Q); ("relationship_query", 0.0%Q);
    ("general_search", 0.0%Q);
    ("relationship_query", 0.8%Q); ("multi_entity_query", 0.8%Q);
    ("comparison", 0.9%Q);
    ("comparative_analysis", 0.8%Q); ("comparative_analysis", 0.7%Q);
    ("comparative_analysis", 0.6%Q); ("comparative_analysis", 0.5%Q);
    ("weapons", 1.0%Q); ("weapons", 0.6%Q); ("character_weapons", 0.7%Q);
    ("defenses", 1.0%Q); ("defenses", 0.6%Q); ("defenses", 0.5%Q);
    ("features", 1.0%Q); ("features", 0.6%Q); ("features", 0.5%Q);
    ("character_locations", 1.0%Q); ("specifications", 1.0%Q);
    ("locations", 0.9%Q); ("locations", 0.8%Q);
    ("characters", 0.9%Q); ("characters", 0.8%Q) ].

(** the three shapes of a response of [process_query]: an answer with a
    constant confidence, a definitive answer for a match, a disambiguation *)
Inductive shape (E : Env) : BatmanResponse -> Prop :=
| shape_fixed (text : string) (conf : Q) (sources : list string) (qtype : string) :
    In (qtype, conf) fixed_answers ->
    shape E (mkBatmanResponse text conf sources qtype None)
| shape_match (text : string) (m : EntityMatch) (qtype : string) :
    matched E m ->
    In qtype ["character_lookup"; "vehicle_lookup"; "location_lookup";
              "general_search"] ->
    shape E (mkBatmanResponse text (em_confidence m) [em_entity_id m] qtype None)
| shape_suggest (text qtype : string) (names : list string) :
    In qtype ["character_lookup"; "sidekick_lookup"; "general_search"] ->
    shape E (mkBatmanResponse text 0.5%Q [] qtype (Some names)).


(** the not-found answer of the general search *)
Definition general_not_found : BatmanResponse :=
  mkBatmanResponse
    "I couldn't find any Batman universe information matching your query. Try asking about specific characters, vehicles, or locations."
    0.0%Q [] "general_search" None.


(** a store whose only vehicle is the Joker's balloon; [fuzz.ratio] of joker
    and joker_balloon is 56 *)
Definition balloon_store : DB :=
  store [ mkRow "c2" "Joker" "The Clown Prince of Crime." ] []
        [ mkRow "v9" "Joker_Balloon" "A balloon with a grin." ] [].
Definition balloon_bot : Chatbot := BatmanChatbot_init (Some balloon_store).
Definition balloon_env : Env :=
  collaborators (table_scorer []) (table_scorer [("joker_balloon", 56)])
                drive_search.

(** a store in which the Batmobile has a stored top speed and the Jokermobile
    has a specification row without one *)
Definition speed_store : DB :=
  mkDB [] []
       [ mkRow "v1" "Batmobile" "Batman's car.";
         mkRow "v2" "Jokermobile" "The Joker's car." ] [] [] []
       (fun _ => []) (fun _ => []) (fun _ => []) (fun _ => None)
       (fun _ => []) (fun _ => []) (fun _ => []) (fun _ => [])
       (fun _ => []) (fun _ => []) (fun _ => None)
       (fun pattern =>
          if pattern =? "%batmobile%" then Some (Some "200 mph", true, 2, 1)
          else if pattern =? "%jokermobile%" then Some (None, false, 0, 0)
          else None)
       (fun _ _ => None) (fun _ _ => None).

From Stdlib Require DecimalString DecimalNat.

(* ================================================================== *)
(** ** Numerals *)
(* ================================================================== *)

(** [str(n)] of a natural number: its decimal numeral *)
Definition decimal (n : nat) : string :=
  DecimalString.NilEmpty.string_of_uint (Nat.to_uint n).

(* ================================================================== *)
(** ** Further examples *)
(* ================================================================== *)

(** "size: bane against batman": the first pattern of the conversation
    intelligence matches with groups [size: bane] and [batman]; no pattern
    of the earlier resolvers matches *)
Definition against_search (pattern s : string) : option (list string) :=
  if (pattern =? "(.+?)\s+(?:vs|versus|against)\s+(.+?)(?:\?|$)")
     && (s =? "size: bane against batman")
  then Some ["size: bane"; "batman"] else None.

(** a scorer that finds Bane for [size bane] and Batman for [batman] *)
Definition against_scorer (query choice : string) : Z :=
  if (query =? "size bane") && (choice =? "Bane") then 90
  else if (query =? "batman") && (choice =? "Batman") then 100
  else 0.

Definition against_env : Env :=
  collaborators against_scorer (table_scorer []) against_search.

(* ================================================================== *)
(** ** Notions used in further statements *)
(* ================================================================== *)

(** every character of the string passes the test *)
Fixpoint all_chars (p : ascii -> bool) (s : string) : bool :=
  match s with
  | EmptyString => true
  | String c r => p c && all_chars p r
  end.

(** the session [b'] continues [b]: the same store and cache, the history
    of [b] followed by [tail] *)
Definition continues (b b' : Chatbot) (tail : list Message) : Prop :=
  conn b' = conn b /\ entity_cache b' = entity_cache b
  /\ conversation_history b' = (conversation_history b ++ tail)%list.

(** a store with one storyline and a scorer that matches it exactly *)
Definition hush_store : DB :=
  mkDB [] [] [] []
       [ mkRow "s1" "Hush" "A mysterious stalker sabotages Batman." ] []
       (fun _ => []) (fun _ => []) (fun _ => []) (fun _ => None)
       (fun _ => []) (fun _ => []) (fun _ => []) (fun _ => [])
       (fun _ => []) (fun _ => []) (fun _ => None) (fun _ => None)
       (fun _ _ => None) (fun _ _ => None).
Definition hush_bot : Chatbot := BatmanChatbot_init (Some hush_store).
Definition hush_env : Env :=
  collaborators (table_scorer [("Hush", 100)]) (table_scorer []) no_match.

(* ================================================================== *)
(** ** batman_chatbot.py: entry points beside [process_query] *)
(* ================================================================== *)

Definition stop_phrases : list string :=
  ["who is "; "what is "; "tell me about "; "what about "; "where is "].

(** [_extract_entity_name]: the first stop phrase the query starts with
    (in any letter case) is cut off, then question marks and full stops are
    removed *)
Definition _extract_entity_name (query : string) : string :=
  let query_clean :=
    match find (fun phrase => Py.startswith (Py.lower query) phrase)
               stop_phrases with
    | Some phrase => Py.drop (String.length phrase) query
    | None => query
    end in
  Py.strip (Py.replace "." "" (Py.replace "?" "" (Py.strip query_clean))).

Section DirectLookup.

Variable E : Env.

(** [get_entity_info_direct]: the first of the five tables with a row of
    exactly that name decides; the answer carries the name, not the id, as
    its source *)
Definition get_entity_info_direct (b : Chatbot) (entity_name : string)
  : BatmanResponse * Chatbot :=
  match conn b with
  | None => (error_response, b)
  | Some db =>
      match first_some (fun t =>
              option_map (fun r => (r, t))
                (find (fun r => row_name r =? entity_name) (table db t)))
              ["characters"; "vehicles"; "locations"; "storylines";
               "organizations"] with
      | None =>
          (mkBatmanResponse
             ("Entity '" ++ entity_name ++ "' not found in the database.")
             0.0%Q [] "not_found" None, b)
      | Some (entity_found, entity_type) =>
          let '(detailed_response, b') :=
            respond E b
              (mkResponseContext entity_found entity_type "detailed_info"
                 ("Tell me about " ++ Py.replace "_" " " entity_name) 1.0%Q) in
          (mkBatmanResponse detailed_response 1.0%Q [entity_name] entity_type
                            None, b')
      end
  end.

End DirectLookup.

(* ================================================================== *)
(** ** response_generator.py: the text helpers of the generator *)
(* ================================================================== *)

Module ResponseGenerator.

(** [re.sub(r'\s+', ' ', s)]: every run of white space becomes one blank;
    [in_run] tells that the previous character was white space *)
Fixpoint collapse_aux (in_run : bool) (s : string) : string :=
  match s with
  | EmptyString => EmptyString
  | String c r =>
      if Py.is_space c
      then if in_run then collapse_aux true r
           else String " " (collapse_aux true r)
      else String c (collapse_aux false r)
  end.

Definition collapse_spaces (s : string) : string := collapse_aux false s.

Fixpoint last_char (s : string) : option ascii :=
  match s with
  | EmptyString => None
  | String c EmptyString => Some c
  | String _ r => last_char r
  end.

(** [s.endswith(('.', '!', '?'))] *)
Definition ends_sentence (s : string) : bool :=
  match last_char s with
  | Some c => Ascii.eqb c "." || Ascii.eqb c "!" || Ascii.eqb c "?"
  | None => false
  end.

Definition _clean_description (description : string) : string :=
  if description =? "" then "No description available"
  else
    let cleaned := collapse_spaces (Py.strip description) in
    if negb (cleaned =? "") && negb (ends_sentence cleaned)
    then cleaned ++ "."
    else cleaned.

(** [re.sub(r'\.([A-Z])', r'. \1', s)]: a blank after every full stop that
    a capital letter follows *)
Fixpoint space_after_period (s : string) : string :=
  match s with
  | EmptyString => EmptyString
  | String c r =>
      String c
        (match r with
         | String d _ =>
             if Ascii.eqb c "." && Py.is_upper d
             then String " " (space_after_period r)
             else space_after_period r
         | EmptyString => EmptyString
         end)
  end.

(** [re.sub(r'([a-z])([A-Z])', r'\1 \2', s)]: a blank between a small
    letter and the capital letter that follows it *)
Fixpoint split_camel (s : string) : string :=
  match s with
  | EmptyString => EmptyString
  | String c r =>
      String c
        (match r with
         | String d _ =>
             if Py.is_lower c && Py.is_upper d
             then String " " (split_camel r)
             else split_camel r
         | EmptyString => EmptyString
         end)
  end.

Definition concatenation_fixes : list (string * string) :=
  [ ("theBatmobile", "the Batmobile");
    ("theJoker", "the Joker");
    ("theBatman", "the Batman");
    ("theUnited", "the United");
    ("asArkham", "as Arkham");
    ("ofGotham", "of Gotham");
    ("byBatman", "by Batman");
    ("bythe", "by the");
    ("ofthe", "of the");
    ("inthe", "in the");
    ("onthe", "on the");
    ("atthe", "at the") ].

(** [for incorrect, correct in fixes.items(): cleaned = cleaned.replace(...)] *)
Definition apply_fixes (fixes : list (string * string)) (s : string) : string :=
  fold_left (fun cleaned fix_ => Py.replace (fst fix_) (snd fix_) cleaned) fixes s.

Definition _improve_description_formatting (description : string) : string :=
  if description =? "" then "No description available"
  else
    apply_fixes concatenation_fixes
      (split_camel (space_after_period (_clean_description description))).

(** [s.split(sep)] for a separator that is not empty; [skip] counts the
    characters of a separator still to pass, [cur] is the piece read so
    far *)
Fixpoint split_on_aux (sep : string) (skip : nat) (cur : string) (s : string)
  : list string :=
  match s with
  | EmptyString => [cur]
  | String c r =>
      match skip with
      | S k => split_on_aux sep k cur r
      | O =>
          if String.prefix sep s
          then cur :: split_on_aux sep (String.length sep - 1) "" r
          else split_on_aux sep O (cur ++ String c EmptyString) r
      end
  end.

Definition split_on (sep s : string) : list string := split_on_aux sep O "" s.

(** the loop of [_optimize_length]: sentences are kept while they fit *)
Fixpoint truncate_sentences (target_max current_length : nat)
         (sentences : list string) : list string :=
  match sentences with
  | [] => []
  | sentence :: rest =>
      if (target_max <? current_length + String.length sentence)%nat then []
      else sentence
             :: truncate_sentences target_max
                  (current_length + String.length sentence + 2) rest
  end.

(** [_optimize_length]; the detail level is always [comprehensive], the
    target 600 characters *)
Definition _optimize_length (response : string) : string :=
  let target_max := 600%nat in
  if (target_max <? String.length response)%nat then
    match truncate_sentences target_max 0 (split_on ". " response) with
    | [] => response
    | truncated =>
        let result := Py.join ". " truncated in
        if match last_char result with
           | Some c => Ascii.eqb c "."
           | None => false
           end
        then result else result ++ "."
    end
  else response.

End ResponseGenerator.

(** the string of [n] copies of a character *)
Fixpoint repeat_char (c : ascii) (n : nat) : string :=
  match n with
  | O => EmptyString
  | S k => String c (repeat_char c k)
  end.

(** a store in which Batman has one stored relationship, to Robin, and the
    question "who are batman's enemies", which the first relationship
    pattern matches with group [batman] *)
Definition robin_store : DB :=
  mkDB [ mkRow "c1" "Batman" "The Dark Knight of Gotham.";
         mkRow "c2" "Robin" "The Boy Wonder." ]
       [] [] [] [] []
       (fun _ => []) (fun _ => []) (fun _ => []) (fun _ => None)
       (fun _ => []) (fun _ => []) (fun _ => []) (fun _ => [])
       (fun id => if id =? "c1"
                  then [ (mkRow "c2" "Robin" "The Boy Wonder.", "ally") ]
                  else [])
       (fun _ => []) (fun _ => None) (fun _ => None)
       (fun _ _ => None) (fun _ _ => None).
Definition robin_bot : Chatbot := BatmanChatbot_init (Some robin_store).
Definition robin_search (pattern s : string) : option (list string) :=
  if (pattern =? "who\s+(?:are|is)\s+(.+?)(?:'s|s)\s+(?:allies|enemies|family|villains|friends)")
     && (s =? "who are batman's enemies")
  then Some ["batman"] else None.
Definition robin_env : Env :=
  collaborators (table_scorer [("Batman", 100)]) (table_scorer []) robin_search.

(* ================================================================== *)
(** ** Lists, sorting and the string tests *)
(* ================================================================== *)

Lemma firstn_In {A} (x : A) (n : nat) (l : list A) :
  In x (firstn n l) -> In x l.
Proof.
  revert l. induction n as [|n IH]; intros [|a l]; simpl; try tauto.
  intros [->|H]; auto.
Qed.

Section SortFacts.

Variable A : Type.
Variable ge : A -> A -> bool.

Lemma insert_desc_In (a x : A) (l : list A) :
  In x (Py.insert_desc ge a l) <-> x = a \/ In x l.
Proof.
  induction l as [|y ys IH]; simpl.
  - intuition.
  - destruct (ge a y); simpl; rewrite ?IH; intuition.
Qed.

Lemma sorted_desc_In (x : A) (l : list A) :
  In x (Py.sorted_desc ge l) <-> In x l.
Proof.
  induction l as [|a l IH]; simpl.
  - tauto.
  - rewrite insert_desc_In, IH. intuition.
Qed.

Lemma insert_desc_length (a : A) (l : list A) :
  List.length (Py.insert_desc ge a l) = S (List.length l).
Proof.
  induction l as [|y ys IH]; simpl; auto.
  destruct (ge a y); simpl; auto.
Qed.

Lemma sorted_desc_length (l : list A) :
  List.length (Py.sorted_desc ge l) = List.length l.
Proof.
  induction l as [|a l IH]; simpl; auto.
  rewrite insert_desc_length. auto.
Qed.

Lemma insert_desc_filter_length (p : A -> bool) (a : A) (l : list A) :
  List.length (filter p (Py.insert_desc ge a l))
  = List.length (filter p (a :: l)).
Proof.
  induction l as [|y ys IH]; simpl; auto.
  destruct (ge a y); simpl; auto.
  simpl in IH. destruct (p y), (p a); simpl in *; lia.
Qed.

Lemma sorted_desc_filter_length (p : A -> bool) (l : list A) :
  List.length (filter p (Py.sorted_desc ge l)) = List.length (filter p l).
Proof.
  induction l as [|a l IH]; simpl; auto.
  rewrite insert_desc_filter_length. simpl.
  destruct (p a); simpl; lia.
Qed.

(** descending order for a total and transitive comparison *)
Hypothesis ge_total : forall x y, ge x y = false -> ge y x = true.
Hypothesis ge_trans : forall x y z, ge x y = true -> ge y z = true -> ge x z = true.

Inductive descending : list A -> Prop :=
| desc_nil : descending []
| desc_cons x l : (forall y, In y l -> ge x y = true) -> descending l ->
                  descending (x :: l).

Lemma insert_desc_descending (a : A) (l : list A) :
  descending l -> descending (Py.insert_desc ge a l).
Proof.
  induction 1 as [|x l Hx Hl IH]; simpl.
  - constructor; [intros y []|constructor].
  - destruct (ge a x) eqn:Hax.
    + constructor.
      * intros y [<-|Hy]; auto. eapply ge_trans; eauto.
      * constructor; auto.
    + constructor; auto.
      intros y Hy. apply insert_desc_In in Hy. destruct Hy as [->|Hy]; auto.
Qed.

Lemma sorted_desc_descending (l : list A) : descending (Py.sorted_desc ge l).
Proof.
  induction l as [|a l IH]; simpl.
  - constructor.
  - apply insert_desc_descending, IH.
Qed.

(** in a descending list the elements passing an upward-closed test come
    first *)
Lemma descending_filter_firstn (p : A -> bool) (l : list A) :
  (forall x y, ge x y = true -> p y = true -> p x = true) ->
  descending l ->
  forall n, List.length (filter p (firstn n l))
            = Nat.min n (List.length (filter p l)).
Proof.
  intros Hp Hl. induction Hl as [|x l Hx Hl IH]; intros n.
  - rewrite firstn_nil. simpl. lia.
  - destruct n as [|n]; simpl; [lia|].
    destruct (p x) eqn:Hpx; simpl.
    + rewrite IH. lia.
    + assert (Hnone : forall l', (forall y, In y l' -> In y l) -> filter p l' = []).
      { induction l' as [|y l' IHl']; intros Hsub; simpl; auto.
        destruct (p y) eqn:Hpy.
        - rewrite (Hp x y) in Hpx; [discriminate| |exact Hpy].
          apply Hx, Hsub. now left.
        - apply IHl'. intros z Hz. apply Hsub. now right. }
      rewrite (Hnone (firstn n l)), (Hnone l); simpl; auto.
      intros y Hy. eapply firstn_In; eauto.
Qed.

End SortFacts.

Lemma filter_firstn_length {A} (p : A -> bool) (n : nat) (l : list A) :
  (List.length (filter p (firstn n l)) <= List.length (filter p l))%nat.
Proof.
  rewrite <- (firstn_skipn n l) at 2.
  rewrite filter_app, length_app. lia.
Qed.

Lemma max_by_In {A} (ge : A -> A -> bool) (l : list A) (x : A) :
  Py.max_by ge l = Some x -> In x l.
Proof.
  revert x. induction l as [|a l IH]; simpl; intros x H; [discriminate|].
  destruct (Py.max_by ge l) as [y|].
  - destruct (ge a y); inversion H; subst; auto.
  - inversion H; auto.
Qed.

Lemma first_some_spec {A B} (f : A -> option B) (l : list A) (y : B) :
  first_some f l = Some y -> exists x, In x l /\ f x = Some y.
Proof.
  induction l as [|a l IH]; simpl; [discriminate|].
  destruct (f a) eqn:Hf; intros H.
  - inversion H; subst. exists a; auto.
  - destruct (IH H) as (x & Hx & Hfx). exists x; auto.
Qed.

Lemma any_in_spec (keys : list string) (s : string) :
  Py.any_in keys s = true <-> exists k, In k keys /\ Py.is_in k s = true.
Proof. unfold Py.any_in. apply existsb_exists. Qed.

(* ================================================================== *)
(** ** The matchers *)
(* ================================================================== *)

Lemma score_ge_total (x y : string * Z) :
  score_ge x y = false -> score_ge y x = true.
Proof. unfold score_ge. rewrite !Z.geb_leb, Z.leb_gt, Z.leb_le. lia. Qed.

Lemma score_ge_trans (x y z : string * Z) :
  score_ge x y = true -> score_ge y z = true -> score_ge x z = true.
Proof. unfold score_ge. rewrite !Z.geb_leb, !Z.leb_le. lia. Qed.

Lemma filter_map_length {A B} (p : B -> bool) (f : A -> B) (l : list A) :
  List.length (filter p (map f l)) = List.length (filter (fun x => p (f x)) l).
Proof.
  induction l as [|a l IH]; simpl; auto.
  destruct (p (f a)); simpl; auto.
Qed.

Section MatcherFacts.

Variable E : Env.

Lemma extract_In (q : string) (choices : list string) (limit : nat)
      (n : string) (s : Z) :
  In (n, s) (extract E q choices limit) -> In n choices /\ s = wratio E q n.
Proof.
  unfold extract. intros H.
  apply firstn_In, sorted_desc_In, in_map_iff in H.
  destruct H as (c & Heq & Hc). inversion Heq; subst; auto.
Qed.

Lemma extract_hits (q : string) (ents : list CacheEntity) (k : nat) (t : Z) :
  List.length (filter (fun m => snd m >=? t) (extract E q (map ce_name ents) k))
  = Nat.min k (List.length (hits E q t ents)).
Proof.
  unfold extract, hits.
  rewrite (@descending_filter_firstn _ score_ge).
  - rewrite sorted_desc_filter_length, !filter_map_length. reflexivity.
  - intros x y. unfold score_ge. rewrite !Z.geb_leb, !Z.leb_le. lia.
  - apply sorted_desc_descending; [apply score_ge_total|apply score_ge_trans].
Qed.

Lemma entity_named_spec (ents : list CacheEntity) (n : string) (e : CacheEntity) :
  entity_named ents n = Some e -> In e ents /\ ce_name e = n.
Proof.
  unfold entity_named. intros H. apply find_some in H.
  destruct H as [Hin Heq]. apply String.eqb_eq in Heq. auto.
Qed.

Lemma entity_named_some (ents : list CacheEntity) (n : string) :
  In n (map ce_name ents) -> exists e, entity_named ents n = Some e.
Proof.
  intros H. apply in_map_iff in H. destruct H as (e & Hn & He).
  unfold entity_named. destruct (find _ ents) as [e'|] eqn:Hf; eauto.
  exfalso. apply (find_none _ _ Hf) in He. subst n.
  rewrite String.eqb_refl in He. discriminate.
Qed.

Lemma candidates_spec (t : string) (ents : list CacheEntity) (cq : string)
      (thr : Z) (c : Candidate) :
  In c (candidates E t ents cq thr) ->
  exists e, In e ents
    /\ Z.max thr 50 <= wratio E cq (ce_name e)
    /\ c = candidate_for t e (wratio E cq (ce_name e)).
Proof.
  unfold candidates. intros H. apply in_flat_map in H.
  destruct H as ((n, s) & Hex & Hc).
  apply extract_In in Hex. destruct Hex as [_ ->].
  unfold candidate_of in Hc.
  destruct (wratio E cq n >=? Z.max thr 50) eqn:Hge; [|destruct Hc].
  destruct (entity_named ents n) as [e|] eqn:Hn; [|destruct Hc].
  apply entity_named_spec in Hn. destruct Hn as [Hin <-].
  destruct Hc as [<-|[]]. exists e. repeat split; auto.
  rewrite Z.geb_leb, Z.leb_le in Hge. exact Hge.
Qed.

Lemma all_candidates_spec (cache : Cache) (cq : string) (etype : option string)
      (thr : Z) (c : Candidate) :
  In c (all_candidates E cache cq etype thr) ->
  exists t ents e,
    In t (search_types etype) /\ cache_get cache t = Some ents /\ In e ents
    /\ Z.max thr 50 <= wratio E cq (ce_name e)
    /\ c = candidate_for t e (wratio E cq (ce_name e)).
Proof.
  unfold all_candidates. intros H. apply in_flat_map in H.
  destruct H as (t & Ht & Hc).
  destruct (cache_get cache t) as [ents|] eqn:Hg; [|destruct Hc].
  apply candidates_spec in Hc. destruct Hc as (e & He & Hs & ->).
  exists t, ents, e. auto.
Qed.

(** the loop over the candidates keeps the first one of largest final score *)
Lemma fold_better_spec (l : list Candidate) :
  forall (bm : option EntityMatch) (s0 : Q),
    let r := fold_left better l (bm, s0) in
    (s0 <= snd r)%Q
    /\ (forall c, In c l -> (final_score c <= snd r)%Q)
    /\ (r = (bm, s0)
        \/ exists c, In c l /\ fst r = Some (cand_entity c)
                     /\ snd r = final_score c).
Proof.
  induction l as [|a l IH]; intros bm s0; simpl.
  - split; [apply Qle_refl|]. split; [intros c []|now left].
  - assert (Hstep : better (bm, s0) a
                    = if Qlt_le_dec s0 (final_score a)
                      then (Some (cand_entity a), final_score a) else (bm, s0))
      by reflexivity.
    rewrite Hstep. clear Hstep.
    destruct (Qlt_le_dec s0 (final_score a)) as [Hlt|Hle].
    + destruct (IH (Some (cand_entity a)) (final_score a)) as (H1 & H2 & H3).
      split; [eapply Qle_trans; [apply Qlt_le_weak, Hlt|exact H1]|].
      split.
      * intros c [<-|Hc]; auto.
      * right. destruct H3 as [H3|(c & Hc & Hf & Hs)].
        -- exists a. rewrite H3. simpl. auto.
        -- exists c. auto.
    + destruct (IH bm s0) as (H1 & H2 & H3).
      split; [exact H1|]. split.
      * intros c [<-|Hc]; auto. eapply Qle_trans; eauto.
      * destruct H3 as [H3|(c & Hc & Hf & Hs)]; [now left|].
        right. exists c. auto.
Qed.

Lemma find_best_spec (cache : Cache) (q : string) (etype : option string)
      (thr : Z) (m : EntityMatch) :
  find_best_entity_match E cache q etype thr = Some m ->
  exists c,
    In c (all_candidates E cache (_clean_query_for_matching q) etype thr)
    /\ cand_entity c = m
    /\ forall c',
         In c' (all_candidates E cache (_clean_query_for_matching q) etype thr) ->
         (final_score c' <= final_score c)%Q.
Proof.
  unfold find_best_entity_match. intros H.
  destruct (fold_better_spec
              (all_candidates E cache (_clean_query_for_matching q) etype thr)
              None 0%Q) as (_ & H2 & H3).
  destruct H3 as [H3|(c & Hc & Hf & Hs)].
  - rewrite H3 in H. discriminate.
  - exists c. split; [exact Hc|]. split.
    + rewrite Hf in H. now inversion H.
    + intros c' Hc'. rewrite <- Hs. auto.
Qed.

(** the best match comes from an entry of the searched partitions whose
    similarity reaches the threshold, and reports that similarity *)
Lemma find_best_entity (cache : Cache) (q : string) (etype : option string)
      (thr : Z) (m : EntityMatch) :
  find_best_entity_match E cache q etype thr = Some m ->
  exists t ents e,
    In t (search_types etype) /\ cache_get cache t = Some ents /\ In e ents
    /\ Z.max thr 50 <= wratio E (_clean_query_for_matching q) (ce_name e)
    /\ m = match_of_entity t e
             (inject_Z (wratio E (_clean_query_for_matching q) (ce_name e)) / 100)%Q.
Proof.
  intros H. apply find_best_spec in H. destruct H as (c & Hc & <- & _).
  apply all_candidates_spec in Hc.
  destruct Hc as (t & ents & e & Ht & Hg & He & Hs & ->).
  exists t, ents, e. auto.
Qed.

Lemma find_best_none (cache : Cache) (q : string) (etype : option string)
      (thr : Z) :
  (forall t ents e, cache_get cache t = Some ents -> In e ents ->
     wratio E (_clean_query_for_matching q) (ce_name e) < Z.max thr 50) ->
  find_best_entity_match E cache q etype thr = None.
Proof.
  intros Hlow.
  destruct (find_best_entity_match E cache q etype thr) as [m|] eqn:H; auto.
  apply find_best_entity in H.
  destruct H as (t & ents & e & _ & Hg & He & Hs & _).
  specialize (Hlow t ents e Hg He). lia.
Qed.

(** the matches [find_multiple_entities] ranks *)
Lemma multi_match_length (t : string) (ents : list CacheEntity) (thr : Z)
      (ex : list (string * Z)) :
  (forall n s, In (n, s) ex -> In n (map ce_name ents)) ->
  List.length (flat_map (multi_match_of t ents thr) ex)
  = List.length (filter (fun m => snd m >=? thr) ex).
Proof.
  induction ex as [|(n, s) ex IH]; intros Hin; simpl; auto.
  rewrite length_app, IH by (intros; eapply Hin; right; eauto).
  destruct (entity_named_some ents n) as (e & He); [eapply Hin; left; eauto|].
  rewrite He. destruct (s >=? thr); simpl; auto.
Qed.

Lemma partition_matches_length (t : string) (ents : list CacheEntity)
      (cq : string) (thr : Z) :
  List.length (flat_map (multi_match_of t ents thr)
                        (extract E cq (map ce_name ents) 8))
  = Nat.min 8 (List.length (hits E cq thr ents)).
Proof.
  rewrite multi_match_length.
  - apply extract_hits.
  - intros n s H. apply extract_In in H. tauto.
Qed.

Lemma multi_matches_unfold (cache : Cache) (cq : string) (thr : Z) :
  multi_matches E cache cq thr
  = let part t ents :=
        flat_map (multi_match_of t ents thr) (extract E cq (map ce_name ents) 8) in
    app (part "characters" (cache_characters cache))
   (app (part "vehicles" (cache_vehicles cache))
   (app (part "locations" (cache_locations cache))
   (app (part "storylines" (cache_storylines cache))
        (part "organizations" (cache_organizations cache))))).
Proof.
  unfold multi_matches, all_entity_types. cbn [flat_map].
  change (cache_get cache "characters") with (Some (cache_characters cache)).
  change (cache_get cache "vehicles") with (Some (cache_vehicles cache)).
  change (cache_get cache "locations") with (Some (cache_locations cache)).
  change (cache_get cache "storylines") with (Some (cache_storylines cache)).
  change (cache_get cache "organizations") with (Some (cache_organizations cache)).
  cbv zeta. rewrite app_nil_r. reflexivity.
Qed.

Lemma hits_all_length (cache : Cache) (cq : string) (thr : Z) :
  List.length (hits E cq thr (all_entities cache))
  = (List.length (hits E cq thr (cache_characters cache))
     + (List.length (hits E cq thr (cache_vehicles cache))
        + (List.length (hits E cq thr (cache_locations cache))
           + (List.length (hits E cq thr (cache_storylines cache))
              + List.length (hits E cq thr (cache_organizations cache))))))%nat.
Proof.
  unfold hits, all_entities. rewrite !filter_app, !length_app. reflexivity.
Qed.

Lemma multi_matches_length (cache : Cache) (cq : string) (thr : Z) :
  List.length (multi_matches E cache cq thr)
  = (Nat.min 8 (List.length (hits E cq thr (cache_characters cache)))
     + (Nat.min 8 (List.length (hits E cq thr (cache_vehicles cache)))
        + (Nat.min 8 (List.length (hits E cq thr (cache_locations cache)))
           + (Nat.min 8 (List.length (hits E cq thr (cache_storylines cache)))
              + Nat.min 8 (List.length (hits E cq thr (cache_organizations cache)))))))%nat.
Proof.
  rewrite multi_matches_unfold. cbv zeta.
  rewrite !length_app, !partition_matches_length. reflexivity.
Qed.

Lemma find_multiple_length (cache : Cache) (q : string) (k : nat) (thr : Z) :
  List.length (find_multiple_entities E cache q k thr)
  = Nat.min k (List.length (multi_matches E cache (_clean_query_for_matching q) thr)).
Proof.
  unfold find_multiple_entities.
  rewrite length_firstn, sorted_desc_length. reflexivity.
Qed.

(** a match of [find_multiple_entities] comes from an entry whose similarity
    reaches the threshold and reports the boosted, capped confidence *)
Lemma find_multiple_entity (cache : Cache) (q : string) (k : nat) (thr : Z)
      (m : EntityMatch) :
  In m (find_multiple_entities E cache q k thr) ->
  exists t ents e,
    In t all_entity_types /\ cache_get cache t = Some ents /\ In e ents
    /\ thr <= wratio E (_clean_query_for_matching q) (ce_name e)
    /\ m = match_of_entity t e
             (boosted_confidence (ce_name e)
                (wratio E (_clean_query_for_matching q) (ce_name e))).
Proof.
  unfold find_multiple_entities. intros H.
  apply firstn_In, sorted_desc_In in H.
  unfold multi_matches in H. apply in_flat_map in H.
  destruct H as (t & Ht & Hm).
  destruct (cache_get cache t) as [ents|] eqn:Hg; [|destruct Hm].
  apply in_flat_map in Hm. destruct Hm as ((n, s) & Hex & Hm).
  apply extract_In in Hex. destruct Hex as [_ ->].
  unfold multi_match_of in Hm.
  destruct (wratio E _ n >=? thr) eqn:Hge; [|destruct Hm].
  destruct (entity_named ents n) as [e|] eqn:Hn; [|destruct Hm].
  apply entity_named_spec in Hn. destruct Hn as [Hin <-].
  destruct Hm as [<-|[]]. exists t, ents, e. repeat split; auto.
  rewrite Z.geb_leb, Z.leb_le in Hge. exact Hge.
Qed.

End MatcherFacts.

(* ================================================================== *)
(** ** The shape of every response *)
(* ================================================================== *)

Ltac in_list := first [left; reflexivity | right; in_list].

(** case analysis on the tests of a hypothesis, outermost first *)
Ltac break_in H :=
  repeat match type of H with
    | context [match ?x with _ => _ end] =>
        match x with
        | context [match _ with _ => _ end] => fail 1
        | _ => destruct x eqn:?
        end
    end.

Ltac fixed := apply shape_fixed; in_list.

Section ResolverFacts.

Variable E : Env.
Variable db : DB.

Lemma process_relationship_query_answers (q : string) (res : RelationshipResult) :
  process_relationship_query E db q = Some res ->
  In (rr_query_type res, rr_confidence res) fixed_answers.
Proof.
  unfold process_relationship_query, process_weapons_query,
    process_defense_query, process_features_query, process_location_query,
    process_specifications_query.
  intros H. break_in H; try discriminate; inversion H; subst; simpl; in_list.
Qed.

Lemma inferred_location_answers (entity r : SearchResult) :
  inferred_location E db entity = Some r ->
  sr_entity_type r = "locations" /\ sr_confidence r = 0.8%Q.
Proof.
  unfold inferred_location. intros H.
  apply first_some_spec in H. destruct H as (kv & _ & H).
  destruct (Py.is_in (fst kv) _); [|discriminate].
  apply first_some_spec in H. destruct H as (loc & _ & H).
  destruct (find_like E db "locations" _); [|discriminate].
  inversion H; subst. auto.
Qed.

Lemma search_by_relationship_answers (q : string) (r : SearchResult) :
  search_by_relationship E db q = Some r ->
  In (sr_entity_type r, sr_confidence r) fixed_answers.
Proof.
  unfold search_by_relationship, _find_entity_location, _find_entity_users.
  intros H. break_in H; try discriminate;
    try (apply inferred_location_answers in H; destruct H as [-> ->]; in_list);
    try (inversion H; subst; simpl; in_list).
  all: destruct (find_like E db _ _); try discriminate;
    inversion H; subst; simpl; in_list.
Qed.

Lemma _compare_entities_fallback_confidence (e1 e2 : Row) (t1 t2 ct : string) :
  In (cr_confidence (_compare_entities_fallback E db e1 e2 t1 t2 ct))
     [0.7%Q; 0.5%Q].
Proof.
  unfold _compare_entities_fallback.
  match goal with
  | |- context [let '(win, expl) := ?p in _] => destruct p as [win expl]
  end.
  simpl. destruct (truthy win); in_list.
Qed.

Lemma enhanced_vehicle_comparison_confidence (n1 n2 ct : string) :
  In (verdict_confidence (enhanced_vehicle_comparison E db n1 n2 ct))
     [0.8%Q; 0.7%Q; 0.6%Q].
Proof.
  unfold enhanced_vehicle_comparison, _compare_vehicle_speed,
    _compare_vehicle_armor, _compare_vehicle_weapons, _compare_vehicle_overall.
  repeat match goal with
    | |- context [if ?c then _ else _] => destruct c
    end; simpl; in_list.
Qed.

Lemma enhanced_character_comparison_confidence (n1 n2 ct : string) (v : Verdict) :
  enhanced_character_comparison n1 n2 ct = Return v ->
  In (verdict_confidence v) [0.8%Q; 0.6%Q].
Proof.
  unfold enhanced_character_comparison. intros H.
  destruct (Py.get ece_logic ct); [|discriminate].
  inversion H; subst.
  repeat match goal with
    | |- context [if (?a >? ?b) then _ else _] => destruct (a >? b)
    end; simpl; in_list.
Qed.

Lemma handle_comparative_query_confidence (cache : Cache) (q : string)
      (c : ComparisonResult) :
  handle_comparative_query E db cache q = Return (Some c) ->
  In ("comparative_analysis", cr_confidence c) fixed_answers.
Proof.
  unfold handle_comparative_query, _enhanced_compare_entities. intros H.
  destruct (_parse_comparison_query E q) as [[[ct n1] n2]|]; [|discriminate].
  destruct (find_best_entity_match E cache n1 None 70) as [m1|]; [|discriminate].
  destruct (find_best_entity_match E cache n2 None 70) as [m2|]; [|discriminate].
  destruct (_get_entity_by_id db (em_entity_id m1) (em_entity_type m1)) as [e1|];
    [|discriminate].
  destruct (_get_entity_by_id db (em_entity_id m2) (em_entity_type m2)) as [e2|];
    [|discriminate].
  destruct ((em_entity_type m1 =? "characters")
            && (em_entity_type m2 =? "characters")).
  - destruct (enhanced_character_comparison (row_name e1) (row_name e2) ct)
      as [v| |] eqn:Hv; simpl in H; try discriminate.
    inversion H; subst; simpl.
    apply enhanced_character_comparison_confidence in Hv.
    destruct Hv as [<-|[<-|[]]]; in_list.
  - destruct ((em_entity_type m1 =? "vehicles")
              && (em_entity_type m2 =? "vehicles")).
    + simpl in H. inversion H; subst; simpl.
      destruct (enhanced_vehicle_comparison_confidence
                  (row_name e1) (row_name e2) ct) as [<-|[<-|[<-|[]]]]; in_list.
    + simpl in H. inversion H; subst.
      destruct (_compare_entities_fallback_confidence
                  e1 e2 (em_entity_type m1) (em_entity_type m2) ct)
        as [<-|[<-|[]]]; in_list.
Qed.

Lemma handle_relationship_query_confidence (cache : Cache) (q : string)
      (r : RelatedResult) :
  handle_relationship_query E db cache q = Some r -> rel_confidence r = 0.8%Q.
Proof.
  unfold handle_relationship_query. intros H.
  break_in H; try discriminate; inversion H; subst; reflexivity.
Qed.

End ResolverFacts.

Section HandlerFacts.

Variable E : Env.

Lemma respond_history (b : Chatbot) (ctx : ResponseContext) :
  conversation_history (snd (respond E b ctx)) = conversation_history b
  /\ conn (snd (respond E b ctx)) = conn b
  /\ entity_cache (snd (respond E b ctx)) = entity_cache b.
Proof. unfold respond. simpl. auto. Qed.

Lemma fst_shape (x : BatmanResponse * Chatbot) (r : BatmanResponse) (b' : Chatbot) :
  x = (r, b') -> shape E (fst x) -> shape E r.
Proof. intros ->. auto. Qed.

Lemma matched_best (cache : Cache) (q : string) (etype : option string) (thr : Z)
      (m : EntityMatch) :
  find_best_entity_match E cache q etype thr = Some m -> matched E m.
Proof. intros H. left. exists cache, q, etype, thr. exact H. Qed.

Lemma matched_vehicle (cache : Cache) (q : string) (m : EntityMatch) :
  vehicle_match E cache q = Some m -> matched E m.
Proof.
  unfold vehicle_match. destruct (Py.any_in _ _); intros H.
  - right. exists cache, q. exact H.
  - eapply matched_best; eauto.
Qed.

Lemma character_lookup_shape (db : DB) (b : Chatbot) (q : string) :
  shape E (fst (character_lookup E db b q)).
Proof.
  unfold character_lookup, character_not_found, suggest, respond.
  destruct (find_best_entity_match E (entity_cache b) q (Some "characters") 70)
    as [m|] eqn:Hm.
  - destruct (Qlt_le_dec 0.6 (em_confidence m)).
    + destruct (_get_entity_by_id db (em_entity_id m) "characters").
      * simpl. apply shape_match; [eapply matched_best; eauto|in_list].
      * destruct (handle_ambiguous_query E (entity_cache b) q); simpl; try fixed.
        destruct (filter is_character matches); simpl;
          [fixed|apply shape_suggest; in_list].
    + destruct (handle_ambiguous_query E (entity_cache b) q); simpl; try fixed.
      destruct (filter is_character matches); simpl;
        [fixed|apply shape_suggest; in_list].
  - destruct (handle_ambiguous_query E (entity_cache b) q); simpl; try fixed.
    destruct (filter is_character matches); simpl;
      [fixed|apply shape_suggest; in_list].
Qed.

Lemma _handle_vehicle_query_shape (db : DB) (b : Chatbot) (q : string) :
  shape E (fst (_handle_vehicle_query E db b q)).
Proof.
  unfold _handle_vehicle_query, not_found_response, out_of_scope_response, respond.
  destruct (negb (fst (_check_batman_scope q))); simpl; [fixed|].
  destruct (vehicle_match E (entity_cache b) q) as [m|] eqn:Hm; simpl; [|fixed].
  destruct (Qlt_le_dec (confidence_threshold m) (em_confidence m)); simpl; [|fixed].
  destruct (_get_entity_by_id db (em_entity_id m) "vehicles"); simpl; [|fixed].
  apply shape_match; [eapply matched_vehicle; eauto|in_list].
Qed.

Lemma _handle_location_query_shape (db : DB) (b : Chatbot) (q : string) :
  shape E (fst (_handle_location_query E db b q)).
Proof.
  unfold _handle_location_query, not_found_response, respond.
  destruct (find_best_entity_match E (entity_cache b) q (Some "locations") 70)
    as [m|] eqn:Hm; simpl; [|fixed].
  destruct (Qlt_le_dec 0.6 (em_confidence m)); simpl; [|fixed].
  destruct (_get_entity_by_id db (em_entity_id m) "locations"); simpl; [|fixed].
  apply shape_match; [eapply matched_best; eauto|in_list].
Qed.

Lemma _handle_relationship_query_shape (db : DB) (b : Chatbot) (q : string) :
  shape E (fst (_handle_relationship_query E db b q)).
Proof.
  unfold _handle_relationship_query, related_response.
  destruct (handle_relationship_query E db (entity_cache b) q) as [r|] eqn:Hr;
    simpl; [|fixed].
  apply handle_relationship_query_confidence in Hr. rewrite Hr. fixed.
Qed.

Lemma _handle_general_search_shape (db : DB) (b : Chatbot) (q : string)
      (r : BatmanResponse) (b' : Chatbot) :
  _handle_general_search E db b q = Return (r, b') -> shape E r.
Proof.
  unfold _handle_general_search, out_of_scope_response, suggest. intros H.
  destruct (negb (fst (_check_batman_scope q))).
  { inversion H; subst. fixed. }
  assert (Hafter : forall r b',
    match handle_ambiguous_query E (entity_cache b) q with
    | multiple_matches matches0 _ _ =>
        Return
          ({| answer := template_multiple_matches q
                          (numbered_options E (firstn 5 matches0));
              confidence := 0.5; source_entities := []; query_type := "general_search";
              suggestions := Some (map em_name (firstn 5 matches0)) |}, b)
    | _ =>
        Return
          ({| answer := "I couldn't find any Batman universe information matching your query. Try asking about specific characters, vehicles, or locations.";
              confidence := 0.0; source_entities := []; query_type := "general_search";
              suggestions := None |}, b)
    end = Return (r, b') -> shape E r).
  { intros r0 b0 H0.
    destruct (handle_ambiguous_query E (entity_cache b) q);
      inversion H0; subst; try fixed. apply shape_suggest; in_list. }
  destruct (find_best_entity_match E (entity_cache b) q None 60) as [m|] eqn:Hm;
    [|eapply Hafter; eauto].
  destruct (Qlt_le_dec 0.6 (em_confidence m)); [|eapply Hafter; eauto].
  destruct (_get_entity_by_id db (em_entity_id m) (em_entity_type m));
    [|eapply Hafter; eauto].
  destruct (em_entity_type m =? "storylines"); [discriminate|].
  inversion H; subst.
  apply shape_match; [eapply matched_best; eauto|in_list].
Qed.

Section WithSelf.

Variable self : Chatbot -> string -> outcome (BatmanResponse * Chatbot).
Hypothesis self_shape :
  forall b q r b', self b q = Return (r, b') -> shape E r.

Lemma _handle_character_query_shape (db : DB) (b : Chatbot) (q : string)
      (r : BatmanResponse) (b' : Chatbot) :
  _handle_character_query E self db b q = Return (r, b') -> shape E r.
Proof.
  unfold _handle_character_query, _handle_contextual_followup,
    out_of_scope_response, clarification_response, suggest.
  intros H.
  destruct (negb (fst (_check_batman_scope q))).
  { inversion H; subst. fixed. }
  destruct (weapons_followup (conversation_history b) (Py.strip (Py.lower q))).
  { destruct (resolved_queries E (conversation_history b) q) as [|rq rest].
    - inversion H; subst. fixed.
    - eapply self_shape; eauto. }
  match type of H with
  | match ?f with _ => _ end = _ => destruct f
  end.
  - inversion H; subst. apply shape_suggest; in_list.
  - inversion H as [H1]. eapply fst_shape; [exact H1|apply character_lookup_shape].
Qed.

Lemma _handle_sidekick_query_shape (db : DB) (b : Chatbot) (q : string)
      (r : BatmanResponse) (b' : Chatbot) :
  _handle_sidekick_query E self db b q = Return (r, b') -> shape E r.
Proof.
  unfold _handle_sidekick_query, suggest. intros H.
  match type of H with
  | match ?f with _ => _ end = _ => destruct f
  end.
  - inversion H; subst. apply shape_suggest; in_list.
  - eapply _handle_character_query_shape; eauto.
Qed.

Lemma dispatch_shape (db : DB) (b : Chatbot) (q : string)
      (r : BatmanResponse) (b' : Chatbot) :
  dispatch E self db b q = Return (r, b') -> shape E r.
Proof.
  unfold dispatch, _classify_query. intros H.
  destruct (Py.any_in vehicle_keywords (Py.lower q)).
  { simpl in H. inversion H as [H1].
    eapply fst_shape; [exact H1|apply _handle_vehicle_query_shape]. }
  destruct (Py.any_in location_keywords (Py.lower q)).
  { simpl in H. inversion H as [H1].
    eapply fst_shape; [exact H1|apply _handle_location_query_shape]. }
  destruct (Py.any_in relationship_keywords (Py.lower q)).
  { simpl in H. inversion H as [H1].
    eapply fst_shape; [exact H1|apply _handle_relationship_query_shape]. }
  destruct (Py.any_in sidekick_keywords (Py.lower q)).
  { simpl in H. eapply _handle_sidekick_query_shape; eauto. }
  destruct (Py.any_in character_keywords (Py.lower q)).
  { simpl in H. eapply _handle_character_query_shape; eauto. }
  simpl in H. eapply _handle_general_search_shape; eauto.
Qed.

Lemma process_query_body_shape (b : Chatbot) (q : string)
      (r : BatmanResponse) (b' : Chatbot) :
  process_query_body E self b q = Return (r, b') -> shape E r.
Proof.
  unfold process_query_body. intros H.
  destruct (conn b) as [db|]; [|inversion H; subst; fixed].
  set (query := _clean_input q) in *.
  set (b1 := say b "user" query) in *.
  change (entity_cache b1) with (entity_cache b) in H.
  destruct (process_relationship_query E db query) as [res|] eqn:Hres.
  { inversion H; subst. unfold _handle_relationship_processor_result.
    apply shape_fixed. eapply process_relationship_query_answers; eauto. }
  destruct (search_multi_entity E db query) as [[e1 e2]|].
  { inversion H; subst. unfold _handle_comparison_result. fixed. }
  destruct (search_by_relationship E db query) as [sr|] eqn:Hsr.
  { unfold _handle_relationship_result, respond in H. inversion H; subst.
    apply shape_fixed. eapply search_by_relationship_answers; eauto. }
  destruct (handle_comparative_query E db (entity_cache b) query)
    as [[c|]| |] eqn:Hc; simpl in H; try discriminate.
  { inversion H; subst. unfold comparative_response.
    apply shape_fixed. eapply handle_comparative_query_confidence; eauto. }
  destruct (handle_relationship_query E db (entity_cache b) query) as [rel|] eqn:Hrel.
  { inversion H; subst. unfold related_response.
    apply handle_relationship_query_confidence in Hrel. rewrite Hrel. fixed. }
  destruct (handle_multi_entity_query E db (entity_cache b) query) as [me|].
  { inversion H; subst. unfold multi_entity_response. fixed. }
  destruct (dispatch E self db b1 query) as [[r0 b0]| |] eqn:Hd; simpl in H;
    try discriminate.
  inversion H; subst. eapply dispatch_shape; eauto.
Qed.

End WithSelf.

(** every response of [process_query] has one of the three shapes *)
Lemma process_query_fuel_shape (fuel : nat) :
  forall (b : Chatbot) (q : string) (r : BatmanResponse) (b' : Chatbot),
    process_query_fuel E fuel b q = Return (r, b') -> shape E r.
Proof.
  induction fuel as [|n IH]; intros b q r b' H; simpl in H; [discriminate|].
  eapply process_query_body_shape; eauto.
Qed.

Lemma process_query_shape (b : Chatbot) (q : string) (r : BatmanResponse)
      (b' : Chatbot) :
  process_query E b q = Return (r, b') -> shape E r.
Proof. apply process_query_fuel_shape. Qed.

End HandlerFacts.

(* ================================================================== *)
(** ** Termination of [process_query] *)
(* ================================================================== *)






Section Termination.

Variable E : Env.


Section WithSelf.

Variable self : Chatbot -> string -> outcome (BatmanResponse * Chatbot).




End WithSelf.



End Termination.

(* ================================================================== *)
(** ** Numeric comparisons (C5) *)
(* ================================================================== *)

(** C5, evaluated on the code: in the speed comparison of two vehicles, when
    one side's speed is the text ['200 mph'] and the other side's speed cannot
    be read as a number (['Unknown'], what [_get_vehicle_specs] stores for a
    missing speed), [_compare_vehicle_speed] reads the unreadable side as 0.0
    and declares the readable side the winner with confidence 0.8, whichever
    side it is, instead of declaring no winner with confidence 0.5 to 0.6. *)
Theorem C5_parseable_side_wins :
  forall (name1 name2 : string) (a1 w1 d1 a2 w2 d2 : Z) (s1 s2 : string),
    let known := mkSpecs "200 mph" a1 w1 d1 s1 in
    let unknown := mkSpecs "Unknown" a2 w2 d2 s2 in
    (winner (_compare_vehicle_speed name1 name2 known unknown) = Some name1
     /\ verdict_confidence (_compare_vehicle_speed name1 name2 known unknown)
        = 0.8%Q)
    /\ (winner (_compare_vehicle_speed name1 name2 unknown known) = Some name2
        /\ verdict_confidence (_compare_vehicle_speed name1 name2 unknown known)
           = 0.8%Q).
Proof.
  intros. unfold _compare_vehicle_speed, known, unknown. simpl max_speed.
  change (_extract_speed_number "200 mph") with (inject_Z 200).
  change (_extract_speed_number "Unknown") with 0%Q.
  destruct (Qlt_le_dec 0 (inject_Z 200)) as [Hlt|Hle].
  - destruct (Qlt_le_dec (inject_Z 200) 0) as [Hlt'|Hle']; simpl; auto.
    exfalso. revert Hlt'. unfold Qlt. simpl. lia.
  - exfalso. revert Hle. unfold Qle. simpl. lia.
Qed.

(** The sibling path [_compare_entities_fallback] does degrade: when one of
    the two stored speeds has no digit it names no winner, explains that an
    exact comparison is difficult and reports confidence 0.5. *)
Lemma fallback_speed_degrades (E : Env) (db : DB) (e1 e2 : Row) :
  vehicle_max_speed db (row_id e1) = Some "200 mph" ->
  vehicle_max_speed db (row_id e2) = Some "very fast" ->
  let r := _compare_entities_fallback E db e1 e2 "vehicles" "vehicles" "speed" in
  cr_winner r = None /\ cr_confidence r = 0.5%Q
  /\ cr_explanation r
     = "Both vehicles have speed specifications: " ++ row_name e1 ++ " ("
         ++ "200 mph" ++ ") vs " ++ row_name e2 ++ " (" ++ "very fast"
         ++ "), but exact comparison is difficult.".
Proof.
  intros H1 H2. unfold _compare_entities_fallback, _extract_speed_from_vehicle.
  rewrite H1, H2. repeat split.
Qed.

(** The same through [enhanced_vehicle_comparison], on a store whose
    Jokermobile has no stored speed: the Batmobile is declared faster than
    a vehicle of unknown speed. *)
Lemma unknown_speed_loses_in_store :
  enhanced_vehicle_comparison plain_env speed_store "Batmobile" "Jokermobile" "speed"
  = mkVerdict (Some "Batmobile")
      "The Batmobile is faster with a top speed of 200 mph compared to the Jokermobile's Unknown."
      0.8%Q.
Proof. vm_compute. reflexivity. Qed.

(* ================================================================== *)
(** ** Selection and confidence of the matchers (C6) *)
(* ================================================================== *)

(** C6, as stated, fails for [find_multiple_entities]: with the Joker as the
    only entity matching the query, at similarity 80, the match it returns
    carries confidence 0.895 (the similarity plus a tenth of the importance 95,
    over 100) and not the similarity alone, 0.8. *)
Lemma C6_counterexample :
  exists m,
    find_multiple_entities joker_env (entity_cache gotham_bot) "joker" 5 50 = [m]
    /\ wratio joker_env (_clean_query_for_matching "joker") "Joker" = 80
    /\ em_name m = "Joker"
    /\ (em_confidence m == 0.895)%Q
    /\ ~ (em_confidence m == inject_Z 80 / 100)%Q.
Proof.
  eexists. split; [vm_compute; reflexivity|].
  split; [reflexivity|]. split; [reflexivity|].
  split; [reflexivity|]. intros H. vm_compute in H. discriminate.
Qed.

(** C6, amended: [find_best_entity_match] returns the candidate with the
    largest similarity plus bonus among its candidates (the five most similar
    names of each searched partition that reach the threshold) and reports the
    similarity alone, over 100; [find_multiple_entities] reports
    min((similarity + importance / 10) / 100, 1), which includes its boost. *)
Theorem C6_matcher_selection_and_confidence :
  forall (E : Env) (cache : Cache) (q : string),
    let cq := _clean_query_for_matching q in
    (forall etype thr m,
        find_best_entity_match E cache q etype thr = Some m ->
        exists t ents e,
          cache_get cache t = Some ents /\ In e ents
          /\ let s := wratio E cq (ce_name e) in
             let c := candidate_for t e s in
             In c (all_candidates E cache cq etype thr)
             /\ m = cand_entity c
             /\ (final_score c
                 == inject_Z s + _calculate_importance_bonus (ce_name e) t * 100)%Q
             /\ (forall c', In c' (all_candidates E cache cq etype thr) ->
                            (final_score c' <= final_score c)%Q)
             /\ (em_confidence m == inject_Z s / 100)%Q)
    /\ (forall k thr m,
           In m (find_multiple_entities E cache q k thr) ->
           exists t ents e,
             cache_get cache t = Some ents /\ In e ents
             /\ let s := wratio E cq (ce_name e) in
                thr <= s
                /\ (em_confidence m
                    == Qmin ((inject_Z s + inject_Z (importance_boost (ce_name e)) * 0.1)
                             / 100) 1)%Q).
Proof.
  intros E cache q cq. split.
  - intros etype thr m H. apply find_best_spec in H.
    destruct H as (c & Hc & Hm & Hmax).
    pose proof Hc as Hc'. apply all_candidates_spec in Hc'.
    destruct Hc' as (t & ents & e & _ & Hg & He & _ & Heq).
    exists t, ents, e. split; [exact Hg|]. split; [exact He|].
    cbv zeta. fold cq in Heq. rewrite <- Heq.
    split; [exact Hc|]. split; [now symmetry|].
    split; [rewrite Heq; reflexivity|]. split; [exact Hmax|].
    rewrite <- Hm, Heq. reflexivity.
  - intros k thr m H. apply find_multiple_entity in H.
    destruct H as (t & ents & e & _ & Hg & He & Hs & ->).
    exists t, ents, e. split; [exact Hg|]. split; [exact He|].
    cbv zeta. split; [exact Hs|]. reflexivity.
Qed.

(** the amended statement at the Joker example *)
Lemma C6_witness :
  exists t ents e,
    cache_get (entity_cache gotham_bot) t = Some ents /\ In e ents
    /\ let s := wratio joker_env (_clean_query_for_matching "joker") (ce_name e) in
       let c := candidate_for t e s in
       In c (all_candidates joker_env (entity_cache gotham_bot)
               (_clean_query_for_matching "joker") None 50)
       /\ mkEntityMatch "c2" "characters" "Joker" (inject_Z 80 / 100) "fuzzy"
          = cand_entity c
       /\ (final_score c
           == inject_Z s + _calculate_importance_bonus (ce_name e) t * 100)%Q
       /\ (forall c', In c' (all_candidates joker_env (entity_cache gotham_bot)
                               (_clean_query_for_matching "joker") None 50) ->
                      (final_score c' <= final_score c)%Q)
       /\ (em_confidence
             (mkEntityMatch "c2" "characters" "Joker" (inject_Z 80 / 100) "fuzzy")
           == inject_Z s / 100)%Q.
Proof.
  apply (proj1 (@C6_matcher_selection_and_confidence joker_env
                  (entity_cache gotham_bot) "joker") None 50).
  vm_compute. reflexivity.
Defined.

(* ================================================================== *)
(** ** Alias pseudo-entities (C8) *)
(* ================================================================== *)

Lemma alias_join_In (db : DB) (c : Row) (alias : string) :
  In (c, alias) (alias_join db)
  <-> In c (characters db) /\ In (row_id c, alias) (character_aliases db).
Proof.
  unfold alias_join. rewrite in_flat_map. split.
  - intros (c' & Hc' & H). apply in_map_iff in H.
    destruct H as ((cid, a) & Heq & Hf). apply filter_In in Hf.
    destruct Hf as [Hin Hid]. simpl in *. apply String.eqb_eq in Hid.
    inversion Heq; subst. auto.
  - intros [Hc Ha]. exists c. split; [exact Hc|].
    apply in_map_iff. exists (row_id c, alias). split; [reflexivity|].
    apply filter_In. split; [exact Ha|]. simpl. apply String.eqb_refl.
Qed.

(** every entry of the character partition stands for a character row and
    resolves to its id and canonical name *)
Lemma cache_character_row (db : DB) (e : CacheEntity) :
  In e (cache_characters (_build_entity_cache db)) ->
  exists c, In c (characters db) /\ ce_id e = row_id c
            /\ forall conf, em_name (match_of_entity "characters" e conf) = row_name c.
Proof.
  simpl. intros H. apply in_app_or in H. destruct H as [H|H].
  - apply in_map_iff in H. destruct H as (c & <- & Hc). exists c. auto.
  - apply in_map_iff in H. destruct H as ((c, a) & <- & Hc).
    apply alias_join_In in Hc. exists c. tauto.
Qed.




(* ================================================================== *)
(** ** Confidence bounds (C9) *)
(* ================================================================== *)



Lemma importance_boost_nonneg (n : string) : 0 <= importance_boost n.
Proof.
  unfold importance_boost, entity_importance. simpl.
  repeat match goal with
    | |- context [if ?c then _ else _] => destruct c; [lia|]
    end. lia.
Qed.



Section Bounds.

Variable E : Env.
Hypothesis scorer_range : forall q c, 0 <= wratio E q c <= 100.








End Bounds.





(* ================================================================== *)
(** ** Disambiguation answers (C10) and the tags of the answers (C2) *)
(* ================================================================== *)

(** C10: a response of [process_query] that carries suggestions has
    confidence exactly 0.5 and names no source entity. *)
Theorem C10_suggestions_commit_to_nothing :
  forall (E : Env) (b : Chatbot) (q : string) (r : BatmanResponse) (b' : Chatbot)
         (names : list string),
    process_query E b q = Return (r, b') ->
    suggestions r = Some names ->
    confidence r = 0.5%Q /\ source_entities r = [].
Proof.
  intros E b q r b' names H Hs. apply process_query_shape in H.
  destruct H as [text conf sources qt _|text m qt _ _|text qt l _];
    simpl in *; try discriminate. auto.
Qed.

(** "who is batman" in the example store: Batman and Bane are offered *)
Lemma C10_witness :
  confidence
    (mkBatmanResponse
       (template_multiple_matches "who is batman"
          (numbered_options batman_env
             [ mkEntityMatch "c1" "characters" "Batman"
                 (boosted_confidence "Batman" 100) "fuzzy";
               mkEntityMatch "c3" "characters" "Bane"
                 (boosted_confidence "Bane" 60) "fuzzy" ]))
       0.5 [] "character_lookup" (Some ["Batman"; "Bane"])) = 0.5%Q
  /\ source_entities
       (mkBatmanResponse
          (template_multiple_matches "who is batman"
             (numbered_options batman_env
                [ mkEntityMatch "c1" "characters" "Batman"
                    (boosted_confidence "Batman" 100) "fuzzy";
                  mkEntityMatch "c3" "characters" "Bane"
                    (boosted_confidence "Bane" 60) "fuzzy" ]))
          0.5 [] "character_lookup" (Some ["Batman"; "Bane"])) = [].
Proof.
  refine (@C10_suggestions_commit_to_nothing batman_env gotham_bot "who is batman"
            _ _ ["Batman"; "Bane"] _ _).
  - vm_compute. reflexivity.
  - reflexivity.
Defined.

(** C2, as stated, fails: "Batman vs Joker" on a store that holds both
    characters is answered by the comparison of the search engine, whose tag
    [comparison] is not in the vocabulary. *)
Lemma C2_counterexample :
  exists r b',
    process_query versus_env gotham_bot "Batman vs Joker" = Return (r, b')
    /\ query_type r = "comparison"
    /\ ~ In (query_type r) vocabulary.
Proof.
  eexists. eexists. split; [vm_compute; reflexivity|].
  split; [reflexivity|]. simpl. intros H.
  repeat (destruct H as [H|H]; [discriminate|]). destruct H.
Qed.

Lemma fixed_answers_tags (qt : string) (conf : Q) :
  In (qt, conf) fixed_answers -> In qt (vocabulary ++ further_tags)%list.
Proof.
  unfold fixed_answers. intros H.
  repeat (destruct H as [H|H]; [inversion H; subst; simpl; in_list|]).
  destruct H.
Qed.

(** C2, amended: the tag of every response of [process_query] is in the
    vocabulary or is one of [comparison], [sidekick_lookup],
    [character_weapons], [characters], [locations]. *)
Theorem C2_query_type_vocabulary :
  forall (E : Env) (b : Chatbot) (q : string) (r : BatmanResponse) (b' : Chatbot),
    process_query E b q = Return (r, b') ->
    In (query_type r) (vocabulary ++ further_tags)%list.
Proof.
  intros E b q r b' H. apply process_query_shape in H.
  destruct H as [text conf sources qt H|text m qt _ H|text qt l H]; simpl query_type.
  - eapply fixed_answers_tags; eauto.
  - simpl in H. repeat (destruct H as [<-|H]; [simpl; in_list|]). destruct H.
  - simpl in H. repeat (destruct H as [<-|H]; [simpl; in_list|]). destruct H.
Qed.

(** the tag of the comparison of the counterexample is one of the further
    tags *)
Lemma C2_witness :
  In (query_type
        (mkBatmanResponse
           (answer (_handle_comparison_result gotham_store
              (mkSearchResult "c1" "characters" "Batman"
                 "The Dark Knight of Gotham." 1.0 "exact" "")
              (mkSearchResult "c2" "characters" "Joker"
                 "The Clown Prince of Crime." 1.0 "exact" "")))
           0.9 ["c1"; "c2"] "comparison" None))
     (vocabulary ++ further_tags)%list.
Proof.
  refine (@C2_query_type_vocabulary versus_env gotham_bot "Batman vs Joker" _ _ _).
  vm_compute. reflexivity.
Defined.

(* ================================================================== *)
(** ** The scope filter (C1) *)
(* ================================================================== *)

Lemma existsb_find {A} (f g : A -> bool) (l : list A) :
  (forall a, g a = f a) ->
  existsb f l = true -> exists x, find g l = Some x.
Proof.
  intros Hfg. induction l as [|a l IH]; simpl; [discriminate|].
  rewrite Hfg. destruct (f a); eauto.
Qed.

Lemma denylisted_out_of_scope (q : string) :
  denylisted q -> fst (_check_batman_scope q) = false.
Proof.
  intros [Hdeny Hanchor]. unfold _check_batman_scope. rewrite Hanchor.
  unfold Py.any_in in Hdeny.
  destruct (@existsb_find _ (fun k => Py.is_in k (Py.lower q))
              (fun entity => Py.is_in entity (Py.lower q) && negb false)
              (non_batman_heroes ++ non_batman_entities)%list) as (x & Hx).
  { intros a. simpl. apply andb_true_r. }
  { exact Hdeny. }
  rewrite Hx. reflexivity.
Qed.

Section Routing.

Variable E : Env.

(** a query none of the earlier resolvers answers reaches the classifier *)
Lemma process_query_body_unanswered
      (self : Chatbot -> string -> outcome (BatmanResponse * Chatbot))
      (b : Chatbot) (db : DB) (q : string) :
  conn b = Some db ->
  unanswered E db (entity_cache b) (_clean_input q) ->
  process_query_body E self b q
  = do rb <- dispatch E self db (say b "user" (_clean_input q)) (_clean_input q) ;
    Return (fst rb, say (snd rb) "assistant" (answer (fst rb))).
Proof.
  intros Hconn (H1 & H2 & H3 & H4 & H5 & H6).
  unfold process_query_body. rewrite Hconn.
  change (entity_cache (say b "user" (_clean_input q))) with (entity_cache b).
  rewrite H1, H2, H3, H4. simpl. rewrite H5, H6. reflexivity.
Qed.

Lemma scoped_handlers_refuse
      (self : Chatbot -> string -> outcome (BatmanResponse * Chatbot))
      (db : DB) (b : Chatbot) (q : string) :
  denylisted q ->
  In (_classify_query q) ["character_lookup"; "vehicle_lookup"; "general_search"] ->
  dispatch E self db b q
  = Return (out_of_scope_response (snd (_check_batman_scope q)), b).
Proof.
  intros Hd Hc. apply denylisted_out_of_scope in Hd.
  unfold dispatch.
  destruct Hc as [<-|[<-|[<-|[]]]]; simpl.
  - unfold _handle_character_query. rewrite Hd. reflexivity.
  - unfold _handle_vehicle_query. rewrite Hd. reflexivity.
  - unfold _handle_general_search. rewrite Hd. reflexivity.
Qed.

End Routing.

(** C1, as stated, fails: "where is metropolis" names a denylisted place and
    no anchor; no earlier resolver answers it, the classifier routes it to
    the location handler, which has no scope filter and returns its own
    not-found answer tagged [location_lookup]. *)
Lemma C1_counterexample :
  denylisted (_clean_input "where is metropolis")
  /\ exists r b',
       process_query plain_env empty_bot "where is metropolis" = Return (r, b')
       /\ query_type r = "location_lookup"
       /\ query_type r <> "out_of_scope".
Proof.
  split; [split; reflexivity|].
  eexists. eexists. split; [vm_compute; reflexivity|].
  split; [reflexivity|discriminate].
Qed.

(** C1, amended: a query that contains a denylisted term and no anchor, that
    none of the earlier resolvers of [process_query] answers and that the
    classifier routes to the character, vehicle or general-search handler is
    answered [out_of_scope] with confidence 0.0 and no source entity, whatever
    the cache holds: in these three handlers the scope filter comes before
    any entity matching. *)
Theorem C1_scope_filter_in_scoped_handlers :
  forall (E : Env) (b : Chatbot) (db : DB) (q : string),
    conn b = Some db ->
    denylisted (_clean_input q) ->
    unanswered E db (entity_cache b) (_clean_input q) ->
    In (_classify_query (_clean_input q))
       ["character_lookup"; "vehicle_lookup"; "general_search"] ->
    exists r b',
      process_query E b q = Return (r, b')
      /\ query_type r = "out_of_scope"
      /\ confidence r = 0.0%Q
      /\ source_entities r = [].
Proof.
  intros E b db q Hconn Hdeny Hun Hclass.
  unfold process_query.
  change (process_query_fuel E 5 b q)
    with (process_query_body E (process_query_fuel E 4) b q).
  rewrite (@process_query_body_unanswered E _ b db q Hconn Hun).
  rewrite (@scoped_handlers_refuse E _ db _ _ Hdeny Hclass). simpl.
  eexists. eexists. split; [reflexivity|]. simpl. auto.
Qed.

(** "tell me about superman" on the empty store *)
Lemma C1_witness :
  exists r b',
    process_query plain_env empty_bot "tell me about superman" = Return (r, b')
    /\ query_type r = "out_of_scope"
    /\ confidence r = 0.0%Q
    /\ source_entities r = [].
Proof.
  apply (@C1_scope_filter_in_scoped_handlers plain_env empty_bot
           (store [] [] [] []) "tell me about superman").
  - reflexivity.
  - split; reflexivity.
  - vm_compute. repeat split.
  - vm_compute. auto.
Defined.

(* ================================================================== *)
(** ** General search: not found (C4) and disambiguation (C3) *)
(* ================================================================== *)

Lemma cache_get_all (c : Cache) (t : string) (ents : list CacheEntity)
      (e : CacheEntity) :
  cache_get c t = Some ents -> In e ents -> In e (all_entities c).
Proof.
  unfold cache_get, all_entities. intros H He.
  repeat match type of H with
    | (if ?x then _ else _) = _ => destruct x
    end; inversion H; subst; repeat (apply in_or_app; (now left) || right);
    repeat (apply in_or_app; right); auto; try discriminate.
Qed.

Lemma hits_nil_below (E : Env) (cq : string) (t : Z) (ents : list CacheEntity)
      (e : CacheEntity) :
  hits E cq t ents = [] -> In e ents -> wratio E cq (ce_name e) < t.
Proof.
  unfold hits. intros H He.
  destruct (wratio E cq (ce_name e) >=? t) eqn:Hge.
  - assert (Hin : In e (filter (fun e => wratio E cq (ce_name e) >=? t) ents))
      by (apply filter_In; auto).
    rewrite H in Hin. destruct Hin.
  - rewrite Z.geb_leb, Z.leb_gt in Hge. exact Hge.
Qed.

Section GeneralSearch.

Variable E : Env.

Lemma loose_count (cache : Cache) (q : string) :
  let n := List.length (hits E (_clean_query_for_matching q) 50 (all_entities cache)) in
  let k := List.length (find_multiple_entities E cache q 5 50) in
  (n = 0 -> k = 0)%nat /\ (n = 1 -> k = 1)%nat /\ (2 <= n -> 2 <= k <= 5)%nat.
Proof.
  cbv zeta. rewrite find_multiple_length, multi_matches_length, hits_all_length.
  lia.
Qed.

(** the part of [_handle_general_search] after the confidence gate *)
Lemma gate_closed (db : DB) (b : Chatbot) (q : string) :
  fst (_check_batman_scope q) = true ->
  hits E (_clean_query_for_matching q) 61 (all_entities (entity_cache b)) = [] ->
  _handle_general_search E db b q
  = match handle_ambiguous_query E (entity_cache b) q with
    | multiple_matches matches0 _ _ =>
        Return (suggest b
                  (template_multiple_matches q
                     (numbered_options E (firstn 5 matches0)))
                  "general_search" (firstn 5 matches0))
    | _ => Return (general_not_found, b)
    end.
Proof.
  intros Hscope Hlow. unfold _handle_general_search. rewrite Hscope. simpl negb.
  cbv iota.
  destruct (find_best_entity_match E (entity_cache b) q None 60) as [m|] eqn:Hm;
    [|reflexivity].
  destruct (Qlt_le_dec 0.6 (em_confidence m)) as [Hlt|Hle]; [|reflexivity].
  exfalso. apply find_best_entity in Hm.
  destruct Hm as (t & ents & e & _ & Hg & He & _ & ->).
  pose proof (@hits_nil_below E _ 61 _ e Hlow (@cache_get_all _ _ _ _ Hg He)) as Hs.
  revert Hlt. simpl. unfold Qlt, Qdiv, Qmult, Qinv, inject_Z; simpl. lia.
Qed.

Lemma hits_nil_mono (cq : string) (t t' : Z) (ents : list CacheEntity) :
  t <= t' -> hits E cq t ents = [] -> hits E cq t' ents = [].
Proof.
  unfold hits. intros Hle H. induction ents as [|e ents IH]; simpl in *; auto.
  destruct (wratio E cq (ce_name e) >=? t) eqn:Hge; [discriminate|].
  rewrite Z.geb_leb, Z.leb_gt in Hge.
  replace (wratio E cq (ce_name e) >=? t') with false
    by (symmetry; rewrite Z.geb_leb, Z.leb_gt; lia).
  auto.
Qed.

Lemma general_search_nothing (db : DB) (b : Chatbot) (q : string) :
  fst (_check_batman_scope q) = true ->
  hits E (_clean_query_for_matching q) 50 (all_entities (entity_cache b)) = [] ->
  _handle_general_search E db b q = Return (general_not_found, b).
Proof.
  intros Hscope Hnone.
  rewrite gate_closed; [|exact Hscope|eapply hits_nil_mono; [|exact Hnone]; lia].
  unfold handle_ambiguous_query.
  destruct (loose_count (entity_cache b) q) as (H0 & _ & _).
  rewrite Hnone in H0. specialize (H0 eq_refl).
  destruct (find_multiple_entities E (entity_cache b) q 5 50); [reflexivity|].
  discriminate.
Qed.

Lemma general_search_ambiguous (db : DB) (b : Chatbot) (q : string) :
  fst (_check_batman_scope q) = true ->
  hits E (_clean_query_for_matching q) 61 (all_entities (entity_cache b)) = [] ->
  (2 <= List.length (hits E (_clean_query_for_matching q) 50
                          (all_entities (entity_cache b))))%nat ->
  exists text names,
    _handle_general_search E db b q
    = Return (mkBatmanResponse text 0.5%Q [] "general_search" (Some names), b)
    /\ (2 <= List.length names <= 5)%nat.
Proof.
  intros Hscope Hlow Htwo. rewrite gate_closed by assumption.
  unfold handle_ambiguous_query, suggest.
  destruct (loose_count (entity_cache b) q) as (_ & _ & H2).
  specialize (H2 Htwo).
  destruct (find_multiple_entities E (entity_cache b) q 5 50)
    as [|m1 [|m2 rest]] eqn:Hfm; simpl in H2; try lia.
  eexists. eexists. split; [reflexivity|].
  rewrite length_map, length_firstn. simpl List.length. lia.
Qed.

Lemma general_search_single (db : DB) (b : Chatbot) (q : string)
      (r : BatmanResponse) (b' : Chatbot) :
  List.length (hits E (_clean_query_for_matching q) 50
                    (all_entities (entity_cache b))) = 1%nat ->
  _handle_general_search E db b q = Return (r, b') ->
  suggestions r = None.
Proof.
  intros Hone H. unfold _handle_general_search, handle_ambiguous_query in H.
  destruct (loose_count (entity_cache b) q) as (_ & H1 & _).
  specialize (H1 Hone).
  destruct (find_multiple_entities E (entity_cache b) q 5 50)
    as [|m1 [|m2 rest]]; simpl in H1; try lia.
  break_in H; try discriminate; inversion H; subst; reflexivity.
Qed.

(** a query routed to general search *)
Lemma process_query_general (b : Chatbot) (db : DB) (q : string) :
  conn b = Some db ->
  unanswered E db (entity_cache b) (_clean_input q) ->
  _classify_query (_clean_input q) = "general_search" ->
  process_query E b q
  = do rb <- _handle_general_search E db (say b "user" (_clean_input q))
                                    (_clean_input q) ;
    Return (fst rb, say (snd rb) "assistant" (answer (fst rb))).
Proof.
  intros Hconn Hun Hclass. unfold process_query.
  change (process_query_fuel E 5 b q)
    with (process_query_body E (process_query_fuel E 4) b q).
  rewrite (@process_query_body_unanswered E _ b db q Hconn Hun).
  unfold dispatch. rewrite Hclass. reflexivity.
Qed.

End GeneralSearch.

(** C4, as stated, fails: the nonsense query is answered with confidence 0.0
    and no source entity, but under the tag [general_search] of the handler
    that looked for it, not [not_found]. *)
Lemma C4_counterexample :
  exists r b',
    process_query plain_env empty_bot "zzqxnonexistent123" = Return (r, b')
    /\ query_type r = "general_search"
    /\ query_type r <> "not_found".
Proof.
  eexists. eexists. split; [vm_compute; reflexivity|].
  split; [reflexivity|discriminate].
Qed.

(** C4, amended: a query in scope that none of the earlier resolvers answers,
    that carries no routing keyword (so that it goes to general search, as
    the nonsense string does) and whose similarity to every entity is below
    the loose threshold 50 is answered with [query_type = general_search],
    confidence 0.0 and no source entity, and a repeated identical call
    returns the same three values. *)
Theorem C4_not_found_in_general_search :
  forall (E : Env) (b : Chatbot) (db : DB) (q : string),
    conn b = Some db ->
    unanswered E db (entity_cache b) (_clean_input q) ->
    _classify_query (_clean_input q) = "general_search" ->
    fst (_check_batman_scope (_clean_input q)) = true ->
    hits E (_clean_query_for_matching (_clean_input q)) 50
         (all_entities (entity_cache b)) = [] ->
    exists r1 b1 r2 b2,
      process_query E b q = Return (r1, b1)
      /\ process_query E b1 q = Return (r2, b2)
      /\ (query_type r1 = "general_search" /\ confidence r1 = 0.0%Q
          /\ source_entities r1 = [])
      /\ (query_type r2 = "general_search" /\ confidence r2 = 0.0%Q
          /\ source_entities r2 = []).
Proof.
  intros E b db q Hconn Hun Hclass Hscope Hnone.
  assert (Hcall : forall b0,
    conn b0 = Some db -> entity_cache b0 = entity_cache b ->
    process_query E b0 q
    = Return (general_not_found,
              say (say b0 "user" (_clean_input q)) "assistant"
                  (answer general_not_found))).
  { intros b0 Hc0 He0.
    rewrite (@process_query_general E b0 db q Hc0);
      [|rewrite He0; exact Hun|exact Hclass].
    rewrite general_search_nothing; [reflexivity|exact Hscope|].
    simpl entity_cache. rewrite He0. exact Hnone. }
  eexists. eexists. eexists. eexists.
  split; [apply Hcall; auto|].
  split; [apply Hcall; simpl; auto|].
  simpl. auto.
Qed.

(** the nonsense string on the example store, with a scorer that gives it
    similarity 0 to every name *)
Lemma C4_witness :
  exists r1 b1 r2 b2,
    process_query plain_env gotham_bot "zzqxnonexistent123" = Return (r1, b1)
    /\ process_query plain_env b1 "zzqxnonexistent123" = Return (r2, b2)
    /\ (query_type r1 = "general_search" /\ confidence r1 = 0.0%Q
        /\ source_entities r1 = [])
    /\ (query_type r2 = "general_search" /\ confidence r2 = 0.0%Q
        /\ source_entities r2 = []).
Proof.
  apply (@C4_not_found_in_general_search plain_env gotham_bot gotham_store
           "zzqxnonexistent123").
  - reflexivity.
  - vm_compute. repeat split.
  - reflexivity.
  - reflexivity.
  - reflexivity.
Defined.

(** C3, as stated, fails in both halves.  "where is crime" matches the two
    crime locations at similarity 55 and nothing else, yet the location
    handler answers not-found with confidence 0.0 and no suggestions.  "who is
    batman" has exactly one match of similarity 70 or more (Batman, 100; Bane
    scores 60), yet the character handler forces a disambiguation for the
    name and returns both as suggestions. *)
Lemma C3_counterexample :
  (hits crime_env (_clean_query_for_matching "where is crime") 50
        (all_entities (entity_cache gotham_bot))
   = [ mkCacheEntity "l1" "Crime_Alley" "A dark alley." false None;
       mkCacheEntity "l2" "Crime_Lab" "The police laboratory." false None ]
   /\ hits crime_env (_clean_query_for_matching "where is crime") 60
           (all_entities (entity_cache gotham_bot)) = []
   /\ exists r b',
        process_query crime_env gotham_bot "where is crime" = Return (r, b')
        /\ suggestions r = None /\ confidence r = 0.0%Q)
  /\ (hits batman_env (_clean_query_for_matching "who is batman") 70
           (all_entities (entity_cache gotham_bot))
      = [ mkCacheEntity "c1" "Batman" "The Dark Knight of Gotham." false None ]
      /\ exists r b',
           process_query batman_env gotham_bot "who is batman" = Return (r, b')
           /\ suggestions r = Some ["Batman"; "Bane"]).
Proof.
  split.
  - split; [reflexivity|]. split; [reflexivity|].
    eexists. eexists. split; [vm_compute; reflexivity|]. split; reflexivity.
  - split; [reflexivity|].
    eexists. eexists. split; [vm_compute; reflexivity|]. reflexivity.
Qed.

(** C3, amended: for a query in scope that none of the earlier resolvers
    answers and that the classifier routes to general search: if at least two
    entities (of any kinds) have similarity 50 or more and none has similarity
    above 60, the response carries between two and five suggestions and
    confidence exactly 0.5; if exactly one entity has similarity 50 or more
    (one match, whatever its score, and nothing else at the loose threshold),
    a returned response carries no suggestions. *)
Theorem C3_general_search_disambiguation :
  forall (E : Env) (b : Chatbot) (db : DB) (q : string),
    conn b = Some db ->
    unanswered E db (entity_cache b) (_clean_input q) ->
    _classify_query (_clean_input q) = "general_search" ->
    fst (_check_batman_scope (_clean_input q)) = true ->
    let loose :=
      hits E (_clean_query_for_matching (_clean_input q)) 50
           (all_entities (entity_cache b)) in
    let above_gate :=
      hits E (_clean_query_for_matching (_clean_input q)) 61
           (all_entities (entity_cache b)) in
    ((2 <= List.length loose)%nat -> above_gate = [] ->
     exists r b' names,
       process_query E b q = Return (r, b')
       /\ suggestions r = Some names
       /\ (2 <= List.length names <= 5)%nat
       /\ confidence r = 0.5%Q)
    /\ (List.length loose = 1%nat ->
        forall r b', process_query E b q = Return (r, b') ->
                     suggestions r = None).
Proof.
  intros E b db q Hconn Hun Hclass Hscope loose above_gate.
  rewrite (@process_query_general E b db q Hconn Hun Hclass).
  split.
  - intros Htwo Hlow.
    destruct (@general_search_ambiguous E db (say b "user" (_clean_input q))
                (_clean_input q) Hscope Hlow Htwo) as (text & names & Hr & Hn).
    rewrite Hr. simpl. eexists. eexists. exists names.
    split; [reflexivity|]. simpl. auto.
  - intros Hone r b' H.
    destruct (_handle_general_search E db (say b "user" (_clean_input q))
                (_clean_input q)) as [[r0 b0]| |] eqn:Hg; simpl in H;
      try discriminate.
    inversion H; subst.
    eapply general_search_single; [|exact Hg]. exact Hone.
Qed.

(** "crime" with the two loosely matching locations, and "joker" with the
    Joker as the only match *)
Lemma C3_witness :
  (exists r b' names,
      process_query crime_env gotham_bot "crime" = Return (r, b')
      /\ suggestions r = Some names
      /\ (2 <= List.length names <= 5)%nat
      /\ confidence r = 0.5%Q)
  /\ (forall r b', process_query joker_env gotham_bot "joker" = Return (r, b') ->
                   suggestions r = None).
Proof.
  split.
  - apply (proj1 (@C3_general_search_disambiguation crime_env gotham_bot
                    gotham_store "crime" eq_refl
                    ltac:(vm_compute; repeat split) eq_refl eq_refl)).
    + vm_compute. lia.
    + reflexivity.
  - apply (proj2 (@C3_general_search_disambiguation joker_env gotham_bot
                    gotham_store "joker" eq_refl
                    ltac:(vm_compute; repeat split) eq_refl eq_refl)).
    reflexivity.
Defined.

(* ================================================================== *)
(** ** Confidence gates (C7) *)
(* ================================================================== *)

Lemma row_found (r : Row) (l : list Row) :
  In r l -> exists r', find (fun x => row_id x =? row_id r) l = Some r'.
Proof.
  intros H. destruct (find _ l) as [r'|] eqn:Hf; eauto.
  apply (find_none _ _ Hf) in H. rewrite String.eqb_refl in H. discriminate.
Qed.

Section Gates.

Variable E : Env.
Variable db : DB.

Let cache := _build_entity_cache db.

Lemma vehicle_entity_row (e : CacheEntity) :
  In e (cache_vehicles cache) ->
  exists r', _get_entity_by_id db (ce_id e) "vehicles" = Some r'.
Proof.
  simpl. intros H. apply in_map_iff in H. destruct H as (r & <- & Hr).
  apply row_found in Hr. exact Hr.
Qed.

Lemma best_vehicle_row (q : string) (thr : Z) (m : EntityMatch) :
  find_best_entity_match E cache q (Some "vehicles") thr = Some m ->
  exists r', _get_entity_by_id db (em_entity_id m) "vehicles" = Some r'.
Proof.
  intros H. apply find_best_entity in H.
  destruct H as (t & ents & e & [<-|[]] & Hg & He & _ & ->).
  inversion Hg; subst. apply vehicle_entity_row, He.
Qed.

Lemma vehicle_match_row (q : string) (m : EntityMatch) :
  vehicle_match E cache q = Some m ->
  exists r', _get_entity_by_id db (em_entity_id m) "vehicles" = Some r'.
Proof.
  unfold vehicle_match, find_best_vehicle_match, _find_character_vehicle.
  intros H.
  destruct (Py.any_in _ _); [|eapply best_vehicle_row; eauto].
  destruct (negb _); [|eapply best_vehicle_row; eauto].
  destruct (Py.max_by _ _) as [[v s]|] eqn:Hmax; [|discriminate].
  apply max_by_In, filter_In in Hmax. destruct Hmax as [Hin _].
  apply in_map_iff in Hin. destruct Hin as (v' & Heq & Hv').
  apply filter_In in Hv'. destruct Hv' as [Hv' _].
  inversion Heq; subst. inversion H; subst. simpl.
  apply vehicle_entity_row, Hv'.
Qed.

Lemma best_location_row (q : string) (thr : Z) (m : EntityMatch) :
  find_best_entity_match E cache q (Some "locations") thr = Some m ->
  exists r', _get_entity_by_id db (em_entity_id m) "locations" = Some r'.
Proof.
  intros H. apply find_best_entity in H.
  destruct H as (t & ents & e & [<-|[]] & Hg & He & _ & ->).
  inversion Hg; subst. simpl in He.
  apply in_map_iff in He. destruct He as (r & <- & Hr).
  apply row_found in Hr. exact Hr.
Qed.

Lemma best_character_row (q : string) (thr : Z) (m : EntityMatch) :
  find_best_entity_match E cache q (Some "characters") thr = Some m ->
  exists r', _get_entity_by_id db (em_entity_id m) "characters" = Some r'.
Proof.
  intros H. apply find_best_entity in H.
  destruct H as (t & ents & e & [<-|[]] & Hg & He & _ & ->).
  inversion Hg; subst.
  apply cache_character_row in He. destruct He as (c & Hc & Hid & _).
  simpl. rewrite Hid. apply row_found in Hc. exact Hc.
Qed.

Lemma vehicle_gate (b : Chatbot) (q : string) (m : EntityMatch) :
  entity_cache b = cache ->
  fst (_check_batman_scope q) = true ->
  vehicle_match E (entity_cache b) q = Some m ->
  accepts (fst (_handle_vehicle_query E db b q)) "vehicle_lookup" m
  <-> (confidence_threshold m < em_confidence m)%Q.
Proof.
  intros Hcache Hscope Hm.
  unfold _handle_vehicle_query, respond, not_found_response, accepts.
  rewrite Hscope, Hm. simpl negb. cbv iota.
  rewrite Hcache in Hm. destruct (vehicle_match_row _ Hm) as (r' & Hr').
  destruct (Qlt_le_dec (confidence_threshold m) (em_confidence m)) as [Hlt|Hle].
  - rewrite Hr'. simpl. tauto.
  - simpl. split.
    + intros (_ & Hsrc & _). discriminate.
    + intros Hlt. exfalso. eapply Qlt_not_le; eauto.
Qed.

Lemma location_gate (b : Chatbot) (q : string) (m : EntityMatch) :
  entity_cache b = cache ->
  find_best_entity_match E (entity_cache b) q (Some "locations") 70 = Some m ->
  accepts (fst (_handle_location_query E db b q)) "location_lookup" m
  <-> (0.6 < em_confidence m)%Q.
Proof.
  intros Hcache Hm.
  unfold _handle_location_query, respond, not_found_response, accepts.
  rewrite Hm. rewrite Hcache in Hm.
  destruct (best_location_row _ _ Hm) as (r' & Hr').
  destruct (Qlt_le_dec 0.6 (em_confidence m)) as [Hlt|Hle].
  - rewrite Hr'. simpl. tauto.
  - simpl. split.
    + intros (_ & Hsrc & _). discriminate.
    + intros Hlt. exfalso. eapply Qlt_not_le; eauto.
Qed.

Lemma character_gate (b : Chatbot) (q : string) (m : EntityMatch) :
  entity_cache b = cache ->
  find_best_entity_match E (entity_cache b) q (Some "characters") 70 = Some m ->
  accepts (fst (character_lookup E db b q)) "character_lookup" m
  <-> (0.6 < em_confidence m)%Q.
Proof.
  intros Hcache Hm.
  unfold character_lookup, character_not_found, suggest, respond, accepts.
  rewrite Hm. rewrite Hcache in Hm.
  destruct (best_character_row _ _ Hm) as (r' & Hr').
  destruct (Qlt_le_dec 0.6 (em_confidence m)) as [Hlt|Hle].
  - rewrite Hr'. simpl. tauto.
  - split.
    + intros (_ & Hsrc & _). exfalso. revert Hsrc.
      destruct (handle_ambiguous_query E (entity_cache b) q); simpl;
        try discriminate.
      destruct (filter is_character matches); simpl; discriminate.
    + intros Hlt. exfalso. eapply Qlt_not_le; eauto.
Qed.

End Gates.

(** C7: with the cache a snapshot of the store, the vehicle handler accepts
    the match of an in-scope query as its definitive answer (tag
    [vehicle_lookup], the match as only source, its confidence) exactly when
    the confidence exceeds 0.4 for a [character_vehicle] match and exactly
    when it exceeds 0.6 for any other vehicle match; the location handler and
    the character lookup accept their match exactly when its confidence
    exceeds 0.6. *)
Theorem C7_confidence_gates :
  forall (E : Env) (db : DB) (b : Chatbot) (q : string),
    entity_cache b = _build_entity_cache db ->
    (forall m,
        fst (_check_batman_scope q) = true ->
        vehicle_match E (entity_cache b) q = Some m ->
        let r := fst (_handle_vehicle_query E db b q) in
        (em_match_type m = "character_vehicle" ->
         (accepts r "vehicle_lookup" m <-> (0.4 < em_confidence m)%Q))
        /\ (em_match_type m <> "character_vehicle" ->
            (accepts r "vehicle_lookup" m <-> (0.6 < em_confidence m)%Q)))
    /\ (forall m,
           find_best_entity_match E (entity_cache b) q (Some "locations") 70
           = Some m ->
           (accepts (fst (_handle_location_query E db b q)) "location_lookup" m
            <-> (0.6 < em_confidence m)%Q))
    /\ (forall m,
           find_best_entity_match E (entity_cache b) q (Some "characters") 70
           = Some m ->
           (accepts (fst (character_lookup E db b q)) "character_lookup" m
            <-> (0.6 < em_confidence m)%Q)).
Proof.
  intros E db b q Hcache. split; [|split].
  - intros m Hscope Hm r. subst r.
    pose proof (@vehicle_gate E db b q m Hcache Hscope Hm) as Hgate.
    unfold confidence_threshold in Hgate. split.
    + intros Htype. rewrite Htype in Hgate. exact Hgate.
    + intros Htype.
      destruct (em_match_type m =? "character_vehicle") eqn:Heq;
        [apply String.eqb_eq in Heq; contradiction|exact Hgate].
  - intros m Hm. apply location_gate; assumption.
  - intros m Hm. apply character_gate; assumption.
Qed.

(** "what does joker drive" with the balloon as the Joker's only vehicle: the
    character-specific match has confidence 0.56 and is accepted *)
Lemma C7_witness :
  accepts (fst (_handle_vehicle_query balloon_env balloon_store balloon_bot
                                      "what does joker drive"))
          "vehicle_lookup"
          (mkEntityMatch "v9" "vehicles" "Joker_Balloon"
                         (Qmin (inject_Z 56 / 100) 1) "character_vehicle").
Proof.
  refine (proj2 (proj1 (proj1 (@C7_confidence_gates balloon_env balloon_store
                                 balloon_bot "what does joker drive" eq_refl)
                          (mkEntityMatch "v9" "vehicles" "Joker_Balloon"
                             (Qmin (inject_Z 56 / 100) 1) "character_vehicle")
                          eq_refl _) eq_refl) _).
  - vm_compute. reflexivity.
  - vm_compute. reflexivity.
Defined.

(* ================================================================== *)
(** ** The comparison engine *)
(* ================================================================== *)

Lemma prefix_empty (s : string) : String.prefix "" s = true.
Proof. destruct s; reflexivity. Qed.

(** [s.replace(c, '')] for a single character [c] drops every [c] *)
Lemma replace_char_filter (c : ascii) (s : string) :
  Py.replace (String c EmptyString) "" s
  = Py.filter_chars (fun d => negb (Ascii.eqb c d)) s.
Proof.
  unfold Py.replace.
  induction s as [|d r IH]; [reflexivity|].
  cbn [Py.replace_aux Py.filter_chars String.prefix String.length Nat.sub].
  destruct (ascii_dec c d) as [->|Hne].
  - rewrite prefix_empty, Ascii.eqb_refl. simpl. exact IH.
  - apply Ascii.eqb_neq in Hne. rewrite Hne. simpl. now rewrite IH.
Qed.

Lemma filter_chars_count (p : ascii -> bool) (c : ascii) (s : string) :
  (Py.count_char c (Py.filter_chars p s)
   = if p c then Py.count_char c s else O)%nat.
Proof.
  induction s as [|d r IH]; simpl; [now destruct (p c)|].
  destruct (p d) eqn:Hd; simpl; rewrite IH.
  - destruct (Ascii.eqb c d) eqn:Hcd; [|now destruct (p c)].
    apply Ascii.eqb_eq in Hcd. subst d. now rewrite Hd.
  - destruct (Ascii.eqb c d) eqn:Hcd; [|now destruct (p c)].
    apply Ascii.eqb_eq in Hcd. subst d. now rewrite Hd.
Qed.

Lemma lower_char_not_upper (c : ascii) : Py.is_upper (Py.lower_char c) = false.
Proof.
  unfold Py.lower_char. destruct (Py.is_upper c) eqn:Hu; [|exact Hu].
  unfold Py.is_upper in *.
  apply andb_true_iff in Hu. destruct Hu as [H1 H2].
  apply Nat.leb_le in H1, H2.
  rewrite nat_ascii_embedding by lia.
  apply andb_false_iff. right. apply Nat.leb_gt. lia.
Qed.

Lemma get_In {A} (d : list (string * A)) (k : string) (v : A) :
  Py.get d k = Some v -> In (k, v) d.
Proof.
  induction d as [|[k' v'] r IH]; simpl; [discriminate|].
  destruct (String.eqb k k') eqn:Hk.
  - apply String.eqb_eq in Hk. subst k'. intros [= ->]. now left.
  - intros H. right. auto.
Qed.

Lemma get_None {A} (d : list (string * A)) (k : string) :
  Py.get d k = None -> forall v, ~ In (k, v) d.
Proof.
  induction d as [|[k' v'] r IH]; simpl; [tauto|].
  destruct (String.eqb k k') eqn:Hk; [discriminate|].
  intros H v [[= <- <-]|Hin]; [now rewrite String.eqb_refl in Hk|].
  exact (IH H v Hin).
Qed.

(** X1: the key [_normalize_vehicle_name] computes never contains a hyphen,
    an underscore or a space, so the predefined specification stored under
    ['bat-sub'] is never selected. *)
Theorem normalized_vehicle_name_has_no_separator :
  forall n : string,
    let key := _normalize_vehicle_name n in
    Py.count_char "-" key = O /\ Py.count_char "_" key = O
    /\ Py.count_char " " key = O
    /\ key <> "bat-sub"
    /\ Py.get vehicle_specs key <> Some (mkSpecs "60 mph" 8 7 0 "fallback").
Proof.
  intros n key.
  assert (Hsep : Py.count_char "-" key = O /\ Py.count_char "_" key = O
                 /\ Py.count_char " " key = O).
  { subst key. unfold _normalize_vehicle_name.
    destruct (Py.get vehicle_aliases _) as [a|] eqn:Ha.
    - apply get_In in Ha. simpl in Ha.
      repeat (destruct Ha as [[= _ <-]|Ha]; [repeat split; reflexivity|]).
      destruct Ha.
    - rewrite !replace_char_filter, !filter_chars_count. simpl.
      repeat split; reflexivity. }
  destruct Hsep as (Hh & Hu & Hs). repeat split; try assumption.
  - intros Heq. rewrite Heq in Hh. discriminate.
  - intros Hget. apply get_In in Hget. simpl in Hget.
    repeat (destruct Hget as [Heq|Hget];
            [try discriminate Heq;
             apply (f_equal fst) in Heq; simpl in Heq;
             rewrite <- Heq in Hh; discriminate Hh|]).
    destruct Hget.
Qed.

(** X2: a character comparison does not depend on the order of the two
    names: the same winner and the same confidence come out either way; the
    winner is one of the two names or nobody, with confidence 0.8 and 0.6. *)
Theorem character_comparison_order_independent :
  forall (a b t : string) (v : Verdict),
    enhanced_character_comparison a b t = Return v ->
    exists v',
      enhanced_character_comparison b a t = Return v'
      /\ winner v' = winner v
      /\ verdict_confidence v' = verdict_confidence v
      /\ ((winner v = Some a /\ verdict_confidence v = 0.8%Q)
          \/ (winner v = Some b /\ verdict_confidence v = 0.8%Q)
          \/ (winner v = None /\ verdict_confidence v = 0.6%Q)).
Proof.
  intros a b t v. unfold enhanced_character_comparison.
  destruct (Py.get ece_logic t) as [logic|]; [|discriminate].
  set (rankings := match Py.get character_rankings _ with
                   | Some r => r | None => [] end).
  set (s1 := _get_character_score (_normalize_character_name a) rankings a).
  set (s2 := _get_character_score (_normalize_character_name b) rankings b).
  intros [= <-].
  destruct (s1 >? s2) eqn:H12; destruct (s2 >? s1) eqn:H21;
    eexists; (split; [reflexivity|]); simpl; try tauto.
  rewrite Z.gtb_lt in H12, H21. lia.
Qed.

Lemma character_comparison_order_independent_witness :
  exists v',
    enhanced_character_comparison "Bane" "Batman" "strength" = Return v'
    /\ winner v' = Some "Bane".
Proof.
  destruct (@character_comparison_order_independent "Batman" "Bane" "strength"
              (mkVerdict (Some "Bane")
                 "Based on their abilities and background, Bane surpasses Batman in strength. Bane's venom-enhanced strength gives him a significant physical advantage. Batman relies more on skill and technology than raw physical strength."
                 0.8%Q) eq_refl) as (v' & H & Hw & _).
  exists v'. split; [exact H|exact Hw].
Defined.

(** X3: the comparison types [combat], [armor] and [weapons] name no table of
    [character_rankings] (the combat table is stored under [combat_skill]),
    so for them both scores are the category estimates of
    [_estimate_character_score]. *)
Theorem combat_comparison_uses_estimates_only :
  forall a b t : string,
    In t ["combat"; "armor"; "weapons"] ->
    exists v,
      enhanced_character_comparison a b t = Return v
      /\ winner v
         = (if _estimate_character_score a >? _estimate_character_score b
            then Some a
            else if _estimate_character_score b >? _estimate_character_score a
                 then Some b else None).
Proof.
  intros a b t Ht. simpl in Ht.
  destruct Ht as [<-|[<-|[<-|[]]]];
    unfold enhanced_character_comparison; simpl;
    unfold _get_character_score; simpl;
    eexists; (split; [reflexivity|]);
    destruct (_estimate_character_score a >? _estimate_character_score b);
    [reflexivity| |reflexivity| |reflexivity| ];
    destruct (_estimate_character_score b >? _estimate_character_score a);
    reflexivity.
Qed.

(** Batman and Robin, ranked 10 and 7 in the combat table, come out evenly
    matched *)
Lemma combat_comparison_uses_estimates_only_witness :
  exists v,
    enhanced_character_comparison "Batman" "Robin" "combat" = Return v
    /\ winner v = None.
Proof.
  destruct (@combat_comparison_uses_estimates_only "Batman" "Robin" "combat"
              (or_introl eq_refl)) as (v & H & Hw).
  exists v. split; [exact H|exact Hw].
Defined.

Lemma speed_verdict_symmetric (n1 n2 : string) (s1 s2 : Specs) :
  winner (_compare_vehicle_speed n2 n1 s2 s1)
  = winner (_compare_vehicle_speed n1 n2 s1 s2)
  /\ verdict_confidence (_compare_vehicle_speed n2 n1 s2 s1)
     = verdict_confidence (_compare_vehicle_speed n1 n2 s1 s2).
Proof.
  unfold _compare_vehicle_speed.
  destruct (Qlt_le_dec (_extract_speed_number (max_speed s2))
                       (_extract_speed_number (max_speed s1))) as [H|H];
    destruct (Qlt_le_dec (_extract_speed_number (max_speed s1))
                         (_extract_speed_number (max_speed s2))) as [H'|H'];
    simpl; try (split; reflexivity).
  exfalso. apply (Qlt_irrefl (_extract_speed_number (max_speed s1))).
  eapply Qlt_trans; eassumption.
Qed.

Lemma overall_verdict_symmetric (n1 n2 : string) (s1 s2 : Specs) :
  winner (_compare_vehicle_overall n2 n1 s2 s1)
  = winner (_compare_vehicle_overall n1 n2 s1 s2)
  /\ verdict_confidence (_compare_vehicle_overall n2 n1 s2 s1)
     = verdict_confidence (_compare_vehicle_overall n1 n2 s1 s2).
Proof.
  unfold _compare_vehicle_overall.
  match goal with
  | |- context [Qlt_le_dec ?x ?y] =>
      destruct (Qlt_le_dec x y) as [H|H];
        destruct (Qlt_le_dec y x) as [H'|H'];
        simpl; try (split; reflexivity);
        exfalso; apply (Qlt_irrefl x); eapply Qlt_trans; eassumption
  end.
Qed.

(** X4: a vehicle comparison of any type does not depend on the order of
    the two vehicles: the same winner (one of the two names, or nobody) and
    the same confidence come out either way. *)
Theorem vehicle_comparison_order_independent :
  forall (E : Env) (db : DB) (a b t : string),
    let v := enhanced_vehicle_comparison E db a b t in
    let v' := enhanced_vehicle_comparison E db b a t in
    winner v' = winner v
    /\ verdict_confidence v' = verdict_confidence v
    /\ (winner v = Some a \/ winner v = Some b \/ winner v = None).
Proof.
  intros E db a b t. cbv zeta. unfold enhanced_vehicle_comparison.
  set (s1 := _get_vehicle_specs db a (_normalize_vehicle_name a)).
  set (s2 := _get_vehicle_specs db b (_normalize_vehicle_name b)).
  destruct (t =? "speed").
  { destruct (speed_verdict_symmetric a b s1 s2) as [Hw Hc].
    split; [exact Hw|]. split; [exact Hc|].
    unfold _compare_vehicle_speed.
    repeat match goal with
           | |- context [Qlt_le_dec ?x ?y] => destruct (Qlt_le_dec x y)
           end; simpl; auto. }
  destruct (t =? "armor").
  { unfold _compare_vehicle_armor.
    destruct (armor_rating s1 + defense_count s1
              >? armor_rating s2 + defense_count s2) eqn:H12;
      destruct (armor_rating s2 + defense_count s2
                >? armor_rating s1 + defense_count s1) eqn:H21;
      simpl; auto.
    rewrite Z.gtb_lt in H12, H21. lia. }
  destruct (t =? "weapons").
  { unfold _compare_vehicle_weapons.
    destruct (weapons_count s1 >? weapons_count s2) eqn:H12;
      destruct (weapons_count s2 >? weapons_count s1) eqn:H21;
      simpl; auto.
    rewrite Z.gtb_lt in H12, H21. lia. }
  destruct (overall_verdict_symmetric a b s1 s2) as [Hw Hc].
  split; [exact Hw|]. split; [exact Hc|].
  unfold _compare_vehicle_overall.
  repeat match goal with
         | |- context [Qlt_le_dec ?x ?y] => destruct (Qlt_le_dec x y)
         end; simpl; auto.
Qed.

(** X5: the conversation intelligence knows the comparison type [size], the
    comparison engine does not: a size comparison of two characters raises
    [KeyError], and nothing on the way out of [process_query] catches it. *)
Theorem size_comparison_of_characters_raises :
  forall (E : Env) (b : Chatbot) (db : DB) (q n1 n2 : string)
         (m1 m2 : EntityMatch) (c1 c2 : Row),
    conn b = Some db ->
    process_relationship_query E db (_clean_input q) = None ->
    search_multi_entity E db (_clean_input q) = None ->
    search_by_relationship E db (_clean_input q) = None ->
    _parse_comparison_query E (_clean_input q) = Some ("size", n1, n2) ->
    find_best_entity_match E (entity_cache b) n1 None 70 = Some m1 ->
    find_best_entity_match E (entity_cache b) n2 None 70 = Some m2 ->
    em_entity_type m1 = "characters" ->
    em_entity_type m2 = "characters" ->
    _get_entity_by_id db (em_entity_id m1) "characters" = Some c1 ->
    _get_entity_by_id db (em_entity_id m2) "characters" = Some c2 ->
    handle_comparative_query E db (entity_cache b) (_clean_input q)
    = Raise "KeyError"
    /\ process_query E b q = Raise "KeyError".
Proof.
  intros E b db q n1 n2 m1 m2 c1 c2 Hconn Hrp Hme Hsr Hparse H1 H2 Ht1 Ht2 Hc1 Hc2.
  assert (Hcmp : handle_comparative_query E db (entity_cache b) (_clean_input q)
                 = Raise "KeyError").
  { unfold handle_comparative_query. rewrite Hparse, H1, H2, Ht1, Ht2, Hc1, Hc2.
    reflexivity. }
  split; [exact Hcmp|].
  unfold process_query. simpl. unfold process_query_body.
  rewrite Hconn, Hrp, Hme, Hsr. simpl. rewrite Hcmp. reflexivity.
Qed.

Lemma size_comparison_of_characters_raises_witness :
  process_query against_env gotham_bot "Size: Bane against Batman"
  = Raise "KeyError".
Proof.
  refine (proj2 (@size_comparison_of_characters_raises against_env gotham_bot
                   gotham_store "Size: Bane against Batman" "size: bane" "batman"
                   (mkEntityMatch "c3" "characters" "Bane" (inject_Z 90 / 100) "fuzzy")
                   (mkEntityMatch "c1" "characters" "Batman" (inject_Z 100 / 100) "fuzzy")
                   (mkRow "c3" "Bane" "The man who broke the Bat.")
                   (mkRow "c1" "Batman" "The Dark Knight of Gotham.")
                   _ _ _ _ _ _ _ _ _ _ _)); vm_compute; reflexivity.
Defined.

(** X6: [_enhanced_compare_entities] hands two characters and two vehicles
    to the comparison engine, so its fallback only ever sees a mixed pair,
    for which every specific branch is closed: a comparison of entities of
    different kinds has no winner, confidence 0.5 and the explanation that
    it is not supported. *)
Theorem mixed_comparison_is_unsupported :
  forall (E : Env) (db : DB) (e1 e2 : Row) (t1 t2 ct : string),
    In ct (map fst ci_comparison_keywords) ->
    ~ (t1 = "characters" /\ t2 = "characters") ->
    ~ (t1 = "vehicles" /\ t2 = "vehicles") ->
    _enhanced_compare_entities E db e1 e2 t1 t2 ct
    = Return (mkComparisonResult e1 e2 ct None
                ("Comparison of " ++ ct ++ " between " ++ row_name e1
                   ++ " and " ++ row_name e2 ++ " is not currently supported.")
                0.5%Q).
Proof.
  intros E db e1 e2 t1 t2 ct _ Hc Hv.
  assert (Hcb : (t1 =? "characters") && (t2 =? "characters") = false).
  { apply andb_false_iff.
    destruct (t1 =? "characters") eqn:H1; [|now left].
    destruct (t2 =? "characters") eqn:H2; [|now right].
    apply String.eqb_eq in H1, H2. tauto. }
  assert (Hvb : (t1 =? "vehicles") && (t2 =? "vehicles") = false).
  { apply andb_false_iff.
    destruct (t1 =? "vehicles") eqn:H1; [|now left].
    destruct (t2 =? "vehicles") eqn:H2; [|now right].
    apply String.eqb_eq in H1, H2. tauto. }
  unfold _enhanced_compare_entities. rewrite Hcb, Hvb.
  unfold _compare_entities_fallback. rewrite Hcb, Hvb.
  rewrite !andb_false_r. reflexivity.
Qed.

Lemma mixed_comparison_is_unsupported_witness :
  _enhanced_compare_entities plain_env gotham_store
    (mkRow "c1" "Batman" "The Dark Knight of Gotham.")
    (mkRow "v1" "Batmobile" "Batman's car.") "characters" "vehicles" "speed"
  = Return (mkComparisonResult
              (mkRow "c1" "Batman" "The Dark Knight of Gotham.")
              (mkRow "v1" "Batmobile" "Batman's car.") "speed" None
              "Comparison of speed between Batman and Batmobile is not currently supported."
              0.5%Q).
Proof.
  apply (@mixed_comparison_is_unsupported plain_env gotham_store
           (mkRow "c1" "Batman" "The Dark Knight of Gotham.")
           (mkRow "v1" "Batmobile" "Batman's car.")
           "characters" "vehicles" "speed").
  - simpl. tauto.
  - intros [_ H]. discriminate H.
  - intros [H _]. discriminate H.
Defined.

(** *** Reading a speed *)

Lemma digit_val_nonneg (c : ascii) : Py.is_digit c = true -> 0 <= Py.digit_val c.
Proof.
  unfold Py.is_digit, Py.digit_val. intros H.
  apply andb_true_iff in H. destruct H as [H _]. apply Nat.leb_le in H. lia.
Qed.

Lemma read_int_nonneg (s : string) :
  forall acc, 0 <= acc -> 0 <= fst (Py.read_int acc s).
Proof.
  induction s as [|c r IH]; intros acc Hacc; cbn [Py.read_int fst];
    [exact Hacc|].
  destruct (Py.is_digit c) eqn:Hd; [|exact Hacc].
  apply IH. pose proof (digit_val_nonneg _ Hd). lia.
Qed.

Lemma read_frac_nonneg (s : string) :
  forall num den, 0 <= num -> 0 <= fst (Py.read_frac num den s).
Proof.
  induction s as [|c r IH]; intros num den Hnum; cbn [Py.read_frac fst];
    [exact Hnum|].
  destruct (Py.is_digit c) eqn:Hd; [|exact Hnum].
  apply IH. pose proof (digit_val_nonneg _ Hd). lia.
Qed.

Lemma first_number_nonneg (s : string) (q : Q) :
  Py.first_number s = Some q -> (0 <= q)%Q.
Proof.
  induction s as [|c r IH]; [discriminate|].
  cbn [Py.first_number]. destruct (Py.is_digit c) eqn:Hd; [|exact IH].
  pose proof (@read_int_nonneg (String c r) 0 (Z.le_refl 0)) as Hn.
  destruct (Py.read_int 0 (String c r)) as [n rest]. simpl in Hn.
  assert (Hz : (0 <= inject_Z n)%Q).
  { unfold Qle. simpl. lia. }
  destruct rest as [|d rest1]; [intros [= <-]; exact Hz|].
  destruct (ascii_dec d ".") as [->|Hdot].
  - destruct rest1 as [|d' rest']; [intros [= <-]; exact Hz|].
    destruct (Py.is_digit d'); [|intros [= <-]; exact Hz].
    pose proof (@read_frac_nonneg (String d' rest') n 1 Hn) as Hf.
    destruct (Py.read_frac n 1 (String d' rest')) as [num den]. simpl in Hf.
    intros [= <-]. unfold Qle. simpl. lia.
  - destruct d as [[] [] [] [] [] [] [] []];
      try (intros [= <-]; exact Hz).
    exfalso. apply Hdot. reflexivity.
Qed.

(** the numeral of [n] is read back as [n] *)
Lemma read_int_numeral (d : Decimal.uint) :
  forall (acc : nat) (c : ascii) (rest : string),
    Py.is_digit c = false ->
    Py.read_int (Z.of_nat acc)
      (DecimalString.NilEmpty.string_of_uint d ++ String c rest)
    = (Z.of_nat (Nat.of_uint_acc d acc), String c rest).
Proof.
  induction d; intros acc c rest Hc;
    cbn [DecimalString.NilEmpty.string_of_uint String.append Py.read_int
         Nat.of_uint_acc];
    [rewrite Hc; reflexivity| ..];
    change (Py.is_digit _) with true; cbv iota;
    match goal with
    | |- Py.read_int ?z _ = _ =>
        match goal with
        | |- _ = (Z.of_nat (Nat.of_uint_acc _ ?k), _) =>
            replace z with (Z.of_nat k);
              [apply IHd; exact Hc
              |rewrite Nat.tail_mul_spec; unfold Py.digit_val; match goal with |- context [nat_of_ascii ?a] => let v := eval vm_compute in (Z.of_nat (nat_of_ascii a)) in change (Z.of_nat (nat_of_ascii a)) with v end; lia]
        end
    end.
Qed.

Lemma to_uint_nonnil (n : nat) : Nat.to_uint n <> Decimal.Nil.
Proof.
  rewrite <- (DecimalNat.Unsigned.of_to n) at 1.
  rewrite DecimalNat.Unsigned.to_of. apply DecimalFacts.unorm_nonnil.
Qed.

Lemma numeral_starts_with_digit (d : Decimal.uint) :
  d <> Decimal.Nil ->
  exists c r, DecimalString.NilEmpty.string_of_uint d = String c r
              /\ Py.is_digit c = true.
Proof.
  destruct d; [congruence|..]; intros _; simpl; eexists; eexists;
    (split; [reflexivity|reflexivity]).
Qed.

(** X7: [_extract_speed_number] never yields a negative speed, and it reads
    a speed written as a decimal numeral followed by a blank and a unit back
    as that number (below 2^53, where a float holds every integer exactly):
    printing and reading a whole speed is a round trip. *)
Theorem extract_speed_number_reads_numerals :
  (forall s : string, (0 <= _extract_speed_number s)%Q)
  /\ (forall (n : nat) (unit : string),
         Z.of_nat n < 2 ^ 53 ->
         _extract_speed_number (decimal n ++ " " ++ unit)
         = inject_Z (Z.of_nat n)).
Proof.
  split.
  - intros s. unfold _extract_speed_number.
    destruct ((s =? "") || (s =? "Unknown")); [apply Qle_refl|].
    destruct (Py.first_number s) as [q|] eqn:Hq; [|apply Qle_refl].
    exact (first_number_nonneg _ Hq).
  - intros n unit _. unfold _extract_speed_number, decimal.
    destruct (numeral_starts_with_digit (to_uint_nonnil n)) as (c & r & Hs & Hc).
    pose proof (@read_int_numeral (Nat.to_uint n) O " " unit eq_refl) as Hread.
    change (Nat.of_uint_acc (Nat.to_uint n) 0) with (Nat.of_uint (Nat.to_uint n))
      in Hread.
    rewrite DecimalNat.Unsigned.of_to in Hread.
    change (" " ++ unit) with (String " " unit).
    rewrite Hs in *. cbn [String.append] in *.
    assert (Hne : (String c (r ++ String " " unit) =? "")
                  || (String c (r ++ String " " unit) =? "Unknown") = false).
    { apply orb_false_iff. split; [reflexivity|].
      apply String.eqb_neq. intros [= -> _]. discriminate Hc. }
    rewrite Hne. cbn [Py.first_number]. rewrite Hc.
    change (Z.of_nat 0) with 0 in Hread. rewrite Hread. reflexivity.
Qed.

Lemma extract_speed_number_reads_numerals_witness :
  _extract_speed_number "200 mph" = inject_Z 200.
Proof.
  apply (proj2 extract_speed_number_reads_numerals 200%nat "mph").
  vm_compute. reflexivity.
Defined.

(* ================================================================== *)
(** ** The matchers *)
(* ================================================================== *)

Lemma importance_bonus_nonneg (n t : string) :
  (0 <= _calculate_importance_bonus n t)%Q.
Proof.
  unfold _calculate_importance_bonus.
  repeat match goal with
         | |- context [if ?b then _ else _] => destruct b
         end; unfold Qle; simpl; lia.
Qed.

Section ThresholdFacts.

Variable E : Env.

Lemma candidate_of_mono (t : string) (ents : list CacheEntity) (thr thr' : Z)
      (m : string * Z) (c : Candidate) :
  thr <= thr' ->
  In c (candidate_of t ents thr' m) -> In c (candidate_of t ents thr m).
Proof.
  intros Hle. unfold candidate_of. destruct m as [n s].
  destruct (s >=? Z.max thr' 50) eqn:H'; [|intros []].
  rewrite Z.geb_leb, Z.leb_le in H'.
  assert (H : (s >=? Z.max thr 50) = true)
    by (rewrite Z.geb_leb, Z.leb_le; lia).
  rewrite H. auto.
Qed.

Lemma all_candidates_mono (cache : Cache) (cq : string) (etype : option string)
      (thr thr' : Z) (c : Candidate) :
  thr <= thr' ->
  In c (all_candidates E cache cq etype thr') ->
  In c (all_candidates E cache cq etype thr).
Proof.
  intros Hle. unfold all_candidates. rewrite !in_flat_map.
  intros (t & Ht & Hc). exists t. split; [exact Ht|].
  destruct (cache_get cache t) as [ents|]; [|exact Hc].
  unfold candidates in *. rewrite in_flat_map in *.
  destruct Hc as (m & Hm & Hc). exists m. split; [exact Hm|].
  eapply candidate_of_mono; eassumption.
Qed.

Lemma candidate_score_positive (cache : Cache) (cq : string)
      (etype : option string) (thr : Z) (c : Candidate) :
  In c (all_candidates E cache cq etype thr) -> (0 < final_score c)%Q.
Proof.
  intros H. apply all_candidates_spec in H.
  destruct H as (t & ents & e & _ & _ & _ & Hs & ->).
  unfold candidate_for. simpl.
  pose proof (importance_bonus_nonneg (ce_name e) t) as Hb.
  assert (H50 : (50 <= inject_Z (wratio E cq (ce_name e)))%Q).
  { change 50%Q with (inject_Z 50). rewrite <- Zle_Qle. lia. }
  assert (H0 : (0 <= _calculate_importance_bonus (ce_name e) t * 100)%Q).
  { apply Qmult_le_0_compat; [exact Hb|]. unfold Qle. simpl. lia. }
  lra.
Qed.

Lemma find_best_some (cache : Cache) (q : string) (etype : option string)
      (thr : Z) (c : Candidate) :
  In c (all_candidates E cache (_clean_query_for_matching q) etype thr) ->
  exists m, find_best_entity_match E cache q etype thr = Some m.
Proof.
  intros Hc. unfold find_best_entity_match.
  destruct (fold_better_spec
              (all_candidates E cache (_clean_query_for_matching q) etype thr)
              None 0%Q) as (_ & H2 & H3).
  destruct H3 as [H3|(c' & _ & Hf & _)].
  - exfalso. specialize (H2 c Hc). rewrite H3 in H2. simpl in H2.
    pose proof (candidate_score_positive _ _ _ _ _ Hc). lra.
  - rewrite Hf. eauto.
Qed.

End ThresholdFacts.

(** X8: the threshold of [find_best_entity_match] has a floor of 50: any
    threshold up to 50 gives the result of 50, and a match never has a
    confidence below 0.5 or below the threshold over 100.  Lowering the
    threshold never loses a match: a query matched at a threshold is matched
    at every lower one. *)
Theorem find_best_entity_match_threshold :
  forall (E : Env) (cache : Cache) (q : string) (etype : option string),
    (forall thr, thr <= 50 ->
        find_best_entity_match E cache q etype thr
        = find_best_entity_match E cache q etype 50)
    /\ (forall thr m,
           find_best_entity_match E cache q etype thr = Some m ->
           (0.5 <= em_confidence m)%Q
           /\ (inject_Z thr / 100 <= em_confidence m)%Q)
    /\ (forall thr thr' m',
           thr <= thr' ->
           find_best_entity_match E cache q etype thr' = Some m' ->
           exists m, find_best_entity_match E cache q etype thr = Some m).
Proof.
  intros E cache q etype. split; [|split].
  - intros thr Hthr.
    unfold find_best_entity_match, all_candidates, candidates, candidate_of.
    replace (Z.max thr 50) with (Z.max 50 50) by lia. reflexivity.
  - intros thr m H. apply find_best_entity in H.
    destruct H as (t & ents & e & _ & _ & _ & Hs & ->).
    unfold match_of_entity. simpl.
    set (s := wratio E (_clean_query_for_matching q) (ce_name e)) in *.
    assert (H50 : (inject_Z 50 <= inject_Z s)%Q) by (rewrite <- Zle_Qle; lia).
    assert (Ht : (inject_Z thr <= inject_Z s)%Q) by (rewrite <- Zle_Qle; lia).
    change (inject_Z 50) with 50%Q in H50.
    split.
    + apply Qle_shift_div_l; [reflexivity|].
      eapply Qle_trans; [|exact H50]. unfold Qle. simpl. lia.
    + apply Qmult_le_compat_r; [exact Ht|]. unfold Qle. simpl. lia.
  - intros thr thr' m' Hle H. apply find_best_spec in H.
    destruct H as (c & Hc & _ & _).
    eapply find_best_some. eapply all_candidates_mono; eassumption.
Qed.

Lemma find_best_entity_match_threshold_witness :
  (0.5 <= inject_Z 80 / 100)%Q
  /\ exists m, find_best_entity_match joker_env (entity_cache gotham_bot)
                 "joker" None 10 = Some m.
Proof.
  pose proof (@find_best_entity_match_threshold joker_env
                (entity_cache gotham_bot) "joker" None) as (Hfloor & Hconf & Hmono).
  split.
  - apply (proj1 (Hconf 70
                    (mkEntityMatch "c2" "characters" "Joker" (inject_Z 80 / 100)
                                   "fuzzy") eq_refl)).
  - apply (Hmono 10 70
             (mkEntityMatch "c2" "characters" "Joker" (inject_Z 80 / 100) "fuzzy")).
    + lia.
    + reflexivity.
Defined.

Lemma descending_firstn {A} (ge : A -> A -> bool) (l : list A) :
  descending ge l -> forall n, descending ge (firstn n l).
Proof.
  induction 1 as [|x l Hx Hl IH]; intros n.
  - rewrite firstn_nil. constructor.
  - destruct n as [|n]; simpl; constructor.
    + intros y Hy. apply Hx. eapply firstn_In; eassumption.
    + apply IH.
Qed.

Lemma descending_split {A} (ge : A -> A -> bool) (l : list A) :
  descending ge l ->
  forall l1 x l2 y, l = (l1 ++ x :: l2)%list -> In y l2 -> ge x y = true.
Proof.
  induction 1 as [|z l Hz Hl IH]; intros l1 x l2 y Heq Hy.
  - destruct l1; discriminate.
  - destruct l1 as [|a l1]; simpl in Heq; inversion Heq; subst.
    + apply Hz. exact Hy.
    + eapply IH; [reflexivity|exact Hy].
Qed.

Lemma confidence_ge_total (x y : EntityMatch) :
  confidence_ge x y = false -> confidence_ge y x = true.
Proof.
  unfold confidence_ge. intros H.
  apply Qle_bool_iff.
  destruct (Qlt_le_dec (em_confidence x) (em_confidence y)) as [Hlt|Hle].
  - apply Qlt_le_weak, Hlt.
  - apply Qle_bool_iff in Hle. congruence.
Qed.

Lemma confidence_ge_trans (x y z : EntityMatch) :
  confidence_ge x y = true -> confidence_ge y z = true ->
  confidence_ge x z = true.
Proof.
  unfold confidence_ge. rewrite !Qle_bool_iff. intros H1 H2.
  eapply Qle_trans; eassumption.
Qed.

(** X9: [find_multiple_entities] returns at most [max_results] matches, in
    descending order of confidence, and each has at least the confidence the
    threshold stands for (capped at 1.0). *)
Theorem find_multiple_entities_ranked :
  forall (E : Env) (cache : Cache) (q : string) (k : nat) (thr : Z),
    let ms := find_multiple_entities E cache q k thr in
    (List.length ms <= k)%nat
    /\ (forall l1 x l2 y,
           ms = (l1 ++ x :: l2)%list -> In y l2 ->
           (em_confidence y <= em_confidence x)%Q)
    /\ (forall m, In m ms ->
                  (Qmin (inject_Z thr / 100) 1 <= em_confidence m)%Q).
Proof.
  intros E cache q k thr ms. split; [|split].
  - subst ms. rewrite find_multiple_length. apply Nat.le_min_l.
  - intros l1 x l2 y Heq Hy. apply Qle_bool_iff.
    change (confidence_ge x y = true).
    refine (@descending_split _ confidence_ge ms _ l1 x l2 y Heq Hy).
    subst ms. unfold find_multiple_entities.
    apply descending_firstn.
    apply sorted_desc_descending;
      [exact confidence_ge_total|exact confidence_ge_trans].
  - intros m Hm. subst ms. apply find_multiple_entity in Hm.
    destruct Hm as (t & ents & e & _ & _ & _ & Hs & ->).
    unfold match_of_entity, boosted_confidence. simpl.
    apply Q.min_le_compat_r.
    pose proof (importance_boost_nonneg (ce_name e)) as Hb.
    set (s := wratio E (_clean_query_for_matching q) (ce_name e)) in *.
    unfold Qle, Qdiv, Qmult, Qinv, Qplus, inject_Z; simpl. lia.
Qed.

Lemma find_multiple_entities_ranked_witness :
  (em_confidence (mkEntityMatch "c3" "characters" "Bane"
                    (Qmin ((inject_Z 60 + inject_Z 75 * 0.1) / 100) 1) "fuzzy")
   <= em_confidence (mkEntityMatch "c1" "characters" "Batman"
                       (Qmin ((inject_Z 100 + inject_Z 100 * 0.1) / 100) 1) "fuzzy"))%Q
  /\ (Qmin (inject_Z 50 / 100) 1
      <= em_confidence (mkEntityMatch "c3" "characters" "Bane"
                          (Qmin ((inject_Z 60 + inject_Z 75 * 0.1) / 100) 1) "fuzzy"))%Q.
Proof.
  pose proof (@find_multiple_entities_ranked batman_env (entity_cache gotham_bot)
                "who is batman" 5 50) as (_ & Hsorted & Hfloor).
  split.
  - apply (Hsorted [] _ [_] _ eq_refl). left. reflexivity.
  - apply Hfloor. right. left. reflexivity.
Defined.

(** *** Semantic search *)

Lemma semantic_fold_zero (name description : string) (keywords : list string) :
  forall acc,
    existsb (fun kw => Py.is_in kw description || Py.is_in kw name) keywords
    = false ->
    fold_left (fun acc keyword =>
                 if Py.is_in keyword name then acc + 20
                 else if Py.is_in keyword description then acc + 10
                 else acc) keywords acc = acc.
Proof.
  induction keywords as [|kw r IH]; intros acc H; simpl in *; [reflexivity|].
  apply orb_false_iff in H. destruct H as [Hkw Hr].
  apply orb_false_iff in Hkw. destruct Hkw as [Hd Hn].
  rewrite Hn, Hd. apply IH, Hr.
Qed.

Lemma semantic_filter_nil (name description : string) (keywords : list string) :
  existsb (fun kw => Py.is_in kw description || Py.is_in kw name) keywords
  = false ->
  filter (fun kw => Py.is_in kw description || Py.is_in kw name) keywords = [].
Proof.
  induction keywords as [|kw r IH]; intros H; simpl in *; [reflexivity|].
  apply orb_false_iff in H. destruct H as [Hkw Hr]. rewrite Hkw. apply IH, Hr.
Qed.

Lemma semantic_score_keyword (keywords : list string) (e : CacheEntity) :
  semantic_score keywords e > 0 ->
  exists kw, In kw keywords
             /\ (Py.is_in kw (Py.lower (ce_name e)) = true
                 \/ Py.is_in kw (Py.lower (ce_description e)) = true).
Proof.
  intros Hpos.
  destruct (existsb (fun kw => Py.is_in kw (Py.lower (ce_description e))
                               || Py.is_in kw (Py.lower (ce_name e))) keywords)
    eqn:Hex.
  - apply existsb_exists in Hex. destruct Hex as (kw & Hin & Hkw).
    exists kw. split; [exact Hin|]. apply orb_true_iff in Hkw. tauto.
  - exfalso. unfold semantic_score in Hpos.
    rewrite (semantic_fold_zero _ _ _ 0 Hex) in Hpos.
    rewrite (semantic_filter_nil _ _ _ Hex) in Hpos. simpl in Hpos. lia.
Qed.

(** X10: [semantic_search] returns at most [max_results] matches, and only
    entities of the searched partitions in whose lowercased name or
    description a keyword of the query occurs; a query that has no keyword
    (stop words and words of one or two characters only) finds nothing. *)
Theorem semantic_search_needs_a_keyword :
  forall (cache : Cache) (q : string) (etype : option string) (k : nat),
    let ms := semantic_search cache q etype k in
    (List.length ms <= k)%nat
    /\ (forall m, In m ms ->
          exists t ents e kw,
            In t (search_types etype) /\ cache_get cache t = Some ents
            /\ In e ents
            /\ em_entity_id m = ce_id e /\ em_name m = ce_name e
            /\ em_entity_type m = t
            /\ In kw (_extract_keywords q)
            /\ (Py.is_in kw (Py.lower (ce_name e)) = true
                \/ Py.is_in kw (Py.lower (ce_description e)) = true))
    /\ (_extract_keywords q = [] -> ms = []).
Proof.
  intros cache q etype k ms.
  assert (Hin : forall m, In m ms ->
            exists t ents e kw,
              In t (search_types etype) /\ cache_get cache t = Some ents
              /\ In e ents
              /\ em_entity_id m = ce_id e /\ em_name m = ce_name e
              /\ em_entity_type m = t
              /\ In kw (_extract_keywords q)
              /\ (Py.is_in kw (Py.lower (ce_name e)) = true
                  \/ Py.is_in kw (Py.lower (ce_description e)) = true)).
  { intros m Hm. subst ms. unfold semantic_search in Hm.
    apply firstn_In, sorted_desc_In, in_flat_map in Hm.
    destruct Hm as (t & Ht & Hm).
    destruct (cache_get cache t) as [ents|] eqn:Hg; [|destruct Hm].
    apply in_flat_map in Hm. destruct Hm as (e & He & Hm).
    unfold semantic_match in Hm.
    destruct (semantic_score (_extract_keywords q) e >? 0) eqn:Hs;
      [|destruct Hm].
    destruct Hm as [<-|[]].
    apply Z.gtb_lt in Hs.
    destruct (@semantic_score_keyword (_extract_keywords q) e) as (kw & Hkw & Hocc);
      [lia|].
    exists t, ents, e, kw. simpl. repeat split; auto. }
  split; [|split].
  - subst ms. unfold semantic_search. rewrite length_firstn. apply Nat.le_min_l.
  - exact Hin.
  - intros Hnone. destruct ms as [|m r] eqn:Hms; [reflexivity|].
    destruct (Hin m (or_introl eq_refl)) as (t & ents & e & kw & _ & _ & _ & _ & _ & _ & Hkw & _).
    rewrite Hnone in Hkw. destruct Hkw.
Qed.

Lemma semantic_search_needs_a_keyword_witness :
  semantic_search (entity_cache gotham_bot) "who is it" None 5 = []
  /\ exists t ents e kw,
       In t (search_types None)
       /\ cache_get (entity_cache gotham_bot) t = Some ents /\ In e ents
       /\ "l2" = ce_id e /\ "Crime_Lab" = ce_name e /\ "locations" = t
       /\ In kw (_extract_keywords "the police")
       /\ (Py.is_in kw (Py.lower (ce_name e)) = true
           \/ Py.is_in kw (Py.lower (ce_description e)) = true).
Proof.
  split.
  - apply (@semantic_search_needs_a_keyword (entity_cache gotham_bot)
             "who is it" None 5). reflexivity.
  - apply (proj1 (proj2 (@semantic_search_needs_a_keyword
                           (entity_cache gotham_bot) "the police" None 5))
             (mkEntityMatch "l2" "locations" "Crime_Lab"
                            (Qmin (inject_Z 10 / 100) 1) "description")).
    vm_compute. left. reflexivity.
Defined.

(** *** Query cleaning *)

Lemma all_chars_append (p : ascii -> bool) (s t : string) :
  all_chars p (s ++ t) = all_chars p s && all_chars p t.
Proof.
  induction s as [|c r IH]; simpl; [reflexivity|].
  rewrite IH. apply andb_assoc.
Qed.

Lemma split_aux_no_space (s : string) :
  forall cur w,
    all_chars (fun c => negb (Py.is_space c)) cur = true ->
    In w (Py.split_aux cur s) ->
    all_chars (fun c => negb (Py.is_space c)) w = true /\ w <> "".
Proof.
  induction s as [|c r IH]; intros cur w Hcur Hw; simpl in Hw.
  - destruct cur; [destruct Hw|].
    destruct Hw as [<-|[]]. split; [exact Hcur|discriminate].
  - destruct (Py.is_space c) eqn:Hc.
    + destruct cur.
      * exact (IH "" w eq_refl Hw).
      * destruct Hw as [<-|Hw]; [split; [exact Hcur|discriminate]|].
        exact (IH "" w eq_refl Hw).
    + eapply IH; [|exact Hw].
      rewrite all_chars_append, Hcur. simpl. now rewrite Hc.
Qed.

Lemma filter_chars_all (p q : ascii -> bool) (s : string) :
  all_chars q s = true ->
  all_chars (fun c => p c && q c) (Py.filter_chars p s) = true.
Proof.
  induction s as [|c r IH]; simpl; [reflexivity|].
  intros H. apply andb_true_iff in H. destruct H as [Hc Hr].
  destruct (p c) eqn:Hp; simpl; [rewrite Hp, Hc|]; auto.
Qed.

Lemma all_chars_weaken (p q : ascii -> bool) (s : string) :
  (forall c, p c = true -> q c = true) ->
  all_chars p s = true -> all_chars q s = true.
Proof.
  intros Hpq. induction s as [|c r IH]; simpl; [reflexivity|].
  intros H. apply andb_true_iff in H. destruct H as [Hc Hr].
  rewrite (Hpq _ Hc). auto.
Qed.

(** X11: the cleaned query is a sequence of tokens joined by single blanks;
    every token is non-empty, consists of word characters only (no
    punctuation, no blank) and is not one of the stop words. *)
Theorem clean_query_tokens :
  forall q : string,
  exists tokens,
    _clean_query_for_matching q = Py.join " " tokens
    /\ Forall (fun w => w <> ""
                        /\ ~ In w stop_words
                        /\ all_chars Py.is_word w = true) tokens.
Proof.
  intros q. unfold _clean_query_for_matching.
  eexists. split; [reflexivity|].
  apply Forall_forall. intros w Hw.
  apply filter_In in Hw. destruct Hw as [Hin Hkeep].
  apply andb_true_iff in Hkeep. destruct Hkeep as [Hne Hstop].
  apply negb_true_iff in Hne, Hstop.
  split; [apply String.eqb_neq, Hne|]. split.
  - intros Hmem. unfold Py.mem in Hstop.
    assert (existsb (String.eqb w) stop_words = true); [|congruence].
    apply existsb_exists. exists w. split; [exact Hmem|apply String.eqb_refl].
  - apply in_map_iff in Hin. destruct Hin as (w0 & <- & Hw0).
    unfold Py.split in Hw0.
    apply (@split_aux_no_space _ "" w0 eq_refl) in Hw0.
    destruct Hw0 as [Hns _]. unfold remove_punctuation.
    eapply all_chars_weaken; [|apply filter_chars_all; exact Hns].
    intros c Hc. simpl in Hc. apply andb_true_iff in Hc.
    destruct Hc as [Hc1 Hc2]. apply negb_true_iff in Hc2.
    rewrite Hc2, orb_false_r in Hc1. exact Hc1.
Qed.

(** *** Character-specific vehicles *)

Lemma max_by_score_spec {A} (l : list (A * Z)) (x : A * Z) :
  Py.max_by (fun x y => snd x >=? snd y) l = Some x ->
  In x l /\ forall y, In y l -> snd y <= snd x.
Proof.
  revert x. induction l as [|a r IH]; intros x; simpl; [discriminate|].
  destruct (Py.max_by _ r) as [b|] eqn:Hr.
  - destruct (IH b eq_refl) as [Hb Hmax].
    destruct (snd a >=? snd b) eqn:Hab; intros [= <-].
    + rewrite Z.geb_leb, Z.leb_le in Hab. split; [now left|].
      intros y [<-|Hy]; [lia|]. specialize (Hmax y Hy). lia.
    + rewrite Z.geb_leb, Z.leb_gt in Hab. split; [now right|].
      intros y [<-|Hy]; [lia|]. exact (Hmax y Hy).
  - intros [= <-]. split; [now left|].
    intros y [<-|Hy]; [lia|].
    destruct r; [destruct Hy|]. simpl in Hr.
    destruct (Py.max_by _ r); [destruct (_ >=? _)|]; discriminate.
Qed.

Lemma max_by_none {A} (ge : A -> A -> bool) (l : list A) :
  Py.max_by ge l = None -> l = [].
Proof.
  destruct l as [|a r]; [reflexivity|]. simpl.
  destruct (Py.max_by ge r); [destruct (ge a a0)|]; discriminate.
Qed.

(** X12: [_find_character_vehicle] answers with a vehicle of the cache that
    is related to the character, whose score reaches the threshold and is
    the largest among the related vehicles that reach it; the confidence is
    that score over 100, capped at 1.0.  It answers nothing exactly when no
    related vehicle reaches the threshold. *)
Theorem find_character_vehicle_selects_best :
  forall (E : Env) (cache : Cache) (character query : string) (thr : Z),
    let related v := _is_character_vehicle_match character (ce_name v) in
    let score v := _calculate_vehicle_score E v character query in
    (forall m,
        _find_character_vehicle E cache character query thr = Some m ->
        exists v,
          In v (cache_vehicles cache) /\ related v = true /\ thr <= score v
          /\ (forall v', In v' (cache_vehicles cache) -> related v' = true ->
                         score v' <= score v)
          /\ m = mkEntityMatch (ce_id v) "vehicles" (ce_name v)
                   (Qmin (inject_Z (score v) / 100) 1) "character_vehicle")
    /\ (_find_character_vehicle E cache character query thr = None <->
        forall v, In v (cache_vehicles cache) -> related v = true ->
                  score v < thr).
Proof.
  intros E cache character query thr related score.
  unfold _find_character_vehicle.
  set (scored := filter (fun vs : CacheEntity * Z => snd vs >=? thr)
                   (map (fun v => (v, _calculate_vehicle_score E v character query))
                      (filter (fun v => _is_character_vehicle_match character (ce_name v))
                         (cache_vehicles cache)))).
  assert (Hscored : forall v s, In (v, s) scored <->
            In v (cache_vehicles cache) /\ related v = true
            /\ s = score v /\ thr <= s).
  { intros v s. subst scored. rewrite filter_In, in_map_iff. simpl.
    rewrite Z.geb_leb, Z.leb_le. split.
    - intros [(v0 & [= -> <-] & Hv) Hs]. apply filter_In in Hv. tauto.
    - intros (Hv & Hr & -> & Hs). split; [|exact Hs].
      exists v. split; [reflexivity|]. apply filter_In. tauto. }
  split.
  - intros m Hm.
    destruct (Py.max_by _ scored) as [[v s]|] eqn:Hmax; [|discriminate].
    apply max_by_score_spec in Hmax. destruct Hmax as [Hin Hbest].
    apply Hscored in Hin. destruct Hin as (Hv & Hr & -> & Hs).
    exists v. split; [exact Hv|]. split; [exact Hr|]. split; [exact Hs|].
    split; [|now inversion Hm].
    intros v' Hv' Hr'.
    destruct (Z_lt_le_dec (score v') thr) as [Hlt|Hge]; [lia|].
    apply (Hbest (v', score v')). apply Hscored. tauto.
  - split.
    + intros Hnone v Hv Hr.
      destruct (Py.max_by _ scored) as [[v0 s0]|] eqn:Hmax; [discriminate|].
      apply max_by_none in Hmax.
      destruct (Z_lt_le_dec (score v) thr) as [Hlt|Hge]; [exact Hlt|].
      exfalso. assert (Hin : In (v, score v) scored) by (apply Hscored; tauto).
      rewrite Hmax in Hin. destruct Hin.
    + intros Hlow.
      destruct (Py.max_by _ scored) as [[v s]|] eqn:Hmax; [|reflexivity].
      apply max_by_score_spec in Hmax. destruct Hmax as [Hin _].
      apply Hscored in Hin. destruct Hin as (Hv & Hr & -> & Hs).
      specialize (Hlow v Hv Hr). lia.
Qed.

Lemma find_character_vehicle_selects_best_witness :
  exists v,
    In v (cache_vehicles (entity_cache balloon_bot))
    /\ _is_character_vehicle_match "joker" (ce_name v) = true
    /\ 40 <= _calculate_vehicle_score balloon_env v "joker" "what does joker drive"
    /\ (forall v', In v' (cache_vehicles (entity_cache balloon_bot)) ->
                   _is_character_vehicle_match "joker" (ce_name v') = true ->
                   _calculate_vehicle_score balloon_env v' "joker"
                                            "what does joker drive"
                   <= _calculate_vehicle_score balloon_env v "joker"
                                               "what does joker drive")
    /\ mkEntityMatch "v9" "vehicles" "Joker_Balloon"
                     (Qmin (inject_Z 56 / 100) 1) "character_vehicle"
       = mkEntityMatch (ce_id v) "vehicles" (ce_name v)
           (Qmin (inject_Z (_calculate_vehicle_score balloon_env v "joker"
                              "what does joker drive") / 100) 1)
           "character_vehicle".
Proof.
  apply (proj1 (@find_character_vehicle_selects_best balloon_env
                  (entity_cache balloon_bot) "joker" "what does joker drive" 40)).
  reflexivity.
Defined.

(* ================================================================== *)
(** ** The conversation history *)
(* ================================================================== *)

Lemma continues_refl (b : Chatbot) : continues b b [].
Proof. unfold continues. rewrite app_nil_r. auto. Qed.

Lemma continues_trans (b1 b2 b3 : Chatbot) (t1 t2 : list Message) :
  continues b1 b2 t1 -> continues b2 b3 t2 -> continues b1 b3 (t1 ++ t2).
Proof.
  unfold continues. intros (H1 & H2 & H3) (H4 & H5 & H6).
  rewrite H4, H5, H6, H3, app_assoc. auto.
Qed.

Lemma continues_say (b : Chatbot) (r c : string) :
  continues b (say b r c) [mkMessage r c].
Proof. unfold continues, say. simpl. auto. Qed.

Section HistoryFacts.

Variable E : Env.

Lemma respond_continues (b : Chatbot) (ctx : ResponseContext) :
  continues b (snd (respond E b ctx)) [].
Proof. unfold continues, respond. simpl. rewrite app_nil_r. auto. Qed.

Lemma character_lookup_quiet (db : DB) (b : Chatbot) (q : string) :
  continues b (snd (character_lookup E db b q)) [].
Proof.
  unfold character_lookup, character_not_found, suggest, respond.
  repeat match goal with
         | |- context [match ?x with _ => _ end] => destruct x
         end; simpl; (apply continues_refl || (unfold continues; simpl; rewrite app_nil_r; auto)).
Qed.

Lemma _handle_vehicle_query_quiet (db : DB) (b : Chatbot) (q : string) :
  continues b (snd (_handle_vehicle_query E db b q)) [].
Proof.
  unfold _handle_vehicle_query, respond.
  repeat match goal with
         | |- context [match ?x with _ => _ end] => destruct x
         end; simpl; (apply continues_refl || (unfold continues; simpl; rewrite app_nil_r; auto)).
Qed.

Lemma _handle_location_query_quiet (db : DB) (b : Chatbot) (q : string) :
  continues b (snd (_handle_location_query E db b q)) [].
Proof.
  unfold _handle_location_query, respond.
  repeat match goal with
         | |- context [match ?x with _ => _ end] => destruct x
         end; simpl; (apply continues_refl || (unfold continues; simpl; rewrite app_nil_r; auto)).
Qed.

Lemma _handle_relationship_query_quiet (db : DB) (b : Chatbot) (q : string) :
  continues b (snd (_handle_relationship_query E db b q)) [].
Proof.
  unfold _handle_relationship_query.
  destruct (handle_relationship_query E db (entity_cache b) q); simpl;
    apply continues_refl.
Qed.

Lemma _handle_general_search_quiet (db : DB) (b : Chatbot) (q : string)
      (r : BatmanResponse) (b' : Chatbot) :
  _handle_general_search E db b q = Return (r, b') -> continues b b' [].
Proof.
  unfold _handle_general_search, suggest. intros H.
  repeat match type of H with
         | context [match ?x with _ => _ end] => destruct x
         end; inversion H; subst; apply continues_refl.
Qed.

Lemma _handle_relationship_result_quiet (b : Chatbot) (sr : SearchResult)
      (q : string) :
  continues b (snd (_handle_relationship_result E b sr q)) [].
Proof.
  unfold _handle_relationship_result, respond. simpl.
  unfold continues. simpl. rewrite app_nil_r. auto.
Qed.

Section WithSelf.

Variable self : Chatbot -> string -> outcome (BatmanResponse * Chatbot).
Hypothesis self_continues :
  forall b q r b', self b q = Return (r, b') -> exists tail, continues b b' tail.

Lemma _handle_character_query_continues (db : DB) (b : Chatbot) (q : string)
      (r : BatmanResponse) (b' : Chatbot) :
  _handle_character_query E self db b q = Return (r, b') ->
  exists tail, continues b b' tail.
Proof.
  unfold _handle_character_query, _handle_contextual_followup, suggest.
  intros H.
  destruct (negb (fst (_check_batman_scope q))).
  { inversion H; subst. exists []. apply continues_refl. }
  destruct (weapons_followup (conversation_history b) (Py.strip (Py.lower q))).
  { destruct (resolved_queries E (conversation_history b) q) as [|rq rest].
    - inversion H; subst. exists []. apply continues_refl.
    - eapply self_continues; eauto. }
  match type of H with
  | match ?f with _ => _ end = _ => destruct f
  end.
  - inversion H; subst. exists []. apply continues_refl.
  - inversion H as [H1]. exists [].
    pose proof (character_lookup_quiet db b q) as Hq. rewrite H1 in Hq. exact Hq.
Qed.

Lemma _handle_sidekick_query_continues (db : DB) (b : Chatbot) (q : string)
      (r : BatmanResponse) (b' : Chatbot) :
  _handle_sidekick_query E self db b q = Return (r, b') ->
  exists tail, continues b b' tail.
Proof.
  unfold _handle_sidekick_query, suggest. intros H.
  match type of H with
  | match ?f with _ => _ end = _ => destruct f
  end.
  - inversion H; subst. exists []. apply continues_refl.
  - eapply _handle_character_query_continues; eauto.
Qed.

Lemma dispatch_continues (db : DB) (b : Chatbot) (q : string)
      (r : BatmanResponse) (b' : Chatbot) :
  dispatch E self db b q = Return (r, b') -> exists tail, continues b b' tail.
Proof.
  unfold dispatch, _classify_query. intros H.
  destruct (Py.any_in vehicle_keywords (Py.lower q)).
  { simpl in H. inversion H as [H1]. exists [].
    pose proof (_handle_vehicle_query_quiet db b q) as Hq.
    rewrite H1 in Hq. exact Hq. }
  destruct (Py.any_in location_keywords (Py.lower q)).
  { simpl in H. inversion H as [H1]. exists [].
    pose proof (_handle_location_query_quiet db b q) as Hq.
    rewrite H1 in Hq. exact Hq. }
  destruct (Py.any_in relationship_keywords (Py.lower q)).
  { simpl in H. inversion H as [H1]. exists [].
    pose proof (_handle_relationship_query_quiet db b q) as Hq.
    rewrite H1 in Hq. exact Hq. }
  destruct (Py.any_in sidekick_keywords (Py.lower q)).
  { simpl in H. eapply _handle_sidekick_query_continues; eauto. }
  destruct (Py.any_in character_keywords (Py.lower q)).
  { simpl in H. eapply _handle_character_query_continues; eauto. }
  simpl in H. exists []. eapply _handle_general_search_quiet; eauto.
Qed.

(** the history after a call: untouched without a connection, else the
    user's message alone or followed by more and at last the answer *)
Lemma process_query_body_continues (b : Chatbot) (q : string)
      (r : BatmanResponse) (b' : Chatbot) :
  process_query_body E self b q = Return (r, b') ->
  exists tail,
    continues b b' tail
    /\ (conn b = None -> tail = [])
    /\ (forall db, conn b = Some db ->
          (~ unanswered E db (entity_cache b) (_clean_input q)
           /\ tail = [mkMessage "user" (_clean_input q)])
          \/ (unanswered E db (entity_cache b) (_clean_input q)
              /\ exists mid,
                   tail = (mkMessage "user" (_clean_input q) :: mid
                             ++ [mkMessage "assistant" (answer r)])%list)).
Proof.
  unfold process_query_body. intros H.
  destruct (conn b) as [db|] eqn:Hconn.
  2:{ inversion H; subst. exists []. split; [apply continues_refl|].
      split; [reflexivity|discriminate]. }
  set (query := _clean_input q) in *.
  set (b1 := say b "user" query) in *.
  change (entity_cache b1) with (entity_cache b) in H.
  assert (Hb1 : continues b b1 [mkMessage "user" query])
    by apply continues_say.
  assert (Hshort : forall b2,
            ~ unanswered E db (entity_cache b) query ->
            continues b1 b2 [] ->
            exists tail,
              continues b b2 tail /\ (Some db = None -> tail = [])
              /\ (forall db0, Some db = Some db0 ->
                    (~ unanswered E db0 (entity_cache b) query
                     /\ tail = [mkMessage "user" query])
                    \/ (unanswered E db0 (entity_cache b) query
                        /\ exists mid,
                             tail = (mkMessage "user" query :: mid
                                       ++ [mkMessage "assistant" (answer r)])%list))).
  { intros b2 Hans H2. exists [mkMessage "user" query]. split.
    - exact (continues_trans Hb1 H2).
    - split; [discriminate|]. intros db0 [= <-]. left. split; [exact Hans|reflexivity]. }
  destruct (process_relationship_query E db query) as [res|] eqn:Hrp.
  { inversion H; subst. apply Hshort; [|apply continues_refl].
    intros (Hu & _). congruence. }
  destruct (search_multi_entity E db query) as [[e1 e2]|] eqn:Hme.
  { inversion H; subst. apply Hshort; [|apply continues_refl].
    intros (_ & Hu & _). congruence. }
  destruct (search_by_relationship E db query) as [sr|] eqn:Hsr.
  { assert (H1 : _handle_relationship_result E b1 sr query = (r, b'))
      by congruence.
    apply Hshort; [intros (_ & _ & Hu & _); congruence|].
    pose proof (_handle_relationship_result_quiet b1 sr query) as Hq.
    rewrite H1 in Hq. exact Hq. }
  destruct (handle_comparative_query E db (entity_cache b) query)
    as [[c|]| |] eqn:Hcmp; simpl in H; try discriminate.
  { inversion H; subst. apply Hshort; [|apply continues_refl].
    intros (_ & _ & _ & Hu & _). congruence. }
  destruct (handle_relationship_query E db (entity_cache b) query) as [rel|] eqn:Hrel.
  { inversion H; subst. apply Hshort; [|apply continues_refl].
    intros (_ & _ & _ & _ & Hu & _). congruence. }
  destruct (handle_multi_entity_query E db (entity_cache b) query) as [me|] eqn:Hmulti.
  { inversion H; subst. apply Hshort; [|apply continues_refl].
    intros (_ & _ & _ & _ & _ & Hu). congruence. }
  destruct (dispatch E self db b1 query) as [[r0 b0]| |] eqn:Hd; simpl in H;
    try discriminate.
  inversion H; subst r0 b'. clear H.
  apply dispatch_continues in Hd. destruct Hd as (mid & Hmid).
  exists ([mkMessage "user" query] ++ mid ++ [mkMessage "assistant" (answer r)])%list.
  split.
  - apply (continues_trans Hb1).
    apply (continues_trans Hmid). apply continues_say.
  - split; [discriminate|]. intros db0 [= <-]. right. split.
    + unfold unanswered. auto 10.
    + exists mid. reflexivity.
Qed.

End WithSelf.

Lemma process_query_fuel_continues (fuel : nat) :
  forall (b : Chatbot) (q : string) (r : BatmanResponse) (b' : Chatbot),
    process_query_fuel E fuel b q = Return (r, b') ->
    exists tail, continues b b' tail.
Proof.
  induction fuel as [|n IH]; intros b q r b' H; simpl in H; [discriminate|].
  apply (@process_query_body_continues (process_query_fuel E n) IH) in H.
  destruct H as (tail & H & _). eauto.
Qed.

End HistoryFacts.

(** X13: [process_query] never changes the store or the entity cache and only
    appends to the conversation history.  Without a connection nothing is
    appended.  With one, the cleaned query is appended as a user message
    first; when one of the pattern-based resolvers answers, nothing else is
    appended (its answer is not recorded); when none does, the answer of
    the classified handler is recorded last, as an assistant message. *)
Theorem process_query_history :
  forall (E : Env) (b : Chatbot) (q : string) (r : BatmanResponse) (b' : Chatbot),
    process_query E b q = Return (r, b') ->
    exists tail,
      continues b b' tail
      /\ (conn b = None -> tail = [])
      /\ (forall db, conn b = Some db ->
            (~ unanswered E db (entity_cache b) (_clean_input q)
             /\ tail = [mkMessage "user" (_clean_input q)])
            \/ (unanswered E db (entity_cache b) (_clean_input q)
                /\ exists mid,
                     tail = (mkMessage "user" (_clean_input q) :: mid
                               ++ [mkMessage "assistant" (answer r)])%list)).
Proof.
  intros E b q r b' H.
  change (process_query_body E (process_query_fuel E 4) b q = Return (r, b'))
    in H.
  eapply process_query_body_continues; [|exact H].
  intros b0 q0 r0 b0' H0. eapply process_query_fuel_continues. exact H0.
Qed.

(** "Batman vs Joker" is answered by the search engine: the history holds
    the question and not the answer *)
Lemma process_query_history_witness :
  exists r b',
    process_query versus_env gotham_bot "Batman vs Joker" = Return (r, b')
    /\ conversation_history b' = [mkMessage "user" "Batman vs Joker"].
Proof.
  destruct (process_query versus_env gotham_bot "Batman vs Joker")
    as [[r b']| |] eqn:Hrun; try (vm_compute in Hrun; discriminate Hrun).
  exists r, b'. split; [reflexivity|].
  destruct (@process_query_history versus_env gotham_bot "Batman vs Joker" r b'
              Hrun) as (tail & (_ & _ & Hhist) & _ & Hsome).
  destruct (Hsome gotham_store eq_refl) as [[_ ->]|[Hun _]].
  - exact Hhist.
  - exfalso. destruct Hun as (_ & Hme & _). vm_compute in Hme. discriminate Hme.
Defined.

(* ================================================================== *)
(** ** Answers that raise *)
(* ================================================================== *)

(** X14: the general search formats the storyline template, whose field is
    [{storyline}], with a [name] argument: whenever its best match is a
    storyline of the store with a confidence above 0.6, [str.format] raises
    [KeyError], and nothing on the way out of [process_query] catches it. *)
Theorem storyline_answer_raises :
  forall (E : Env) (b : Chatbot) (db : DB) (q : string) (m : EntityMatch)
         (entity : Row),
    conn b = Some db ->
    unanswered E db (entity_cache b) (_clean_input q) ->
    _classify_query (_clean_input q) = "general_search" ->
    fst (_check_batman_scope (_clean_input q)) = true ->
    find_best_entity_match E (entity_cache b) (_clean_input q) None 60 = Some m ->
    (0.6 < em_confidence m)%Q ->
    em_entity_type m = "storylines" ->
    _get_entity_by_id db (em_entity_id m) "storylines" = Some entity ->
    _handle_general_search E db b (_clean_input q) = Raise "KeyError"
    /\ process_query E b q = Raise "KeyError".
Proof.
  intros E b db q m entity Hconn Hun Hclass Hscope Hbest Hconf Htype Hrow.
  assert (Hgen : forall b0, entity_cache b0 = entity_cache b ->
            _handle_general_search E db b0 (_clean_input q) = Raise "KeyError").
  { intros b0 Hc. unfold _handle_general_search.
    rewrite Hscope, Hc, Hbest. simpl.
    destruct (Qlt_le_dec 0.6 (em_confidence m)) as [_|Hle].
    - rewrite Htype, Hrow. reflexivity.
    - exfalso. apply (Qlt_irrefl 0.6). eapply Qlt_le_trans; eassumption. }
  split; [apply Hgen; reflexivity|].
  destruct Hun as (Hrp & Hme & Hsr & Hcmp & Hrel & Hmulti).
  change (process_query_body E (process_query_fuel E 4) b q = Raise "KeyError").
  unfold process_query_body. rewrite Hconn, Hrp, Hme, Hsr.
  change (entity_cache (say b "user" (_clean_input q))) with (entity_cache b).
  rewrite Hcmp. simpl. rewrite Hrel, Hmulti.
  unfold dispatch. rewrite Hclass. simpl.
  rewrite Hgen; reflexivity.
Qed.

Lemma storyline_answer_raises_witness :
  process_query hush_env hush_bot "Hush" = Raise "KeyError".
Proof.
  refine (proj2 (@storyline_answer_raises hush_env hush_bot hush_store "Hush"
                   (mkEntityMatch "s1" "storylines" "Hush" (inject_Z 100 / 100)
                                  "fuzzy")
                   (mkRow "s1" "Hush" "A mysterious stalker sabotages Batman.")
                   eq_refl _ eq_refl eq_refl eq_refl _ eq_refl eq_refl)).
  - repeat split; vm_compute; reflexivity.
  - vm_compute. reflexivity.
Defined.

(* ================================================================== *)
(** ** The scope filter *)
(* ================================================================== *)

Lemma find_existsb {A} (f : A -> bool) (l : list A) :
  (exists x, find f l = Some x) <-> existsb f l = true.
Proof.
  induction l as [|a l IH]; simpl.
  - split; [intros [x Hx]; discriminate|discriminate].
  - destruct (f a); [split; eauto|exact IH].
Qed.

(** X15: [_check_batman_scope] rejects a query in exactly two cases: it
    names a listed hero or place and no Batman term, or it contains a
    vehicle or equipment phrase together with a listed hero (then a Batman
    term in the query does not save it).  An accepted query gets the empty
    message. *)
Theorem scope_filter_rejects_exactly :
  forall q : string,
    (fst (_check_batman_scope q) = false <->
     denylisted q
     \/ (Py.any_in (vehicle_patterns ++ equipment_patterns) (Py.lower q) = true
         /\ Py.any_in non_batman_heroes (Py.lower q) = true))
    /\ (fst (_check_batman_scope q) = true -> snd (_check_batman_scope q) = "").
Proof.
  intros q. unfold _check_batman_scope, denylisted.
  set (ql := Py.lower q).
  set (listed := (non_batman_heroes ++ non_batman_entities)%list).
  destruct (Py.any_in batman_terms ql) eqn:Hbat.
  - (* a Batman term: the first loop never returns *)
    assert (Hnone : find (fun entity => Py.is_in entity ql && negb true) listed
                    = None).
    { destruct (find _ listed) as [x|] eqn:Hf; [|reflexivity].
      apply find_some in Hf. destruct Hf as [_ Hf].
      rewrite andb_false_r in Hf. discriminate. }
    rewrite Hnone.
    destruct (Py.any_in (vehicle_patterns ++ equipment_patterns) ql) eqn:Hpat.
    + destruct (find (fun hero => Py.is_in hero ql) non_batman_heroes)
        as [hero|] eqn:Hh; cbn [fst snd].
      * split; [|discriminate]. split; [intros _|reflexivity].
        right. split; [reflexivity|].
        unfold Py.any_in. apply find_existsb. eauto.
      * split; [|reflexivity]. split; [discriminate|].
        intros [[_ H]|[_ H]]; [discriminate|].
        unfold Py.any_in in H. apply find_existsb in H. destruct H as [x Hx].
        unfold ql in *. congruence.
    + cbn [fst snd]. split; [|reflexivity]. split; [discriminate|].
      intros [[_ H]|[H _]]; discriminate.
  - (* no Batman term *)
    destruct (find (fun entity => Py.is_in entity ql && negb false) listed)
      as [entity|] eqn:Hf; cbn [fst snd].
    + split; [|discriminate]. split; [intros _|reflexivity].
      left. split; [|reflexivity].
      apply find_some in Hf. destruct Hf as [Hin Hocc].
      rewrite andb_true_r in Hocc.
      apply existsb_exists. eauto.
    + assert (Hlisted : Py.any_in listed ql = false).
      { unfold Py.any_in. destruct (existsb _ listed) eqn:Hex; [|reflexivity].
        apply existsb_exists in Hex. destruct Hex as (x & Hin & Hocc).
        pose proof (find_none _ _ Hf x Hin) as Hx. cbn beta in Hx.
        rewrite Hocc in Hx. discriminate. }
      destruct (Py.any_in (vehicle_patterns ++ equipment_patterns) ql) eqn:Hpat.
      * destruct (find (fun hero => Py.is_in hero ql) non_batman_heroes)
          as [hero|] eqn:Hh; cbn [fst snd].
        -- split; [|discriminate]. split; [intros _|reflexivity].
           right. split; [reflexivity|]. unfold Py.any_in. apply find_existsb. eauto.
        -- split; [|reflexivity]. split; [discriminate|].
           intros [[H _]|[_ H]]; [congruence|].
           unfold Py.any_in in H. apply find_existsb in H. destruct H as [x Hx].
           unfold ql in *. congruence.
      * cbn [fst snd]. split; [|reflexivity]. split; [discriminate|].
        intros [[H _]|[H _]]; [congruence|discriminate].
Qed.

(** a question about equipment that names both Superman and Batman is
    rejected *)
Lemma scope_filter_rejects_exactly_witness :
  fst (_check_batman_scope "What gadgets does Superman borrow from Batman?")
  = false.
Proof.
  apply (proj1 (@scope_filter_rejects_exactly
                  "What gadgets does Superman borrow from Batman?")).
  right. split; reflexivity.
Defined.

(* ================================================================== *)
(** ** Facts about the string primitives *)
(* ================================================================== *)

Lemma lower_append (s t : string) :
  Py.lower (s ++ t) = Py.lower s ++ Py.lower t.
Proof. induction s as [|c r IH]; simpl; [reflexivity|]. now rewrite IH. Qed.

Lemma lower_length (s : string) : String.length (Py.lower s) = String.length s.
Proof. induction s as [|c r IH]; simpl; [reflexivity|]. now rewrite IH. Qed.

Lemma prefix_append (p s : string) : String.prefix p (p ++ s) = true.
Proof.
  induction p as [|c r IH]; simpl; [apply prefix_empty|].
  destruct (ascii_dec c c); [exact IH|congruence].
Qed.

Lemma drop_append (p s : string) : Py.drop (String.length p) (p ++ s) = s.
Proof. induction p as [|c r IH]; simpl; [now destruct s|exact IH]. Qed.

Lemma filter_chars_append (p : ascii -> bool) (s t : string) :
  Py.filter_chars p (s ++ t) = Py.filter_chars p s ++ Py.filter_chars p t.
Proof.
  induction s as [|c r IH]; simpl; [reflexivity|].
  destruct (p c); simpl; now rewrite IH.
Qed.

Lemma filter_chars_absent (c : ascii) (s : string) :
  Py.count_char c s = O ->
  Py.filter_chars (fun d => negb (Ascii.eqb c d)) s = s.
Proof.
  induction s as [|d r IH]; simpl; [reflexivity|].
  destruct (Ascii.eqb c d); simpl; [discriminate|].
  intros H. now rewrite IH.
Qed.

Lemma lstrip_count (c : ascii) (s : string) :
  (Py.count_char c (Py.lstrip s) <= Py.count_char c s)%nat.
Proof.
  induction s as [|d r IH]; simpl; [lia|].
  destruct (Py.is_space d); simpl; lia.
Qed.

Lemma rstrip_count (c : ascii) (s : string) :
  (Py.count_char c (Py.rstrip s) <= Py.count_char c s)%nat.
Proof.
  induction s as [|d r IH]; simpl; [lia|].
  destruct (Py.rstrip r) as [|e r'] eqn:Hr.
  - destruct (Py.is_space d); simpl in *; lia.
  - simpl in *. lia.
Qed.

Lemma strip_count (c : ascii) (s : string) :
  (Py.count_char c (Py.strip s) <= Py.count_char c s)%nat.
Proof.
  unfold Py.strip. pose proof (rstrip_count c (Py.lstrip s)).
  pose proof (lstrip_count c s). lia.
Qed.

(** a string is trimmed when it neither starts nor ends with white space *)
Lemma lstrip_fixed (s : string) :
  Py.lstrip s = s <->
  match s with EmptyString => True | String c _ => Py.is_space c = false end.
Proof.
  destruct s as [|c r]; simpl; [tauto|].
  destruct (Py.is_space c) eqn:Hc; [|tauto].
  split; [|discriminate]. intros H.
  assert (Hlen : forall t, (String.length (Py.lstrip t) <= String.length t)%nat).
  { induction t as [|d t IH]; simpl; [lia|].
    destruct (Py.is_space d); simpl; lia. }
  specialize (Hlen r). rewrite H in Hlen. simpl in Hlen. lia.
Qed.

Lemma lstrip_lstrip (s : string) : Py.lstrip (Py.lstrip s) = Py.lstrip s.
Proof.
  induction s as [|c r IH]; simpl; [reflexivity|].
  destruct (Py.is_space c) eqn:Hc; [exact IH|]. simpl. now rewrite Hc.
Qed.

Lemma rstrip_snoc (s : string) (c : ascii) :
  Py.is_space c = false ->
  Py.rstrip (s ++ String c EmptyString) = s ++ String c EmptyString.
Proof.
  intros Hc. induction s as [|d r IH]; simpl; [now rewrite Hc|].
  rewrite IH. destruct (r ++ String c EmptyString) eqn:Hr; [|reflexivity].
  destruct r; discriminate.
Qed.

Lemma rstrip_rstrip (s : string) : Py.rstrip (Py.rstrip s) = Py.rstrip s.
Proof.
  induction s as [|c r IH]; simpl; [reflexivity|].
  destruct (Py.rstrip r) as [|e r'] eqn:Hr.
  - destruct (Py.is_space c) eqn:Hc; simpl; [reflexivity|now rewrite Hc].
  - simpl. simpl in IH. rewrite IH. reflexivity.
Qed.

(** trimming on the right keeps the first character *)
Lemma rstrip_head (s : string) :
  match s with
  | EmptyString => True
  | String c _ =>
      Py.is_space c = false ->
      exists r', Py.rstrip s = String c r'
  end.
Proof.
  destruct s as [|c r]; [exact I|]. intros Hc. simpl.
  destruct (Py.rstrip r); [rewrite Hc|]; eauto.
Qed.

Lemma lstrip_rstrip_lstrip (s : string) :
  Py.lstrip (Py.rstrip (Py.lstrip s)) = Py.rstrip (Py.lstrip s).
Proof.
  pose proof (proj1 (lstrip_fixed (Py.lstrip s)) (lstrip_lstrip s)) as Hhead.
  destruct (Py.lstrip s) as [|c r] eqn:Hs; [reflexivity|].
  destruct (rstrip_head (String c r) Hhead) as [r' Hr].
  rewrite Hr. simpl. now rewrite Hhead.
Qed.

Lemma strip_strip (s : string) : Py.strip (Py.strip s) = Py.strip s.
Proof.
  unfold Py.strip. rewrite lstrip_rstrip_lstrip. apply rstrip_rstrip.
Qed.

Lemma strip_fixed (s : string) :
  Py.lstrip s = s -> Py.rstrip s = s -> Py.strip s = s.
Proof. unfold Py.strip. intros -> ->. reflexivity. Qed.

(* ================================================================== *)
(** ** Entity names in questions *)
(* ================================================================== *)

Lemma extract_after_phrase (phrase rest : string) :
  In phrase stop_phrases ->
  find (fun p => Py.startswith (phrase ++ rest) p) stop_phrases = Some phrase.
Proof.
  unfold stop_phrases, Py.startswith. intros Hin. simpl in Hin.
  destruct Hin as [<-|[<-|[<-|[<-|[<-|[]]]]]]; cbn -[String.prefix];
    repeat match goal with
           | |- context [String.prefix ?p (String ?c ?s)] =>
               let v := eval cbn in (String.prefix p (String c s)) in
               change (String.prefix p (String c s)) with v
           end;
    cbn; rewrite ?prefix_empty; reflexivity.
Qed.

(** X16: [_extract_entity_name] returns a trimmed text without question
    marks and full stops; a question that consists of a stop phrase, in any
    letter case, a trimmed name without those two signs, and a question
    mark yields exactly the name, in its own letter case. *)
Theorem extract_entity_name_of_question :
  (forall q : string,
      let n := _extract_entity_name q in
      Py.count_char "?" n = O /\ Py.count_char "." n = O /\ Py.strip n = n)
  /\ (forall phrase intro name : string,
         In phrase stop_phrases ->
         Py.lower intro = phrase ->
         Py.lstrip name = name -> Py.rstrip name = name ->
         Py.count_char "?" name = O -> Py.count_char "." name = O ->
         _extract_entity_name (intro ++ name ++ "?") = name).
Proof.
  split.
  - intros q n. subst n. unfold _extract_entity_name.
    set (qc := match find _ stop_phrases with Some _ => _ | None => _ end).
    split; [|split].
    + eapply Nat.le_antisymm; [|lia].
      eapply Nat.le_trans; [apply strip_count|].
      rewrite (replace_char_filter "."), (replace_char_filter "?"),
        !filter_chars_count. simpl. lia.
    + eapply Nat.le_antisymm; [|lia].
      eapply Nat.le_trans; [apply strip_count|].
      rewrite (replace_char_filter "."), filter_chars_count. simpl. lia.
    + apply strip_strip.
  - intros phrase intro name Hin Hlow Hl Hr Hq Hd.
    unfold _extract_entity_name.
    rewrite lower_append, Hlow, (extract_after_phrase _ Hin).
    rewrite <- Hlow at 1. rewrite lower_length, drop_append.
    assert (Hstrip : Py.strip (name ++ "?") = name ++ "?").
    { apply strip_fixed; [|apply rstrip_snoc; reflexivity].
      apply lstrip_fixed. apply lstrip_fixed in Hl.
      destruct name; [reflexivity|exact Hl]. }
    rewrite Hstrip, (replace_char_filter "."), (replace_char_filter "?"),
      filter_chars_append, (filter_chars_absent _ _ Hq).
    change (Py.filter_chars (fun d => negb (Ascii.eqb "?" d)) "?") with "".
    replace (name ++ "") with name
      by (clear; induction name; simpl; congruence).
    rewrite (filter_chars_absent _ _ Hd).
    apply strip_fixed; assumption.
Qed.

Lemma extract_entity_name_of_question_witness :
  _extract_entity_name "Tell Me About Harvey Dent?" = "Harvey Dent".
Proof.
  apply (proj2 extract_entity_name_of_question "tell me about "
           "Tell Me About " "Harvey Dent");
    try reflexivity.
  simpl. tauto.
Defined.

(* ================================================================== *)
(** ** Direct lookup by name *)
(* ================================================================== *)

Lemma first_some_none {A B} (f : A -> option B) (l : list A) :
  first_some f l = None <-> forall x, In x l -> f x = None.
Proof.
  induction l as [|a l IH]; simpl; [tauto|].
  destruct (f a) eqn:Hf.
  - split; [discriminate|]. intros H. rewrite <- Hf. apply H. now left.
  - rewrite IH. split.
    + intros H x [<-|Hx]; auto.
    + intros H x Hx. apply H. now right.
Qed.

(** X17: [get_entity_info_direct] finds an entity by its exact stored name.
    If no table has a row of that name the answer is tagged [not_found]
    with confidence 0.0 and no source; otherwise the confidence is 1.0, the
    only source is the name itself (not the id), and the tag is the name of
    a table that has such a row; a character of that name takes precedence
    over every other table.  The conversation history is left alone. *)
Theorem direct_lookup_by_name :
  forall (E : Env) (b : Chatbot) (db : DB) (n : string),
    conn b = Some db ->
    let r := fst (get_entity_info_direct E b n) in
    ((forall t row, In t all_entity_types -> In row (table db t) ->
                    row_name row <> n) ->
     r = mkBatmanResponse ("Entity '" ++ n ++ "' not found in the database.")
                          0.0%Q [] "not_found" None)
    /\ (forall t row, In t all_entity_types -> In row (table db t) ->
                      row_name row = n ->
          confidence r = 1.0%Q /\ source_entities r = [n]
          /\ In (query_type r) all_entity_types
          /\ exists row', In row' (table db (query_type r))
                          /\ row_name row' = n)
    /\ (forall row, In row (characters db) -> row_name row = n ->
                    query_type r = "characters")
    /\ conversation_history (snd (get_entity_info_direct E b n))
       = conversation_history b.
Proof.
  intros E b db n Hconn r. subst r. unfold get_entity_info_direct.
  rewrite Hconn.
  set (look := fun t : string =>
         option_map (fun r : Row => (r, t))
           (find (fun r : Row => row_name r =? n) (table db t))).
  change ["characters"; "vehicles"; "locations"; "storylines"; "organizations"]
    with all_entity_types.
  assert (Hlook : forall t row, In row (table db t) -> row_name row = n ->
                                look t <> None).
  { intros t row Hin Hname. unfold look.
    destruct (find _ (table db t)) as [x|] eqn:Hf; [discriminate|].
    pose proof (find_none _ _ Hf row Hin) as Hx. cbn beta in Hx.
    rewrite Hname, String.eqb_refl in Hx. discriminate. }
  destruct (first_some look all_entity_types) as [[found t0]|] eqn:Hfs.
  - pose proof Hfs as Hfs0.
    apply first_some_spec in Hfs. destruct Hfs as (t & Ht & Hft).
    unfold look in Hft.
    destruct (find _ (table db t)) as [x|] eqn:Hf; [|discriminate].
    injection Hft as <- <-.
    apply find_some in Hf. destruct Hf as [Hin Hname].
    apply String.eqb_eq in Hname.
    unfold respond. cbn [fst snd confidence source_entities query_type
                         conversation_history].
    split; [intros Hnone; exfalso; exact (Hnone t x Ht Hin Hname)|].
    split; [intros _ _ _ _ _; repeat split; eauto|].
    split; [|reflexivity].
    intros row Hrow Hrn.
    destruct (look "characters") as [[r0 t1]|] eqn:Hc.
    + assert (Hfirst : first_some look all_entity_types = look "characters")
        by (unfold all_entity_types; cbn [first_some]; now rewrite Hc).
      rewrite Hfs0 in Hfirst. unfold look in Hfirst.
      destruct (find _ (table db "characters")); [|discriminate].
      cbn [option_map] in Hfirst. congruence.
    + exfalso. exact (Hlook "characters" row Hrow Hrn Hc).
  - cbn [fst snd confidence source_entities query_type conversation_history].
    split; [reflexivity|].
    split; [|split; [|reflexivity]].
    + intros t row Ht Hin Hname. exfalso.
      apply (Hlook t row Hin Hname).
      exact (proj1 (first_some_none look all_entity_types) Hfs t Ht).
    + intros row Hin Hname. exfalso.
      apply (Hlook "characters" row Hin Hname).
      apply (proj1 (first_some_none look all_entity_types) Hfs).
      now left.
Qed.

Lemma direct_lookup_by_name_witness :
  query_type (fst (get_entity_info_direct plain_env gotham_bot "Batman"))
  = "characters"
  /\ fst (get_entity_info_direct plain_env gotham_bot "Bat man")
     = mkBatmanResponse "Entity 'Bat man' not found in the database."
                        0.0%Q [] "not_found" None.
Proof.
  split.
  - apply (proj1 (proj2 (proj2 (@direct_lookup_by_name plain_env gotham_bot
                                  gotham_store "Batman" eq_refl)))
             (mkRow "c1" "Batman" "The Dark Knight of Gotham.")).
    + left. reflexivity.
    + reflexivity.
  - apply (proj1 (@direct_lookup_by_name plain_env gotham_bot gotham_store
                    "Bat man" eq_refl)).
    intros t row Ht Hrow. simpl in Ht.
    repeat (destruct Ht as [<-|Ht];
            [simpl in Hrow;
             repeat (destruct Hrow as [<-|Hrow]; [discriminate|]);
             destruct Hrow|]).
    destruct Ht.
Defined.

(* ================================================================== *)
(** ** Listings *)
(* ================================================================== *)

(** X18: a listing of [handle_multi_entity_query] is never empty and shows
    at most ten entities; a "list all" query reads at most twenty rows of
    its table, so the count it reports is the table size capped at twenty.
    The response built from it has confidence 0.8 and names at most five
    sources. *)
Theorem multi_entity_listing_bounds :
  forall (E : Env) (db : DB) (cache : Cache) (q : string) (m : MultiEntity),
    handle_multi_entity_query E db cache q = Some m ->
    (1 <= me_total_count m)%nat
    /\ List.length (me_entities m) = Nat.min 10 (me_total_count m)
    /\ (me_query_type m = "list_all" ->
        me_total_count m
        = Nat.min 20 (List.length (table db (me_entity_type m))))
    /\ List.length (source_entities (multi_entity_response E m))
       = Nat.min 5 (me_total_count m)
    /\ confidence (multi_entity_response E m) = 0.8%Q.
Proof.
  intros E db cache q m. unfold handle_multi_entity_query.
  destruct (_parse_multi_entity_query E q) as [[[qt etype] filters]|];
    [|discriminate].
  set (entities := if qt =? "list_all" then _ else _).
  assert (Hall : qt = "list_all" ->
                 entities = Some (_get_all_entities_of_type db etype)).
  { intros ->. reflexivity. }
  destruct entities as [[|e ents]|]; try discriminate.
  remember (e :: ents)%list as l eqn:Hl.
  assert (Hpos : (1 <= List.length l)%nat) by (subst l; simpl; lia).
  clear Hl. intros Hm.
  apply (f_equal (fun o => match o with Some x => x | None => m end)) in Hm.
  cbv beta iota in Hm. subst m.
  cbn [me_total_count me_entities me_query_type me_entity_type].
  split; [exact Hpos|]. split; [apply length_firstn|]. split; [|split].
  - intros Hqt. specialize (Hall Hqt). injection Hall as Hall.
    rewrite Hall. unfold _get_all_entities_of_type.
    rewrite length_map, length_firstn. reflexivity.
  - unfold multi_entity_response.
    cbn [source_entities me_entities me_total_count].
    rewrite length_map, !length_firstn. lia.
  - reflexivity.
Qed.

Lemma multi_entity_listing_bounds_witness :
  exists m,
    handle_multi_entity_query plain_env gotham_store (entity_cache gotham_bot)
                              "list all characters" = Some m
    /\ me_total_count m = 3%nat.
Proof.
  destruct (handle_multi_entity_query plain_env gotham_store
              (entity_cache gotham_bot) "list all characters")
    as [m|] eqn:Hm; [|vm_compute in Hm; discriminate Hm].
  exists m. split; [reflexivity|].
  destruct (@multi_entity_listing_bounds plain_env gotham_store
              (entity_cache gotham_bot) "list all characters" m Hm)
    as (_ & _ & Hcount & _).
  assert (Hq : me_query_type m = "list_all" /\ me_entity_type m = "characters").
  { vm_compute in Hm. injection Hm as <-. split; reflexivity. }
  destruct Hq as [Hq He]. rewrite (Hcount Hq), He. reflexivity.
Defined.

(* ================================================================== *)
(** ** The search cascade *)
(* ================================================================== *)

Lemma exact_name_search_confidence (db : DB) (q : string) (r : SearchResult) :
  _exact_name_search db q = Some r ->
  sr_confidence r = 1.0%Q /\ sr_match_type r = "exact".
Proof.
  unfold _exact_name_search. intros H. apply first_some_spec in H.
  destruct H as (t & _ & H).
  destruct (find _ (table db t)); [injection H as <-; split; reflexivity|].
  destruct (find _ (table db t)); [injection H as <-; split; reflexivity|].
  discriminate.
Qed.

(** X19: [search_single_entity] returns an exact-name hit as it is, with
    confidence 1.0, whatever the other three searches would find; its result
    is always the result of one of the four searches, and it finds nothing
    only when all four find nothing. *)
Theorem search_single_entity_cascade :
  forall (E : Env) (db : DB) (q : string),
    (forall r, _exact_name_search db q = Some r ->
               search_single_entity E db q = Some r
               /\ sr_confidence r = 1.0%Q /\ sr_match_type r = "exact")
    /\ (forall r, search_single_entity E db q = Some r ->
                  In (Some r) [ _exact_name_search db q; _full_text_search db q;
                                _fuzzy_name_search E db q;
                                _description_search db q ])
    /\ (search_single_entity E db q = None <->
        _exact_name_search db q = None /\ _full_text_search db q = None
        /\ _fuzzy_name_search E db q = None /\ _description_search db q = None).
Proof.
  intros E db q. unfold search_single_entity, confident, or_else.
  destruct (_exact_name_search db q) as [ex|] eqn:Hex.
  - destruct (exact_name_search_confidence _ _ Hex) as [Hc Hm].
    rewrite Hc.
    destruct (Qlt_le_dec 0.9 1.0) as [_|Hle]; [|exfalso; unfold Qle in Hle; simpl in Hle; lia].
    split; [intros r [= <-]; rewrite Hc; auto|].
    split; [intros r [= <-]; simpl; auto|].
    split; [discriminate|intros [H _]; discriminate].
  - split; [discriminate|].
    destruct (_full_text_search db q) as [ft|];
      destruct (_fuzzy_name_search E db q) as [fz|];
      destruct (_description_search db q) as [ds|];
      repeat match goal with
             | |- context [Qlt_le_dec ?x ?y] => destruct (Qlt_le_dec x y)
             end;
      (split;
       [intros r [= <-]; simpl; tauto
       |split; [discriminate|intros (_ & H1 & H2 & H3); discriminate]])
      || (split; [discriminate|split; auto]).
Qed.

Lemma search_single_entity_cascade_witness :
  search_single_entity plain_env gotham_store "batman"
  = Some (mkSearchResult "c1" "characters" "Batman"
                         "The Dark Knight of Gotham." 1.0%Q "exact" "").
Proof.
  apply (proj1 (@search_single_entity_cascade plain_env gotham_store "batman")).
  reflexivity.
Defined.

(* ================================================================== *)
(** ** Entities of the relationship processor *)
(* ================================================================== *)

(** X20: [_find_entity] of the relationship processor cleans the name
    (trimmed, blanks to underscores, title case) and returns a row of the
    table it reports whose name is the cleaned name or contains it in the
    sense of [LIKE]; it finds nothing only if no row of the five tables is
    such a row; and a character named exactly so is found before anything
    else. *)
Theorem find_entity_of_relationship_processor :
  forall (E : Env) (db : DB) (n : string),
    let clean_name := Py.title (Py.replace " " "_" (Py.strip n)) in
    let fits (r : Row) :=
      row_name r = clean_name
      \/ sql_like E (row_name r) ("%" ++ clean_name ++ "%") = true in
    (forall fe, _find_entity E db n = Some fe ->
                In (fe_type fe) all_entity_types
                /\ In (fe_row fe) (table db (fe_type fe))
                /\ fits (fe_row fe))
    /\ (_find_entity E db n = None ->
        forall t r, In t all_entity_types -> In r (table db t) -> ~ fits r)
    /\ (forall c, In c (characters db) -> row_name c = clean_name ->
          exists fe, _find_entity E db n = Some fe
                     /\ fe_type fe = "characters"
                     /\ row_name (fe_row fe) = clean_name).
Proof.
  intros E db n clean_name fits. unfold _find_entity. fold clean_name.
  set (look := fun t : string =>
         match find (fun r : Row => row_name r =? clean_name) (table db t) with
         | Some r => Some (mkFoundEntity r t)
         | None =>
             match find (fun r : Row =>
                           sql_like E (row_name r) ("%" ++ clean_name ++ "%"))
                        (table db t) with
             | Some r => Some (mkFoundEntity r t)
             | None => None
             end
         end).
  split; [|split].
  - intros fe H. apply first_some_spec in H. destruct H as (t & Ht & H).
    assert (Ht' : In t all_entity_types).
    { simpl in Ht. unfold all_entity_types. simpl. tauto. }
    unfold look in H.
    destruct (find (fun r0 : Row => row_name r0 =? clean_name) (table db t))
      as [r|] eqn:Hf.
    + injection H as <-. apply find_some in Hf. destruct Hf as [Hin Hn].
      apply String.eqb_eq in Hn. simpl. unfold fits. auto.
    + destruct (find (fun r0 : Row => sql_like E (row_name r0) _) (table db t))
        as [r|] eqn:Hf2; [|discriminate H].
      injection H as <-. apply find_some in Hf2. destruct Hf2 as [Hin Hl].
      simpl. unfold fits. auto.
  - intros H t r Ht Hr Hfit.
    assert (Ht' : In t ["characters"; "vehicles"; "locations"; "organizations";
                        "storylines"]).
    { unfold all_entity_types in Ht. simpl in Ht. simpl. tauto. }
    pose proof (proj1 (first_some_none look _) H t Ht') as Hlook.
    unfold look in Hlook.
    destruct (find (fun r0 : Row => row_name r0 =? clean_name) (table db t))
      as [x|] eqn:Hf; [discriminate Hlook|].
    destruct (find (fun r0 : Row => sql_like E (row_name r0) _) (table db t))
      as [x|] eqn:Hf2; [discriminate Hlook|].
    destruct Hfit as [Hn|Hl].
    + pose proof (find_none _ _ Hf r Hr) as Hx. cbn beta in Hx.
      rewrite Hn, String.eqb_refl in Hx. discriminate.
    + pose proof (find_none _ _ Hf2 r Hr) as Hx. cbn beta in Hx. congruence.
  - intros c Hc Hn. subst look. cbn [first_some].
    assert (Hex : exists r, find (fun r : Row => row_name r =? clean_name)
                                 (table db "characters") = Some r).
    { destruct (find _ (table db "characters")) as [r|] eqn:Hf; [eauto|].
      pose proof (find_none _ _ Hf c Hc) as Hx. cbn beta in Hx.
      rewrite Hn, String.eqb_refl in Hx. discriminate. }
    destruct Hex as [r Hr]. rewrite Hr.
    eexists. split; [reflexivity|]. split; [reflexivity|].
    apply find_some in Hr. destruct Hr as [_ Hr]. apply String.eqb_eq, Hr.
Qed.

Lemma find_entity_of_relationship_processor_witness :
  In "locations" all_entity_types
  /\ In (mkRow "l1" "Crime_Alley" "A dark alley.") (table gotham_store "locations")
  /\ ("Crime_Alley" = "Crime_Alley"
      \/ sql_like plain_env "Crime_Alley" "%Crime_Alley%" = true).
Proof.
  apply (proj1 (@find_entity_of_relationship_processor plain_env gotham_store
                  " crime alley ")
           (mkFoundEntity (mkRow "l1" "Crime_Alley" "A dark alley.") "locations")).
  reflexivity.
Defined.

(* ================================================================== *)
(** ** The text helpers of the response generator *)
(* ================================================================== *)

Lemma append_empty (s : string) : s ++ "" = s.
Proof. induction s as [|c r IH]; simpl; congruence. Qed.

Lemma append_assoc (a b c : string) : (a ++ b) ++ c = a ++ b ++ c.
Proof. induction a as [|x r IH]; simpl; congruence. Qed.

Lemma length_append (a b : string) :
  String.length (a ++ b) = (String.length a + String.length b)%nat.
Proof. induction a as [|x r IH]; simpl; congruence. Qed.

Lemma prefix_split (p s : string) :
  String.prefix p s = true -> s = p ++ Py.drop (String.length p) s.
Proof.
  revert s. induction p as [|c r IH]; intros s H; simpl.
  - now destruct s.
  - destruct s as [|d t]; simpl in H; [discriminate H|].
    destruct (ascii_dec c d) as [->|]; [|discriminate H].
    simpl. f_equal. apply IH, H.
Qed.

Lemma prefix_of_append (p s t : string) :
  String.prefix p (p ++ s ++ t) = true.
Proof. apply prefix_append. Qed.

Lemma prefix_refl (s : string) : String.prefix s s = true.
Proof. rewrite <- (append_empty s) at 2. apply prefix_append. Qed.

Section SplitFacts.

Import ResponseGenerator.

Lemma split_on_aux_nonempty (sep : string) (s : string) :
  forall k cur, split_on_aux sep k cur s <> [].
Proof.
  induction s as [|c r IH]; intros k cur; cbn [split_on_aux]; [discriminate|].
  destruct k; [|apply IH].
  destruct (String.prefix sep (String c r)); [discriminate|apply IH].
Qed.

Lemma join_cons (sep x : string) (l : list string) :
  l <> [] -> Py.join sep (x :: l) = x ++ sep ++ Py.join sep l.
Proof. destruct l; [congruence|reflexivity]. Qed.

Lemma drop_step (n : nat) (s : string) (c : ascii) (r : string) :
  Py.drop n s = String c r -> Py.drop (S n) s = r.
Proof.
  revert s. induction n as [|n IH]; intros s H; simpl in *.
  - subst s. now destruct r.
  - destruct s as [|d t]; [discriminate|]. apply IH in H. exact H.
Qed.

(** joining the pieces with the separator gives the text back *)
Lemma split_on_aux_join (sep : string) (s : string) :
  sep <> "" ->
  forall k cur,
    (k <= String.length sep)%nat ->
    String.prefix (Py.drop (String.length sep - k) sep) s = true ->
    Py.join sep (split_on_aux sep k cur s) = cur ++ Py.drop k s.
Proof.
  intros Hsep0. induction s as [|c r IH]; intros k cur Hk Hp.
  - simpl. destruct k; simpl; now rewrite append_empty.
  - cbn [split_on_aux]. destruct k as [|k].
    + cbn [Py.drop].
      destruct (String.prefix sep (String c r)) eqn:Hsep.
      * rewrite join_cons by apply split_on_aux_nonempty.
        destruct sep as [|c0 sep']; [congruence|].
        assert (Hsep' : String.prefix sep' r = true).
        { cbn [String.prefix] in Hsep.
          destruct (ascii_dec c0 c); [exact Hsep|discriminate Hsep]. }
        assert (Hc : c0 = c).
        { cbn [String.prefix] in Hsep.
          destruct (ascii_dec c0 c); [assumption|discriminate Hsep]. }
        subst c0.
        change (String.length (String c sep') - 1)%nat
          with (String.length sep' - 0)%nat.
        rewrite Nat.sub_0_r.
        rewrite IH.
        -- cbn [String.append]. f_equal. f_equal. f_equal.
           symmetry. apply prefix_split, Hsep'.
        -- cbn [String.length]. lia.
        -- replace (String.length (String c sep') - String.length sep')%nat
             with 1%nat by (cbn [String.length]; lia).
           exact Hsep'.
      * rewrite IH; [|lia|].
        -- rewrite append_assoc. reflexivity.
        -- rewrite Nat.sub_0_r.
           replace (Py.drop (String.length sep) sep) with ""; [apply prefix_empty|].
           clear. induction sep; simpl; auto.
    + cbn [Py.drop].
      destruct (Py.drop (String.length sep - S k) sep) as [|c0 rest] eqn:Hd.
      * (* impossible: at least [S k] characters of the separator remain *)
        exfalso.
        assert (Hlen : forall n t, (String.length (Py.drop n t)
                                    = String.length t - n)%nat).
        { clear. induction n as [|n IHn]; intros t; simpl; [lia|].
          destruct t; simpl; [reflexivity|apply IHn]. }
        pose proof (Hlen (String.length sep - S k)%nat sep) as Hl.
        rewrite Hd in Hl. simpl in Hl. lia.
      * simpl in Hp. destruct (ascii_dec c0 c) as [->|]; [|discriminate].
        apply IH; [lia|].
        apply drop_step in Hd.
        replace (String.length sep - k)%nat with (S (String.length sep - S k))
          by lia.
        rewrite Hd. exact Hp.
Qed.

Lemma split_on_join (sep s : string) :
  sep <> "" -> Py.join sep (split_on sep s) = s.
Proof.
  intros Hsep. unfold split_on. rewrite split_on_aux_join.
  - reflexivity.
  - exact Hsep.
  - lia.
  - rewrite Nat.sub_0_r.
    replace (Py.drop (String.length sep) sep) with ""; [apply prefix_empty|].
    clear. induction sep; simpl; auto.
Qed.

End SplitFacts.

Section OptimizeLength.

Import ResponseGenerator.

Lemma join_length_bound (tm : nat) (l : list string) :
  forall cl,
    truncate_sentences tm cl l <> [] ->
    (cl + String.length (Py.join ". " (truncate_sentences tm cl l)) <= tm)%nat.
Proof.
  induction l as [|s rest IH]; intros cl Hne; cbn [truncate_sentences] in *;
    [congruence|].
  destruct (tm <? cl + String.length s)%nat eqn:Hfit; [congruence|].
  apply Nat.ltb_ge in Hfit.
  destruct (truncate_sentences tm (cl + String.length s + 2) rest) as [|t ts] eqn:Ht.
  - simpl. lia.
  - rewrite join_cons by discriminate.
    assert (Hne' : truncate_sentences tm (cl + String.length s + 2) rest <> [])
      by (rewrite Ht; discriminate).
    specialize (IH _ Hne'). rewrite Ht in IH.
    rewrite !length_append. change (String.length ". ") with 2%nat. lia.
Qed.

(** the kept sentences are all of them, none of them, or a proper prefix
    after which the text goes on with a separator *)
Lemma truncate_prefix (tm : nat) (l : list string) :
  forall cl,
    let t := truncate_sentences tm cl l in
    t = l \/ t = []
    \/ (t <> [] /\ exists rest, Py.join ". " l = Py.join ". " t ++ ". " ++ rest).
Proof.
  induction l as [|s rest IH]; intros cl; cbn [truncate_sentences];
    [now left|].
  destruct (tm <? cl + String.length s)%nat; [right; now left|].
  destruct (IH (cl + String.length s + 2)%nat) as [Hall|[Hnone|(Hne & tail & Htail)]].
  - left. now rewrite Hall.
  - rewrite Hnone. destruct rest as [|r0 rest'].
    + now left.
    + right. right. split; [discriminate|].
      exists (Py.join ". " (r0 :: rest')).
      rewrite join_cons by discriminate. reflexivity.
  - right. right. split; [discriminate|].
    exists tail.
    assert (Hrest : rest <> []).
    { intros ->. cbn [truncate_sentences] in Hne. congruence. }
    rewrite (join_cons _ _ Hrest), (join_cons _ _ Hne), Htail.
    rewrite !append_assoc. reflexivity.
Qed.

End OptimizeLength.

(** X21: [_optimize_length] only ever cuts a response at the end: its result
    is a prefix of the response, and it is either the whole response or at
    most 601 characters long (600 and a final full stop).  A response whose
    first sentence alone exceeds 600 characters is returned whole. *)
Theorem optimize_length_truncates :
  forall response : string,
    let result := ResponseGenerator._optimize_length response in
    String.prefix result response = true
    /\ (result = response \/ (String.length result <= 601)%nat)
    /\ ((600 < String.length
                 (hd "" (ResponseGenerator.split_on ". " response)))%nat ->
        result = response).
Proof.
  intros response result. subst result.
  apply and_assoc. split.
  2:{ intros Hfirst. unfold ResponseGenerator._optimize_length.
      destruct (600 <? String.length response)%nat; [|reflexivity].
      destruct (ResponseGenerator.split_on ". " response) as [|s1 rest];
        [reflexivity|].
      cbn [hd] in Hfirst. cbn [ResponseGenerator.truncate_sentences].
      apply Nat.ltb_lt in Hfirst. rewrite Nat.add_0_l, Hfirst. reflexivity. }
  unfold ResponseGenerator._optimize_length.
  destruct (600 <? String.length response)%nat eqn:Hlong;
    [|split; [apply prefix_refl|now left]].
  apply Nat.ltb_lt in Hlong.
  pose proof (truncate_prefix 600
                (ResponseGenerator.split_on ". " response) 0) as Hcases.
  pose proof (@join_length_bound 600
                (ResponseGenerator.split_on ". " response) 0) as Hbound.
  cbv zeta in Hcases.
  assert (Hjoin : Py.join ". " (ResponseGenerator.split_on ". " response)
                  = response)
    by (apply split_on_join; discriminate).
  destruct (ResponseGenerator.truncate_sentences 600 0
              (ResponseGenerator.split_on ". " response)) as [|t ts] eqn:Ht;
    [split; [apply prefix_refl|now left]|].
  specialize (Hbound ltac:(discriminate)). rewrite Nat.add_0_l in Hbound.
  destruct Hcases as [Hall|[Hnone|(_ & tail & Htail)]]; [| discriminate |].
  - exfalso. rewrite <- Hall in Hjoin. rewrite Hjoin in Hbound. lia.
  - rewrite Hjoin in Htail.
    destruct (match ResponseGenerator.last_char (Py.join ". " (t :: ts)) with
              | Some c => Ascii.eqb c "."
              | None => false
              end).
    + split; [rewrite Htail; apply prefix_append|right; lia].
    + split.
      * rewrite Htail.
        change (". " ++ tail) with ("." ++ " " ++ tail).
        rewrite <- append_assoc. apply prefix_append.
      * right. rewrite length_append. change (String.length ".") with 1%nat. lia.
Qed.

Lemma optimize_length_truncates_witness :
  ResponseGenerator._optimize_length (repeat_char "a" 700 ++ ". The end.")
  = repeat_char "a" 700 ++ ". The end.".
Proof.
  apply (proj2 (proj2 (@optimize_length_truncates
                         (repeat_char "a" 700 ++ ". The end.")))).
  apply Nat.ltb_lt. vm_compute. reflexivity.
Defined.

(** *** Cleaning a description *)

Section CleanDescription.

Import ResponseGenerator.

Lemma collapse_idem (s : string) :
  (forall b, collapse_aux false (collapse_aux b s) = collapse_aux b s)
  /\ collapse_aux true (collapse_aux true s) = collapse_aux true s.
Proof.
  induction s as [|c r [IH1 IH2]]; [split; [intros []|]; reflexivity|].
  split.
  - intros b. cbn [collapse_aux]. destruct (Py.is_space c) eqn:Hc.
    + destruct b; [apply IH1|].
      cbn [collapse_aux]. change (Py.is_space " ") with true. cbv iota.
      now rewrite IH2.
    + cbn [collapse_aux]. rewrite Hc. now rewrite IH1.
  - cbn [collapse_aux]. destruct (Py.is_space c) eqn:Hc; [exact IH2|].
    cbn [collapse_aux]. rewrite Hc. now rewrite IH1.
Qed.

Lemma collapse_append (s : string) (c : ascii) (t : string) :
  Py.is_space c = false ->
  forall b,
    collapse_aux b (s ++ String c t)
    = collapse_aux b s ++ String c (collapse_aux false t).
Proof.
  intros Hc. induction s as [|d r IH]; intros b; cbn [String.append collapse_aux].
  - rewrite Hc. reflexivity.
  - destruct (Py.is_space d); [destruct b|]; cbn [String.append];
      now rewrite IH.
Qed.

Lemma last_char_snoc (s : string) (c : ascii) :
  last_char (s ++ String c EmptyString) = Some c.
Proof.
  induction s as [|d r IH]; [reflexivity|].
  cbn [String.append last_char]. rewrite IH.
  destruct (r ++ String c EmptyString) eqn:Hr; [destruct r; discriminate|].
  reflexivity.
Qed.

Lemma last_char_split (s : string) (c : ascii) :
  last_char s = Some c -> exists s', s = s' ++ String c EmptyString.
Proof.
  induction s as [|d r IH]; [discriminate|]. cbn [last_char].
  destruct r as [|e r'].
  - intros [= ->]. exists "". reflexivity.
  - intros H. destruct (IH H) as [s' Hs']. exists (String d s').
    cbn [String.append]. now rewrite <- Hs'.
Qed.

Lemma last_char_none (s : string) : last_char s = None -> s = "".
Proof.
  induction s as [|d r IH]; [reflexivity|]. cbn [last_char].
  destruct r; [discriminate|]. intros H. specialize (IH H). discriminate.
Qed.

Lemma rstrip_length (s : string) :
  (String.length (Py.rstrip s) <= String.length s)%nat.
Proof.
  induction s as [|c r IH]; simpl; [lia|].
  destruct (Py.rstrip r); [destruct (Py.is_space c)|]; simpl in *; lia.
Qed.

Lemma rstrip_snoc_space (s : string) (c : ascii) :
  Py.is_space c = true ->
  Py.rstrip (s ++ String c EmptyString) = Py.rstrip s.
Proof.
  intros Hc. induction s as [|d r IH]; simpl; [now rewrite Hc|].
  now rewrite IH.
Qed.

(** trimmed on the right: empty, or the last character is not white space *)
Lemma rstrip_fixed (s : string) :
  Py.rstrip s = s <->
  match last_char s with
  | Some c => Py.is_space c = false
  | None => True
  end.
Proof.
  destruct (last_char s) as [c|] eqn:Hl.
  - apply last_char_split in Hl. destruct Hl as [s' ->]. split.
    + intros H. destruct (Py.is_space c) eqn:Hc; [|reflexivity].
      rewrite (@rstrip_snoc_space s' c Hc) in H.
      pose proof (rstrip_length s') as Hlen. rewrite H in Hlen.
      rewrite length_append in Hlen. simpl in Hlen. lia.
    + apply rstrip_snoc.
  - apply last_char_none in Hl. subst s. split; auto.
Qed.

Lemma last_char_collapse (s : string) (c : ascii) :
  last_char s = Some c -> Py.is_space c = false ->
  forall b, last_char (collapse_aux b s) = Some c.
Proof.
  intros Hl Hc. apply last_char_split in Hl. destruct Hl as [s' ->].
  intros b. rewrite (@collapse_append s' c "" Hc). apply last_char_snoc.
Qed.

Lemma collapse_head (c : ascii) (r : string) (b : bool) :
  Py.is_space c = false ->
  collapse_aux b (String c r) = String c (collapse_aux false r).
Proof. intros Hc. cbn [collapse_aux]. now rewrite Hc. Qed.

End CleanDescription.

(** X22: for a description with at least one character that is not white
    space, [_clean_description] gives a text that ends with a full stop, an
    exclamation mark or a question mark, that neither starts nor ends with
    white space, in which every run of white space is one blank, and which
    it leaves unchanged when applied again. *)
Theorem clean_description_normal_form :
  forall d : string,
    Py.strip d <> "" ->
    let c := ResponseGenerator._clean_description d in
    ResponseGenerator.ends_sentence c = true
    /\ Py.strip c = c
    /\ ResponseGenerator.collapse_spaces c = c
    /\ ResponseGenerator._clean_description c = c.
Proof.
  intros d Hne c.
  assert (Hd : (d =? "") = false).
  { apply String.eqb_neq. intros ->. apply Hne. reflexivity. }
  set (x := Py.strip d) in *.
  assert (Hxl : Py.lstrip x = x).
  { unfold x, Py.strip. apply lstrip_rstrip_lstrip. }
  assert (Hxr : Py.rstrip x = x).
  { unfold x, Py.strip. apply rstrip_rstrip. }
  set (y := ResponseGenerator.collapse_spaces x).
  destruct x as [|x0 xr] eqn:Hx; [congruence|].
  assert (Hx0 : Py.is_space x0 = false) by (apply lstrip_fixed in Hxl; exact Hxl).
  assert (Hy : y = String x0 (ResponseGenerator.collapse_aux false xr))
    by (apply collapse_head; exact Hx0).
  assert (Hyl : Py.lstrip y = y) by (rewrite Hy; apply lstrip_fixed; exact Hx0).
  assert (Hyr : Py.rstrip y = y).
  { apply rstrip_fixed. apply rstrip_fixed in Hxr.
    destruct (ResponseGenerator.last_char (String x0 xr)) as [l|] eqn:Hl.
    - unfold y, ResponseGenerator.collapse_spaces.
      rewrite (@last_char_collapse (String x0 xr) l Hl Hxr). exact Hxr.
    - apply last_char_none in Hl. discriminate. }
  assert (Hyc : ResponseGenerator.collapse_spaces y = y)
    by apply (proj1 (collapse_idem (String x0 xr)) false).
  assert (Hynz : (y =? "") = false) by (rewrite Hy; reflexivity).
  (* the properties carry over to the text with the final stop *)
  assert (Hfinal : forall c0,
            c0 <> "" -> ResponseGenerator.ends_sentence c0 = true ->
            Py.strip c0 = c0 -> ResponseGenerator.collapse_spaces c0 = c0 ->
            ResponseGenerator.ends_sentence c0 = true
            /\ Py.strip c0 = c0
            /\ ResponseGenerator.collapse_spaces c0 = c0
            /\ ResponseGenerator._clean_description c0 = c0).
  { intros c0 Hnz He Hs Hc. repeat split; try assumption.
    unfold ResponseGenerator._clean_description.
    apply String.eqb_neq in Hnz. rewrite Hnz, Hs, Hc, He.
    rewrite andb_false_r. reflexivity. }
  subst c. unfold ResponseGenerator._clean_description. rewrite Hd.
  fold x. rewrite Hx. fold y. rewrite Hynz. cbn [negb andb].
  destruct (ResponseGenerator.ends_sentence y) eqn:He; cbn [negb].
  - apply Hfinal; try assumption; [rewrite Hy; discriminate|].
    apply strip_fixed; assumption.
  - apply Hfinal.
    + rewrite Hy. discriminate.
    + unfold ResponseGenerator.ends_sentence. rewrite last_char_snoc. reflexivity.
    + apply strip_fixed; [|apply rstrip_snoc; reflexivity].
      rewrite Hy. apply lstrip_fixed. exact Hx0.
    + unfold ResponseGenerator.collapse_spaces.
      rewrite (@collapse_append y "." "" eq_refl false).
      fold (ResponseGenerator.collapse_spaces y). rewrite Hyc. reflexivity.
Qed.

Lemma clean_description_normal_form_witness :
  ResponseGenerator._clean_description
    (ResponseGenerator._clean_description "  The   Dark Knight ")
  = ResponseGenerator._clean_description "  The   Dark Knight ".
Proof.
  apply (@clean_description_normal_form "  The   Dark Knight ").
  discriminate.
Defined.

(** *** The fixes that can no longer apply *)

Section CamelFacts.

Import ResponseGenerator.

(** a text that [split_camel] leaves unchanged has no small letter directly
    before a capital one; so has each of its tails *)
Lemma split_camel_tail (c : ascii) (r : string) :
  split_camel (String c r) = String c r -> split_camel r = r.
Proof.
  cbn [split_camel]. destruct r as [|d r']; [reflexivity|].
  destruct (Py.is_lower c && Py.is_upper d) eqn:Hcd; [|congruence].
  intros H. exfalso.
  assert (Hd : d = " "%char) by congruence.
  subst d. rewrite andb_comm in Hcd. discriminate Hcd.
Qed.

Lemma split_camel_pair (c d : ascii) (r : string) :
  split_camel (String c (String d r)) = String c (String d r) ->
  Py.is_lower c && Py.is_upper d = false.
Proof.
  cbn [split_camel].
  destruct (Py.is_lower c && Py.is_upper d) eqn:Hcd; [|reflexivity].
  intros H. exfalso.
  assert (Hd : d = " "%char) by congruence.
  subst d. rewrite andb_comm in Hcd. discriminate Hcd.
Qed.

Lemma split_camel_idem (s : string) :
  split_camel (split_camel s) = split_camel s.
Proof.
  induction s as [|c r IH]; [reflexivity|].
  destruct r as [|d r']; [reflexivity|].
  change (split_camel (String c (String d r')))
    with (String c (if Py.is_lower c && Py.is_upper d
                    then String " " (split_camel (String d r'))
                    else split_camel (String d r'))).
  assert (Hhead : exists X, split_camel (String d r') = String d X).
  { cbn [split_camel]. eexists. reflexivity. }
  destruct Hhead as [X HX]. rewrite HX in *.
  destruct (Py.is_lower c && Py.is_upper d) eqn:Hcd.
  - change (split_camel (String c (String " " (String d X))))
      with (String c (if Py.is_lower c && false
                      then String " " (split_camel (String " " (String d X)))
                      else String " " (split_camel (String d X)))).
    rewrite andb_false_r. now rewrite IH.
  - change (split_camel (String c (String d X)))
      with (String c (if Py.is_lower c && Py.is_upper d
                      then String " " (split_camel (String d X))
                      else split_camel (String d X))).
    rewrite Hcd. now rewrite IH.
Qed.

Lemma split_camel_prefix (p : string) :
  forall t, split_camel t = t -> String.prefix p t = true -> split_camel p = p.
Proof.
  induction p as [|c p' IH]; intros t Ht Hp; [reflexivity|].
  destruct t as [|c' t']; [discriminate Hp|].
  cbn [String.prefix] in Hp. destruct (ascii_dec c c') as [<-|]; [|discriminate Hp].
  pose proof (IH t' (split_camel_tail Ht) Hp) as IHp.
  destruct p' as [|d p'']; [reflexivity|].
  destruct t' as [|d' t'']; [discriminate Hp|].
  cbn [String.prefix] in Hp. destruct (ascii_dec d d') as [<-|]; [|discriminate Hp].
  apply split_camel_pair in Ht.
  change (split_camel (String c (String d p'')))
    with (String c (if Py.is_lower c && Py.is_upper d
                    then String " " (split_camel (String d p''))
                    else split_camel (String d p''))).
  rewrite Ht, IHp. reflexivity.
Qed.

Lemma replace_aux_camel (old new : string) :
  split_camel old <> old ->
  forall t, split_camel t = t -> Py.replace_aux old new 0 t = t.
Proof.
  intros Hold. induction t as [|c r IH]; intros Ht; [reflexivity|].
  cbn [Py.replace_aux].
  destruct (String.prefix old (String c r)) eqn:Hp.
  - exfalso. apply Hold. exact (split_camel_prefix old Ht Hp).
  - rewrite (IH (split_camel_tail Ht)). reflexivity.
Qed.

Lemma replace_camel (old new s : string) :
  split_camel old <> old ->
  Py.replace old new (split_camel s) = split_camel s.
Proof.
  intros Hold. destruct old as [|c old']; [exfalso; apply Hold; reflexivity|].
  unfold Py.replace. apply replace_aux_camel; [exact Hold|].
  apply split_camel_idem.
Qed.

End CamelFacts.

(** X23: in [_improve_description_formatting] the seven fixes whose key has
    a capital letter after a small one (theBatmobile, theJoker, theBatman,
    theUnited, asArkham, ofGotham, byBatman) never change the text: the
    substitution before them has already put a blank between every small
    letter and the capital letter that follows it. The result is the one
    the last five fixes alone give. *)
Theorem capital_fixes_never_apply :
  (forall (s old new : string),
      In (old, new) (firstn 7 ResponseGenerator.concatenation_fixes) ->
      Py.replace old new (ResponseGenerator.split_camel s)
      = ResponseGenerator.split_camel s)
  /\ (forall description : string,
         description <> "" ->
         ResponseGenerator._improve_description_formatting description
         = ResponseGenerator.apply_fixes
             (skipn 7 ResponseGenerator.concatenation_fixes)
             (ResponseGenerator.split_camel
                (ResponseGenerator.space_after_period
                   (ResponseGenerator._clean_description description)))).
Proof.
  assert (Hfix : forall (s old new : string),
             In (old, new) (firstn 7 ResponseGenerator.concatenation_fixes) ->
             Py.replace old new (ResponseGenerator.split_camel s)
             = ResponseGenerator.split_camel s).
  { intros s old new Hin. apply replace_camel.
    unfold ResponseGenerator.concatenation_fixes in Hin.
    cbn [firstn In] in Hin.
    repeat (destruct Hin as [Hin|Hin];
            [assert (Ho : old = fst (old, new)) by reflexivity;
             rewrite <- Hin in Ho; cbn [fst] in Ho; subst old;
             vm_compute; discriminate|]).
    destruct Hin. }
  split; [exact Hfix|].
  intros description Hne.
  unfold ResponseGenerator._improve_description_formatting.
  apply String.eqb_neq in Hne. rewrite Hne.
  set (t := ResponseGenerator.space_after_period
              (ResponseGenerator._clean_description description)).
  pose proof (Hfix t) as Ht.
  unfold ResponseGenerator.apply_fixes, ResponseGenerator.concatenation_fixes.
  unfold ResponseGenerator.concatenation_fixes in Ht.
  cbn [firstn In] in Ht.
  cbn [fold_left fst snd skipn].
  rewrite (Ht "theBatmobile" "the Batmobile") by tauto.
  rewrite (Ht "theJoker" "the Joker") by tauto.
  rewrite (Ht "theBatman" "the Batman") by tauto.
  rewrite (Ht "theUnited" "the United") by tauto.
  rewrite (Ht "asArkham" "as Arkham") by tauto.
  rewrite (Ht "ofGotham" "of Gotham") by tauto.
  rewrite (Ht "byBatman" "by Batman") by tauto.
  reflexivity.
Qed.

Lemma capital_fixes_never_apply_witness :
  ResponseGenerator._improve_description_formatting "Driven bythe heroes ofGotham"
  = "Driven by the heroes of Gotham.".
Proof.
  rewrite (proj2 capital_fixes_never_apply "Driven bythe heroes ofGotham");
    [vm_compute; reflexivity | discriminate].
Defined.

(* ================================================================== *)
(** ** Relationship questions of the conversation intelligence *)
(* ================================================================== *)

Lemma flat_map_length_le {A B} (f : A -> list B) (l : list A) :
  (forall a, List.length (f a) <= 1)%nat ->
  (List.length (flat_map f l) <= List.length l)%nat.
Proof.
  intros Hf. induction l as [|a l IH]; [apply Nat.le_refl|].
  cbn [flat_map]. rewrite List.length_app. cbn [List.length].
  specialize (Hf a). lia.
Qed.

Lemma predefined_relationships_length (E : Env) (db : DB) (id t : string) :
  (List.length (_get_predefined_relationships E db id t) <= 8)%nat.
Proof.
  unfold _get_predefined_relationships.
  destruct (find (fun r => row_id r =? id) (characters db)); [|cbn; lia].
  cbv zeta.
  match goal with
  | |- (List.length (flat_map ?f (firstn 8 ?l)) <= 8)%nat =>
      transitivity (List.length (firstn 8 l));
        [apply flat_map_length_le | rewrite List.length_firstn; apply Nat.le_min_l]
  end.
  intros n.
  destruct (find _ (characters db)); cbn [List.length]; lia.
Qed.

Lemma predefined_relationships_family (E : Env) (db : DB) (id : string) :
  _get_predefined_relationships E db id "family" = [].
Proof.
  unfold _get_predefined_relationships.
  destruct (find (fun r => row_id r =? id) (characters db)); [|reflexivity].
  cbv zeta.
  change (get_list batman_relationships "family") with (@nil string).
  change (get_list joker_relationships "family") with (@nil string).
  change ("family" =? "enemies") with false.
  destruct (_ || _); [reflexivity|].
  destruct (Py.is_in "joker" _); reflexivity.
Qed.

(** X24: [handle_relationship_query] answers only for a character.  When the
    store holds relationships of that character, the answer lists all of
    them, whatever kind was asked for: the kind read from the question does
    not enter the query.  When it holds none, the answer comes from the
    predefined lists: it has at most eight entries, and a question about
    the family, which no predefined list covers, gets no answer. *)
Theorem relationship_answer_origin :
  forall (E : Env) (db : DB) (cache : Cache) (q : string) (r : RelatedResult),
    handle_relationship_query E db cache q = Some r ->
    exists n t m,
      _parse_relationship_query E q = Some (n, t)
      /\ find_best_entity_match E cache n None 70 = Some m
      /\ em_entity_type m = "characters"
      /\ rel_relationship_type r = t
      /\ rel_related_entities r <> []
      /\ (character_relationships db (em_entity_id m) <> [] ->
          rel_related_entities r
          = map fst (character_relationships db (em_entity_id m)))
      /\ (character_relationships db (em_entity_id m) = [] ->
          t <> "family"
          /\ (List.length (rel_related_entities r) <= 8)%nat).
Proof.
  intros E db cache q r H. unfold handle_relationship_query in H.
  destruct (_parse_relationship_query E q) as [[n t]|] eqn:Hp; [|discriminate H].
  destruct (find_best_entity_match E cache n None 70) as [m|] eqn:Hm;
    [|discriminate H].
  destruct (_get_entity_by_id db (em_entity_id m) (em_entity_type m))
    as [primary|]; [|discriminate H].
  remember (_find_related_entities E db (em_entity_id m) (em_entity_type m) t)
    as related eqn:Hrel.
  destruct related as [|x rest]; [discriminate H|].
  assert (Hr : rel_related_entities r = (x :: rest)%list
               /\ rel_relationship_type r = t).
  { assert (Hsome : r = mkRelatedResult primary (x :: rest)%list t
                          (_generate_relationship_explanation E primary
                             (x :: rest)%list t) 0.8%Q) by congruence.
    rewrite Hsome. split; reflexivity. }
  destruct Hr as [Hr1 Hr2].
  unfold _find_related_entities in Hrel.
  destruct (em_entity_type m =? "characters") eqn:Hty; [|discriminate Hrel].
  apply String.eqb_eq in Hty.
  exists n, t, m. repeat split; try assumption.
  - rewrite Hr1. discriminate.
  - intros Hne. rewrite Hr1, Hrel.
    destruct (character_relationships db (em_entity_id m)); [congruence|reflexivity].
  - intros ->.
    destruct (character_relationships db (em_entity_id m)) eqn:Hc; [|discriminate].
    rewrite predefined_relationships_family in Hrel. discriminate Hrel.
  - rewrite Hr1, Hrel.
    destruct (character_relationships db (em_entity_id m)) eqn:Hc;
      [apply predefined_relationships_length|congruence].
Qed.

Lemma relationship_answer_origin_witness :
  exists n t m,
    _parse_relationship_query robin_env "who are batman's enemies" = Some (n, t)
    /\ find_best_entity_match robin_env (entity_cache robin_bot) n None 70 = Some m
    /\ em_entity_type m = "characters"
    /\ rel_relationship_type
         (mkRelatedResult (mkRow "c1" "Batman" "The Dark Knight of Gotham.")
            [ mkRow "c2" "Robin" "The Boy Wonder." ] "enemies"
            "Batman's enemie is Robin." 0.8%Q) = t
    /\ rel_related_entities
         (mkRelatedResult (mkRow "c1" "Batman" "The Dark Knight of Gotham.")
            [ mkRow "c2" "Robin" "The Boy Wonder." ] "enemies"
            "Batman's enemie is Robin." 0.8%Q) <> []
    /\ (character_relationships robin_store (em_entity_id m) <> [] ->
        rel_related_entities
          (mkRelatedResult (mkRow "c1" "Batman" "The Dark Knight of Gotham.")
             [ mkRow "c2" "Robin" "The Boy Wonder." ] "enemies"
             "Batman's enemie is Robin." 0.8%Q)
        = map fst (character_relationships robin_store (em_entity_id m)))
    /\ (character_relationships robin_store (em_entity_id m) = [] ->
        t <> "family"
        /\ (List.length
              (rel_related_entities
                 (mkRelatedResult (mkRow "c1" "Batman" "The Dark Knight of Gotham.")
                    [ mkRow "c2" "Robin" "The Boy Wonder." ] "enemies"
                    "Batman's enemie is Robin." 0.8%Q)) <= 8)%nat).
Proof.
  apply (@relationship_answer_origin robin_env robin_store
           (entity_cache robin_bot) "who are batman's enemies").
  vm_compute. reflexivity.
Defined.
